(** * cube_chat: the streaming aggregation pipeline

    A shallow embedding of
      - [backend/src/cubeClient.ts]  ([mergeMeta], [sendToCube], the token
                                      exchange and its cache),
      - [backend/src/repo.ts]        ([createConversation], [addMessage], [listMessages],
                                      over the tables of [backend/src/db.ts]),
      - the server entry point       (the [/api/chat] handler and its [onDelta] callback,
                                      the handler that lists messages),
      - [frontend/src/App.tsx]       (the [setMessages] reducers of [handleSend]),
    followed by the properties of the specification that concern them.

    Conventions.  A JavaScript string is a [string]; one character of the
    model stands for one UTF-16 code unit below 256.  [undefined] is [None]
    of an [option].  A decoded JSON value is a [json]; an object keeps its
    properties in the order the engine lists them, because
    [JSON.stringify] observes it. *)

From Stdlib Require Import String Ascii List Bool Arith NArith Lia DecimalString.
From Stdlib Require Import Sorted Permutation.
Import ListNotations.
Open Scope list_scope.
Open Scope string_scope.
Local Set Warnings "-register-all".

(* ================================================================== *)
(** ** ECMAScript values and the built-ins the program calls *)

Module Js.

(** A value produced by [JSON.parse].  A number is kept as the text
    [Number.prototype.toString] gives for it (so zero and minus zero are
    both ["0"]); the program never computes with numbers.  The fields of
    an object are its own properties, in the order it lists them. *)
Inductive json : Type :=
| JNull
| JBool (b : bool)
| JNum (lit : string)
| JStr (s : string)
| JArr (items : list json)
| JObj (fields : list (string * json)).

(** ToBoolean, on a value that may be [undefined]. *)
Definition truthy (v : option json) : bool :=
  match v with
  | None => false
  | Some JNull => false
  | Some (JBool b) => b
  | Some (JNum lit) => negb ((lit =? "0") || (lit =? "NaN"))
  | Some (JStr s) => negb (s =? "")
  | Some (JArr _) => true
  | Some (JObj _) => true
  end.

(** ToBoolean of a string: only the empty string is falsy. *)
Definition truthy_str (s : string) : bool := negb (s =? "").

Fixpoint assoc (k : string) (fs : list (string * json)) : option json :=
  match fs with
  | [] => None
  | (k', v) :: rest => if k' =? k then Some v else assoc k rest
  end.

(** An array index: the canonical decimal text of an integer below
    [2^32 - 1]. *)
Definition array_index (k : string) : option N :=
  match NilZero.uint_of_string k with
  | Some d =>
      let n := N.of_uint d in
      if (NilZero.string_of_uint (N.to_uint n) =? k)
         && (n <=? 4294967294)%N
      then Some n
      else None
  | None => None
  end.

(** The order in which an object lists its own properties: the array
    indices in ascending order, then the other names in the order they
    were created.  [precedes k k'] says that a new property [k] goes
    before the existing property [k']. *)
Definition precedes (k k' : string) : bool :=
  match array_index k, array_index k' with
  | Some n, Some n' => (n <? n')%N
  | Some _, None => true
  | None, _ => false
  end.

(** A new property finds its place. *)
Fixpoint obj_add (k : string) (v : json) (fs : list (string * json))
  : list (string * json) :=
  match fs with
  | [] => [(k, v)]
  | (k', v') :: rest =>
      if precedes k k' then (k, v) :: (k', v') :: rest
      else (k', v') :: obj_add k v rest
  end.

(** An existing property keeps its place. *)
Fixpoint obj_replace (k : string) (v : json) (fs : list (string * json))
  : list (string * json) :=
  match fs with
  | [] => []
  | (k', v') :: rest =>
      if k' =? k then (k', v) :: rest else (k', v') :: obj_replace k v rest
  end.

(** Defining the own property [k] of an ordinary object, which is what
    [o[k] = v] does for every name but ["__proto__"]. *)
Definition obj_set (k : string) (v : json) (fs : list (string * json))
  : list (string * json) :=
  match assoc k fs with
  | Some _ => obj_replace k v fs
  | None => obj_add k v fs
  end.

Definition index_key (n : nat) : string :=
  NilZero.string_of_uint (Nat.to_uint n).

Fixpoint indexed (n : nat) (xs : list json) : list (string * json) :=
  match xs with
  | [] => []
  | x :: rest => (index_key n, x) :: indexed (S n) rest
  end.

(** The own enumerable string-keyed properties of a value, as object spread
    and [Object.assign] read them: the properties of an object, the
    elements of an array, the code units of a string, nothing otherwise. *)
Definition own_props (v : json) : list (string * json) :=
  match v with
  | JObj fs => fs
  | JArr xs => indexed 0 xs
  | JStr s =>
      indexed 0 (map (fun c => JStr (String c "")) (list_ascii_of_string s))
  | _ => []
  end.

(** [Object.assign(out, src)] assigns each own property of [src] with
    [out[k] = v].  For the key ["__proto__"] that assignment reaches the
    setter [out] inherits: it changes the prototype of [out] and adds no
    own property.  (A [json] has no prototype: the program only ever
    copies and serializes own properties.) *)
Definition assign (out : list (string * json)) (src : json)
  : list (string * json) :=
  fold_left (fun o kv => if fst kv =? "__proto__" then o
                         else obj_set (fst kv) (snd kv) o)
    (own_props src) out.

(** [{ ...(v || {}) }]: a copy of the own properties of [v], none when
    [v] is falsy.  The copy defines each property, ["__proto__"] too, and
    lists them as [v] does. *)
Definition spread_or_empty (v : option json) : list (string * json) :=
  match v with
  | Some x => if truthy v then own_props x else []
  | None => []
  end.

(** Property read [v.k] on a value that is not [null], for a name [k]
    that is neither an index nor ["length"] (every name the program reads
    is such a name): only an object can have it. *)
Definition get (k : string) (v : json) : option json :=
  match v with
  | JObj fs => assoc k fs
  | _ => None
  end.

(** [v?.k] on a value that may be [undefined] or [null]. *)
Definition get_opt (k : string) (v : option json) : option json :=
  match v with
  | None | Some JNull => None
  | Some x => get k x
  end.

Definition json_eqb_str (v : option json) (s : string) : bool :=
  match v with
  | Some (JStr s') => s' =? s
  | _ => false
  end.

Definition is_string (v : option json) : option string :=
  match v with
  | Some (JStr s) => Some s
  | _ => None
  end.

(** *** Strings *)

Definition nl : ascii := "010"%char.

(** [s.split("\n")]: never empty, the last piece is what follows the last
    newline. *)
Fixpoint split_nl (s : string) : list string :=
  match s with
  | EmptyString => [EmptyString]
  | String c rest =>
      if Ascii.eqb c nl then EmptyString :: split_nl rest
      else match split_nl rest with
           | [] => [String c EmptyString]
           | piece :: pieces => String c piece :: pieces
           end
  end.

(** [s.split(/\n+/)]: a run of newlines is one separator. *)
Fixpoint split_nl_runs (in_run : bool) (s : string) : list string :=
  match s with
  | EmptyString => [EmptyString]
  | String c rest =>
      if Ascii.eqb c nl then
        if in_run then split_nl_runs true rest
        else EmptyString :: split_nl_runs true rest
      else match split_nl_runs false rest with
           | [] => [String c EmptyString]
           | piece :: pieces => String c piece :: pieces
           end
  end.

(** White space and line terminators among the code units below 256:
    TAB, LF, VT, FF, CR, SP and NBSP. *)
Definition is_space (c : ascii) : bool :=
  let n := nat_of_ascii c in
  (Nat.leb 9 n && Nat.leb n 13) || Nat.eqb n 32 || Nat.eqb n 160.

Fixpoint trim_start (s : string) : string :=
  match s with
  | EmptyString => EmptyString
  | String c rest => if is_space c then trim_start rest else s
  end.

(** [trim_end] keeps a character when it is not white space or when
    something other than white space follows it. *)
Fixpoint trim_end (s : string) : string :=
  match s with
  | EmptyString => EmptyString
  | String c rest =>
      match trim_end rest with
      | EmptyString => if is_space c then EmptyString else String c EmptyString
      | kept => String c kept
      end
  end.

Definition trim (s : string) : string := trim_end (trim_start s).

(** [s.startsWith(p)] and [s.slice(n)] for [0 <= n]. *)
Definition startsWith (s p : string) : bool := prefix p s.

Definition slice (s : string) (n : nat) : string :=
  substring n (String.length s - n) s.

(** [xs.pop() ?? ""] together with what is left of [xs]. *)
Definition pop (xs : list string) : list string * string :=
  (removelast xs, last xs "").

(** [String(v)] for a JSON value none of whose objects has a property
    named ["toString"] or ["valueOf"] (with one, the conversion throws a
    [TypeError]).  The program applies it to [thinking], which is declared
    a string. *)
Fixpoint to_String (v : json) : string :=
  match v with
  | JNull => "null"
  | JBool true => "true"
  | JBool false => "false"
  | JNum lit => lit
  | JStr s => s
  | JArr xs =>
      String.concat ","
        (map (fun x => match x with JNull => "" | _ => to_String x end) xs)
  | JObj _ => "[object Object]"
  end.

End Js.

(* ================================================================== *)
(** ** backend/src/cubeClient.ts *)

Module CubeClient.
Import Js.

(** [if (msg.k) out.k = msg.k]. *)
Definition set_if_truthy (k : string) (msg : json)
  (out : list (string * json)) : list (string * json) :=
  match get k msg with
  | Some v => if truthy (Some v) then obj_set k v out else out
  | None => out
  end.

(** [mergeMeta(base, msg)], for a [msg] that is not [null] (both callers
    have read [msg.id] before). *)
Definition mergeMeta (base : option json) (msg : json) : json :=
  let out := spread_or_empty base in
  let out := match get "metadata" msg with
             | Some m => if truthy (Some m) then assign out m else out
             | None => out
             end in
  let out := set_if_truthy "thinking" msg out in
  let out := set_if_truthy "toolCall" msg out in
  let out := set_if_truthy "toolCallResult" msg out in
  let out := set_if_truthy "sqlToolCall" msg out in
  let out := set_if_truthy "sqlToolCallResult" msg out in
  JObj out.

(** What an [async] function gives back: its value, or the error it threw. *)
Inductive outcome (A : Type) : Type :=
| Returned (a : A)
| Thrown (message : string).
Arguments Returned {A} a.
Arguments Thrown {A} message.

(** The upstream [fetch] response; [body] is the stream of chunks as the
    [TextDecoder] hands them over. *)
Record Response : Type := {
  ok : bool;
  status : nat;
  body : option (list string)
}.

(** *** The read loop
    [buffer += decoded; lines = buffer.split("\n"); buffer = lines.pop() ?? ""],
    the [for] over [lines] that skips blank ones, and the flush of a
    non-blank [buffer] after the stream has ended.  The two bodies under
    [try] are the parameters [on_line] and [on_trailing]. *)
Section ReadLoop.
Context {St : Type}.
Variables on_line on_trailing : string -> St -> St.

Definition for_lines (lines : list string) (st : St) : St :=
  fold_left
    (fun st line => if negb (truthy_str (trim line)) then st
                    else on_line line st)
    lines st.

Definition read_chunk (decoded : string) (bs : string * St) : string * St :=
  let buffer := fst bs ++ decoded in
  let (lines, buffer) := pop (split_nl buffer) in
  (buffer, for_lines lines (snd bs)).

Definition read_loop (chunks : list string) (bs : string * St)
  : string * St :=
  fold_left (fun bs decoded => read_chunk decoded bs) chunks bs.

Definition flush_buffer (bs : string * St) : St :=
  if truthy_str (trim (fst bs)) then on_trailing (fst bs) (snd bs)
  else snd bs.

Definition read_stream (chunks : list string) (st : St) : St :=
  flush_buffer (read_loop chunks ("", st)).
End ReadLoop.

(** The lines that reach [JSON.parse], in the order they reach it. *)
Definition framed_lines (chunks : list string) : list string :=
  read_stream (fun line seen => (seen ++ [line])%list)
              (fun line seen => (seen ++ [line])%list) chunks [].

Section SendToCube.
Context {S : Type}.
(** [JSON.parse]; [None] stands for the [SyntaxError] it throws. *)
Variable JSON_parse : string -> option json.
(** The caller's [onDelta(chunk, raw)], acting on the caller's state.  The
    one caller always passes it, and it does not throw. *)
Variable onDelta : string -> json -> S -> S.

Record locals : Type := {
  assistantText : string;
  lastMetadata : option json;
  streamingStarted : bool;
  sink : S
}.

Definition cutoff_id : string := "__cutoff__".

(** [msg.state?.isStreaming === true]. *)
Definition isStreaming_true (msg : json) : bool :=
  match get_opt "isStreaming" (get "state" msg) with
  | Some (JBool true) => true
  | _ => false
  end.

(** [lastMetadata = mergeMeta(lastMetadata, msg); onDelta?.("", msg);
    if (msg.role === "assistant" && typeof msg.content === "string")
    { assistantText += msg.content; onDelta?.(msg.content, msg); }] *)
Definition accept (msg : json) (st : locals) : locals :=
  let meta := mergeMeta (lastMetadata st) msg in
  let k := onDelta "" msg (sink st) in
  match is_string (get "content" msg) with
  | Some content =>
      if json_eqb_str (get "role" msg) "assistant" then
        {| assistantText := assistantText st ++ content;
           lastMetadata := Some meta;
           streamingStarted := streamingStarted st;
           sink := onDelta content msg k |}
      else
        {| assistantText := assistantText st;
           lastMetadata := Some meta;
           streamingStarted := streamingStarted st;
           sink := k |}
  | None =>
      {| assistantText := assistantText st;
         lastMetadata := Some meta;
         streamingStarted := streamingStarted st;
         sink := k |}
  end.

Definition set_streaming (b : bool) (st : locals) : locals :=
  {| assistantText := assistantText st;
     lastMetadata := lastMetadata st;
     streamingStarted := b;
     sink := sink st |}.

(** The body of the [for] loop once [JSON.parse] has returned [msg]. *)
Definition on_message (msg : json) (st : locals) : locals :=
  if json_eqb_str (get "role" msg) "user" then st
  else if json_eqb_str (get "id" msg) cutoff_id then
    set_streaming (isStreaming_true msg) st
  else if negb (streamingStarted st) then st
  else accept msg st.

(** The [try] of the [for] loop.  [JSON.parse] may throw, and reading
    [msg.role] of [null] throws; both happen before anything is
    assigned, and the [catch] only logs. *)
Definition on_line (line : string) (st : locals) : locals :=
  match JSON_parse line with
  | None => st
  | Some JNull => st
  | Some msg => on_message msg st
  end.

(** The body of the trailing [try] once [JSON.parse] has returned. *)
Definition on_trailing_message (msg : json) (st : locals) : locals :=
  let st := if json_eqb_str (get "id" msg) cutoff_id
            then set_streaming (isStreaming_true msg) st else st in
  if streamingStarted st && negb (json_eqb_str (get "role" msg) "user")
  then accept msg st else st.

Definition on_trailing (buffer : string) (st : locals) : locals :=
  match JSON_parse buffer with
  | None => st
  | Some JNull => st
  | Some msg => on_trailing_message msg st
  end.

Definition start (s : S) : locals :=
  {| assistantText := "";
     lastMetadata := None;
     streamingStarted := false;
     sink := s |}.

Record CubeReply : Type := {
  message : string;
  metadata : option json
}.

(** [sendToCube]; [configured] says that the three environment variables
    are set, [res] is what [doRequest] resolved to, with a body that is
    read to its end (a [fetch] or a [read] that rejects is not modelled).
    The caller's state after the call comes with the reply. *)
Definition sendToCube (configured : bool) (res : Response) (s : S)
  : outcome (CubeReply * S) :=
  if negb configured then Thrown "Cube API not configured"
  else match body res with
       | Some chunks =>
           if ok res then
             let st := read_stream on_line on_trailing chunks (start s) in
             Returned
               ({| message := if truthy_str (assistantText st)
                              then assistantText st else "No response";
                   metadata := lastMetadata st |},
                sink st)
           else Thrown ("Cube API HTTP " ++ index_key (status res))
       | None => Thrown ("Cube API HTTP " ++ index_key (status res))
       end.
End SendToCube.

Arguments assistantText {S} _.
Arguments lastMetadata {S} _.
Arguments streamingStarted {S} _.
Arguments sink {S} _.

End CubeClient.

(* ================================================================== *)
(** ** backend/src/cubeClient.ts: the token exchange and its cache

    The state is the module variable [cachedToken] and the table [tokens]
    of backend/src/db.ts (its [created_at] column is never read).  The two
    requests of [exchangeToken] are answered by the network, which is a
    parameter. *)

Module Tokens.
Import Js.

Record TokenRow : Type := {
  external_id : string;
  token : string
}.

Record Cache : Type := {
  cachedToken : option string;
  tokens : list TokenRow
}.

(** [SELECT token FROM tokens WHERE external_id = ?] with [.get]: the
    first row, if any. *)
Fixpoint select_token (externalId : string) (rows : list TokenRow)
  : option string :=
  match rows with
  | [] => None
  | r :: rest =>
      if external_id r =? externalId then Some (token r)
      else select_token externalId rest
  end.

(** [INSERT ... ON CONFLICT(external_id) DO UPDATE SET token]. *)
Fixpoint upsert_token (externalId tok : string) (rows : list TokenRow)
  : list TokenRow :=
  match rows with
  | [] => [{| external_id := externalId; token := tok |}]
  | r :: rest =>
      if external_id r =? externalId
      then {| external_id := externalId; token := tok |} :: rest
      else r :: upsert_token externalId tok rest
  end.

(** [s], when it is a string that is not empty. *)
Definition nonempty (s : option string) : option string :=
  match s with
  | Some t => if truthy_str t then Some t else None
  | None => None
  end.

(** [readCachedToken(externalId)]; [None] is the [null] it returns. *)
Definition readCachedToken (externalId : string) (c : Cache)
  : option string * Cache :=
  match nonempty (cachedToken c) with
  | Some t => (Some t, c)
  | None =>
      match nonempty (select_token externalId (tokens c)) with
      | Some t => (Some t, {| cachedToken := Some t; tokens := tokens c |})
      | None => (None, c)
      end
  end.

(** [writeCachedToken(externalId, token)]. *)
Definition writeCachedToken (externalId tok : string) (c : Cache) : Cache :=
  {| cachedToken := Some tok;
     tokens := upsert_token externalId tok (tokens c) |}.

(** [clearCachedToken(externalId)]. *)
Definition clearCachedToken (externalId : string) (c : Cache) : Cache :=
  {| cachedToken := None;
     tokens := filter (fun r => negb (external_id r =? externalId))
                 (tokens c) |}.

(** A JSON response of the embed API: [res.ok], [res.status] and the one
    field the program reads of [await res.json()]. *)
Record Answer : Type := {
  a_ok : bool;
  a_status : nat;
  a_field : string
}.

(** What is outside: whether [CUBE_API_BASE] and [CUBE_API_KEY] are set,
    the answer to [generate-session] for an external id and the answer to
    [session/token] for a session id. *)
Record Network : Type := {
  api_configured : bool;
  generate_session : string -> Answer;
  session_token : string -> Answer
}.

(** [exchangeToken(externalId)]. *)
Definition exchangeToken (net : Network) (externalId : string)
  : CubeClient.outcome string :=
  if negb (api_configured net)
  then CubeClient.Thrown "Cube API not configured"
  else
    let sessionRes := generate_session net externalId in
    if negb (a_ok sessionRes)
    then CubeClient.Thrown
           ("Session gen HTTP " ++ index_key (a_status sessionRes))
    else
      let tokenRes := session_token net (a_field sessionRes) in
      if negb (a_ok tokenRes)
      then CubeClient.Thrown
             ("Session token HTTP " ++ index_key (a_status tokenRes))
      else CubeClient.Returned (a_field tokenRes).

(** [getToken(externalId, forceRefresh)]: what it returns or throws, and
    the cache afterwards. *)
Definition getToken (net : Network) (externalId : string)
  (forceRefresh : bool) (c : Cache) : CubeClient.outcome string * Cache :=
  let fresh (c : Cache) :=
    match exchangeToken net externalId with
    | CubeClient.Returned tok =>
        (CubeClient.Returned tok, writeCachedToken externalId tok c)
    | CubeClient.Thrown e => (CubeClient.Thrown e, c)
    end in
  if forceRefresh then fresh c
  else
    match readCachedToken externalId c with
    | (Some cached, c') => (CubeClient.Returned cached, c')
    | (None, c') => fresh c'
    end.

End Tokens.

(* ================================================================== *)
(** ** backend/src/repo.ts, over the tables of backend/src/db.ts

    A table is the list of its rows in insertion order.  The columns no
    query of the program reads ([created_at], the [id] of a message) are
    left out; the identifiers [uuidv4()] returns are taken to be new, so
    that no [PRIMARY KEY] is violated.  The [messages] table declares
    [FOREIGN KEY (conversation_id) REFERENCES conversations(id)], which
    the driver enforces.  The [metadata] column holds the text
    [JSON.stringify] gives; the model keeps the value that text denotes,
    which is what [JSON.parse] gives back for it. *)

Module Repo.
Import Js.

Record MessagePayload : Type := {
  role : string;
  content : string;
  timestamp : string;
  metadata : option json
}.

Record ConversationRow : Type := {
  c_id : string;
  c_user_id : string;
  c_title : option string
}.

Record MessageRow : Type := {
  m_conversation_id : string;
  m_role : string;
  m_content : string;
  m_timestamp : string;
  m_metadata : json
}.

Record Db : Type := {
  conversations : list ConversationRow;
  messages : list MessageRow
}.

(** [createConversation(userId, title)]; [id] is what [uuidv4()] returns. *)
Definition createConversation (id userId : string) (title : option string)
  (db : Db) : string * Db :=
  (id,
   {| conversations :=
        (conversations db ++
         [{| c_id := id; c_user_id := userId; c_title := title |}])%list;
      messages := messages db |}).

(** Some row of [conversations] has this [id]: what the foreign key of
    [messages] asks of a [conversation_id]. *)
Definition has_conversation (conversationId : string) (db : Db) : bool :=
  existsb (fun c => c_id c =? conversationId) (conversations db).

(** [addMessage(conversationId, msg)]; the column is
    [JSON.stringify(msg.metadata ?? null)].  The [INSERT] throws, and
    stores nothing, when no conversation has that id. *)
Definition addMessage (conversationId : string) (msg : MessagePayload)
  (db : Db) : CubeClient.outcome Db :=
  if has_conversation conversationId db then
    CubeClient.Returned
      {| conversations := conversations db;
         messages :=
           (messages db ++
            [{| m_conversation_id := conversationId;
                m_role := role msg;
                m_content := content msg;
                m_timestamp := timestamp msg;
                m_metadata := match metadata msg with
                              | Some v => v
                              | None => JNull
                              end |}])%list |}
  else CubeClient.Thrown "FOREIGN KEY constraint failed".

(** [ORDER BY timestamp ASC]: rows with equal timestamps stay in insertion
    order. *)
Fixpoint insert_by_timestamp (r : MessageRow) (rows : list MessageRow)
  : list MessageRow :=
  match rows with
  | [] => [r]
  | x :: rest =>
      if String.leb (m_timestamp r) (m_timestamp x) then r :: x :: rest
      else x :: insert_by_timestamp r rest
  end.

Definition order_by_timestamp (rows : list MessageRow) : list MessageRow :=
  fold_right insert_by_timestamp [] rows.

(** [listMessages(conversationId, userId)]; [None] is the [null] returned
    when the conversation is not the user's.  The stored text is never
    empty, so [r.metadata ? JSON.parse(r.metadata) : undefined] parses. *)
Definition listMessages (conversationId userId : string) (db : Db)
  : option (list MessagePayload) :=
  if existsb (fun c => (c_id c =? conversationId) && (c_user_id c =? userId))
       (conversations db)
  then Some
    (map (fun r => {| role := m_role r;
                      content := m_content r;
                      timestamp := m_timestamp r;
                      metadata := Some (m_metadata r) |})
       (order_by_timestamp
          (filter (fun r => m_conversation_id r =? conversationId)
             (messages db))))
  else None.

End Repo.

(* ================================================================== *)
(** ** The server entry point: POST /api/chat *)

Module Server.
Import Js.

(** What the handler sends: the three envelopes it writes as one line
    each, and the body of [res.status(n).json({ error })]. *)
Inductive Wire : Type :=
| WDelta (content : string)
| WEvent (raw : json)
| WDone (conversationId : string) (messages : list Repo.MessagePayload)
| WError (status : nat) (error : string).

(** How a response stands: still open, ended by [res.end()] or
    [res.json(...)], or its connection destroyed. *)
Inductive Closing : Type :=
| Open
| Ended
| Destroyed.

(** The response [res]: the status that went out with the headers, if
    they have gone out, what has been sent of the body, and how the
    response stands. *)
Record Res : Type := {
  head : option nat;
  sent : list Wire;
  closed : Closing
}.

(** The state the [onDelta] closure acts on: [assistantAccum] and what has
    been written to [res]. *)
Record Stream : Type := {
  assistantAccum : string;
  written : list Wire
}.

Definition has_side_channel (raw : json) : bool :=
  truthy (get "thinking" raw) || truthy (get "toolCall" raw)
  || truthy (get "toolCallResult" raw) || truthy (get "sqlToolCall" raw)
  || truthy (get "sqlToolCallResult" raw) || truthy (get "chartType" raw)
  || truthy (get "visualization" raw) || truthy (get "query" raw).

(** [onDelta: (chunk, raw) => { ... }]; [chunk] is always a string. *)
Definition onDelta (chunk : string) (raw : json) (st : Stream) : Stream :=
  let chunkStr := chunk in
  let delta :=
    if startsWith chunkStr (assistantAccum st)
    then slice chunkStr (String.length (assistantAccum st))
    else chunkStr in
  let st :=
    if truthy_str delta
    then {| assistantAccum := assistantAccum st ++ delta;
            written := (written st ++ [WDelta delta])%list |}
    else st in
  if truthy (Some raw) && has_side_channel raw
  then {| assistantAccum := assistantAccum st;
          written := (written st ++ [WEvent raw])%list |}
  else st.

Record ChatRequest : Type := {
  userId : option string;
  content : string;
  conversationId : option string
}.

(** What the handler reads from outside: the configuration, [uuidv4()],
    the two readings of the clock, and the upstream response. *)
Record World : Type := {
  configured : bool;
  uuid : string;
  now_start : string;
  now_end : string;
  upstream : CubeClient.Response
}.

Section Chat.
Variable JSON_parse : string -> option json.

(** The handler of [app.post('/api/chat', ...)]: the database after it,
    the response as it leaves it, and whether it threw.  Without
    [content] it answers 400 at once.  Otherwise it sets the headers and
    flushes them, which sends the status 200, before it does anything
    that can throw. *)
Definition chat (w : World) (req : ChatRequest) (db : Repo.Db)
  : Repo.Db * Res * CubeClient.outcome unit :=
  let userId := match userId req with Some u => u | None => "anonymous" end in
  if negb (truthy_str (content req))
  then (db,
        {| head := Some 400;
           sent := [WError 400 "content required"];
           closed := Ended |},
        CubeClient.Returned tt)
  else
    let flushed := {| head := Some 200; sent := []; closed := Open |} in
    let ts := now_start w in
    let (convoId, db) :=
      match conversationId req with
      | Some c =>
          if truthy_str c then (c, db)
          else Repo.createConversation (uuid w) userId
                 (Some (substring 0 50 (content req))) db
      | None =>
          Repo.createConversation (uuid w) userId
            (Some (substring 0 50 (content req))) db
      end in
    let userMessage :=
      {| Repo.role := "user";
         Repo.content := content req;
         Repo.timestamp := ts;
         Repo.metadata := None |} in
    match Repo.addMessage convoId userMessage db with
    | CubeClient.Thrown e => (db, flushed, CubeClient.Thrown e)
    | CubeClient.Returned db =>
        match CubeClient.sendToCube JSON_parse onDelta (configured w)
                (upstream w) {| assistantAccum := ""; written := [] |} with
        | CubeClient.Thrown e => (db, flushed, CubeClient.Thrown e)
        | CubeClient.Returned (cubeResponse, stream) =>
            let assistantText := CubeClient.message cubeResponse in
            let lastMetadata :=
              match CubeClient.metadata cubeResponse with
              | Some JNull => None
              | m => m
              end in
            let assistantMessage :=
              {| Repo.role := "assistant";
                 Repo.content := assistantText;
                 Repo.timestamp := now_end w;
                 Repo.metadata := lastMetadata |} in
            let streaming :=
              {| head := Some 200; sent := written stream; closed := Open |} in
            match Repo.addMessage convoId assistantMessage db with
            | CubeClient.Thrown e => (db, streaming, CubeClient.Thrown e)
            | CubeClient.Returned db =>
                let updatedMessages :=
                  match Repo.listMessages convoId userId db with
                  | Some rows => rows
                  | None => []
                  end in
                (db,
                 {| head := Some 200;
                    sent := (written stream
                             ++ [WDone convoId updatedMessages])%list;
                    closed := Ended |},
                 CubeClient.Returned tt)
            end
        end
    end.

(** The route under [asyncHandler], and the error middleware
    [res.status(500).json({ error: err.message || 'Internal error' })]
    for a handler that threw.  Once the headers have gone out that call
    throws in its turn ([ERR_HTTP_HEADERS_SENT]), and the framework's
    last resort destroys the connection: the client has the status
    already sent and what was written so far, and no error body. *)
Definition app (w : World) (req : ChatRequest) (db : Repo.Db)
  : Repo.Db * Res :=
  match chat w req db with
  | (db, res, CubeClient.Returned _) => (db, res)
  | (db, res, CubeClient.Thrown e) =>
      match head res with
      | Some _ =>
          (db, {| head := head res; sent := sent res; closed := Destroyed |})
      | None =>
          (db,
           {| head := Some 500;
              sent := (sent res
                       ++ [WError 500 (if truthy_str e then e
                                       else "Internal error")])%list;
              closed := Ended |})
      end
  end.
End Chat.

(** The object a stored message is in the [messages] of a [done]
    envelope; [JSON.stringify] leaves out [metadata] when it is
    [undefined]. *)
Definition payload_json (m : Repo.MessagePayload) : json :=
  JObj ([("role", JStr (Repo.role m));
         ("content", JStr (Repo.content m));
         ("timestamp", JStr (Repo.timestamp m))]
        ++ match Repo.metadata m with
           | Some v => [("metadata", v)]
           | None => []
           end)%list.

(** The object the handler passes to [JSON.stringify] for what it sends. *)
Definition wire_json (w : Wire) : json :=
  match w with
  | WDelta content => JObj [("type", JStr "delta"); ("content", JStr content)]
  | WEvent raw => JObj [("type", JStr "event"); ("raw", raw)]
  | WDone conversationId messages =>
      JObj [("type", JStr "done");
            ("conversationId", JStr conversationId);
            ("messages", JArr (map payload_json messages))]
  | WError _ error => JObj [("error", JStr error)]
  end.

(** The text of the response body after the handler has written [ws]:
    [JSON.stringify(...) + '\n'] for each. *)
Definition body_text (JSON_stringify : json -> string) (ws : list Wire)
  : string :=
  fold_right (fun w rest => JSON_stringify (wire_json w)
                            ++ String nl "" ++ rest) "" ws.

(** The handler of [app.get('/api/conversations/:id/messages', ...)]:
    the rows it sends, or the 404 it answers with.  Here an empty
    [userId] counts as missing ([|| 'anonymous']). *)
Definition get_messages (userId : option string) (id : string)
  (db : Repo.Db) : list Repo.MessagePayload + Wire :=
  let userId := match userId with
                | Some u => if truthy_str u then u else "anonymous"
                | None => "anonymous"
                end in
  match Repo.listMessages id userId db with
  | Some rows => inl rows
  | None => inr (WError 404 "Not found")
  end.

End Server.

(* ================================================================== *)
(** ** frontend/src/App.tsx: the reducers of [handleSend] *)

Module App.
Import Js.

(** [Segment]; the value of a [toolCall] segment is the object
    [{ call, result }], without [result] when it is [undefined]. *)
Inductive Segment : Type :=
| thinking (value : string)
| text (value : string)
| toolCall (value : json)
| toolResult (value : json)
| sql (value : json)
| sqlResult (value : json).

Definition same_type (a b : Segment) : bool :=
  match a, b with
  | thinking _, thinking _ | text _, text _ | toolCall _, toolCall _
  | toolResult _, toolResult _ | sql _, sql _ | sqlResult _, sqlResult _ =>
      true
  | _, _ => false
  end.

Definition seg_value (s : Segment) : json :=
  match s with
  | thinking v | text v => JStr v
  | toolCall v | toolResult v | sql v | sqlResult v => v
  end.

Record ChatMessage : Type := {
  role : string;
  content : string;
  timestamp : string;
  assistantChunks : option (list string);
  thinkingSteps : option (list string);
  thinkingBuffer : option string;
  toolCalls : option (list json);
  toolResults : option (list json);
  sqlToolCalls : option (list json);
  sqlToolResults : option (list json);
  segments : option (list Segment);
  metadata : option json
}.

(** [xs || []] and [s || ""]. *)
Definition or_nil {A : Type} (xs : option (list A)) : list A :=
  match xs with Some l => l | None => [] end.

Definition or_empty (s : option string) : string :=
  match s with Some x => x | None => "" end.

(** [xs[xs.length - 1]]. *)
Definition last_of {A : Type} (xs : list A) : option A :=
  match xs with
  | [] => None
  | x :: rest => Some (last rest x)
  end.

(** [updated[updated.length - 1] = m] on a list that is not empty. *)
Definition set_last {A : Type} (xs : list A) (m : A) : list A :=
  (removelast xs ++ [m])%list.

(** The updater of the [delta] branch. *)
Definition on_delta (fragment : string) (prev : list ChatMessage)
  : list ChatMessage :=
  match last_of prev with
  | Some last =>
      if role last =? "assistant" then
        let chunks := (or_nil (assistantChunks last) ++ [fragment])%list in
        let segments := (or_nil (segments last) ++ [text fragment])%list in
        set_last prev
          {| role := role last;
             content := String.concat "" chunks;
             timestamp := timestamp last;
             assistantChunks := Some chunks;
             thinkingSteps := thinkingSteps last;
             thinkingBuffer := thinkingBuffer last;
             toolCalls := toolCalls last;
             toolResults := toolResults last;
             sqlToolCalls := sqlToolCalls last;
             sqlToolResults := sqlToolResults last;
             segments := Some segments;
             metadata := metadata last |}
      else prev
  | None => prev
  end.

Section Reducer.
(** [JSON.stringify]. *)
Variable JSON_stringify : json -> string.

Definition same_json (a b : json) : bool :=
  JSON_stringify a =? JSON_stringify b.

(** [Array.isArray(meta.events) ? meta.events
     : meta.events ? [meta.events] : []]. *)
Definition events_of (meta : list (string * json)) : list json :=
  match assoc "events" meta with
  | Some (JArr es) => es
  | Some v => if truthy (Some v) then [v] else []
  | None => []
  end.

(** [lastEvent && JSON.stringify(lastEvent) === JSON.stringify(evt.raw)]
    for [lastEvent = events[events.length - 1]]. *)
Definition repeats_last (events : list json) (raw : json) : bool :=
  match last_of events with
  | Some lastEvent => truthy (Some lastEvent) && same_json lastEvent raw
  | None => false
  end.

Definition pushSeg (segments : list Segment) (seg : Segment)
  : list Segment :=
  match last_of segments with
  | Some prevSeg =>
      if same_type prevSeg seg
         && same_json (seg_value prevSeg) (seg_value seg)
      then segments
      else (segments ++ [seg])%list
  | None => (segments ++ [seg])%list
  end.

Definition dedupPush (arr : list json) (val : option json) : list json :=
  match val with
  | None => arr
  | Some JNull => arr
  | Some v =>
      match last_of arr with
      | Some lastVal =>
          if truthy (Some lastVal) && same_json lastVal v then arr
          else (arr ++ [v])%list
      | None => (arr ++ [v])%list
      end
  end.

(** [for (const part of parts) if (part.trim())
     { thinkingSteps.push(part); pushSeg({ type: "thinking", value: part }) }]. *)
Definition push_parts (parts : list string)
  (acc : list string * list Segment) : list string * list Segment :=
  fold_left
    (fun acc part =>
       if truthy_str (trim part)
       then ((fst acc ++ [part])%list, pushSeg (snd acc) (thinking part))
       else acc)
    parts acc.

(** [if (evt.raw.thinking) { ... }]: the steps, the buffer, the segments
    and [meta] after it. *)
Definition fold_thinking (raw : json)
  (st : list string * string * list Segment * list (string * json))
  : list string * string * list Segment * list (string * json) :=
  let '(thinkingSteps, thinkingBuffer, segments, meta) := st in
  match get "thinking" raw with
  | Some t =>
      if truthy (Some t) then
        let thinkingBuffer := thinkingBuffer ++ to_String t in
        let (parts, thinkingBuffer) :=
          pop (split_nl_runs false thinkingBuffer) in
        let (thinkingSteps, segments) :=
          push_parts parts (thinkingSteps, segments) in
        let '(thinkingSteps, thinkingBuffer, segments) :=
          match get "isInProcess" raw with
          | Some (JBool false) =>
              if truthy_str (trim thinkingBuffer)
              then ((thinkingSteps ++ [thinkingBuffer])%list, "",
                    pushSeg segments (thinking thinkingBuffer))
              else (thinkingSteps, thinkingBuffer, segments)
          | _ => (thinkingSteps, thinkingBuffer, segments)
          end in
        (thinkingSteps, thinkingBuffer, segments,
         obj_set "thinking"
           (JStr (String.concat (String nl "")
                    (thinkingSteps ++ [thinkingBuffer])%list))
           meta)
      else st
  | None => st
  end.

(** [if (c) xs = dedupPush(xs, v)]. *)
Definition push_if (c : option json) (xs : list json) : list json :=
  if truthy c then dedupPush xs c else xs.

Definition set_if_defined (k : string) (v : option json)
  (meta : list (string * json)) : list (string * json) :=
  match v with
  | Some x => obj_set k x meta
  | None => meta
  end.

(** The updater of the [event] branch; [raw] is truthy. *)
Definition on_event (raw : json) (prev : list ChatMessage)
  : list ChatMessage :=
  match last_of prev with
  | Some last =>
      if role last =? "assistant" then
        let meta := spread_or_empty (metadata last) in
        let events := events_of meta in
        if repeats_last events raw then prev
        else
          let segments := or_nil (segments last) in
          let '(thinkingSteps, thinkingBuffer, segments, meta) :=
            fold_thinking raw
              (or_nil (thinkingSteps last), or_empty (thinkingBuffer last),
               segments, meta) in
          let call := get "toolCall" raw in
          let toolCalls := dedupPush (or_nil (toolCalls last)) call in
          let toolResults :=
            push_if (get_opt "result" call) (or_nil (toolResults last)) in
          let sqlCalls :=
            push_if (get_opt "input" call) (or_nil (sqlToolCalls last)) in
          let sqlResults :=
            push_if (get_opt "result" call) (or_nil (sqlToolResults last)) in
          let segments :=
            match call with
            | Some c =>
                if truthy call then
                  pushSeg segments
                    (toolCall
                       (JObj (("call", c) ::
                              match get_opt "result" call with
                              | Some r => [("result", r)]
                              | None => []
                              end)))
                else segments
            | None => segments
            end in
          let meta :=
            if truthy (get "chartType" raw)
            then set_if_defined "chartType" (get "chartType" raw) meta
            else meta in
          let meta := set_if_defined "visualization"
                        (get "visualization" raw) meta in
          let meta := set_if_defined "query" (get "query" raw) meta in
          let meta := obj_set "events" (JArr (events ++ [raw])%list) meta in
          set_last prev
            {| role := role last;
               content := content last;
               timestamp := timestamp last;
               assistantChunks := assistantChunks last;
               thinkingSteps := Some thinkingSteps;
               thinkingBuffer := Some thinkingBuffer;
               toolCalls := Some toolCalls;
               toolResults := Some toolResults;
               sqlToolCalls := Some sqlCalls;
               sqlToolResults := Some sqlResults;
               segments := Some segments;
               metadata := Some (JObj meta) |}
      else prev
  | None => prev
  end.

(** What one parsed line [evt] of the downstream stream does to the
    [messages] state.  Reading [evt.type] of [null] throws and the
    [catch] logs; the [done] branch leaves [messages] as it is (its
    [setMessages(normalized)] is commented out). *)
Definition on_evt (evt : json) (prev : list ChatMessage)
  : list ChatMessage :=
  match evt with
  | JNull => prev
  | _ =>
      if json_eqb_str (get "type" evt) "delta" then
        match is_string (get "content" evt) with
        | Some fragment => on_delta fragment prev
        | None => prev
        end
      else if json_eqb_str (get "type" evt) "event" then
        match get "raw" evt with
        | Some raw => if truthy (Some raw) then on_event raw prev else prev
        | None => prev
        end
      else prev
  end.
End Reducer.

(** The [try] of the read loop of [handleSend]: [JSON.parse] may throw,
    and the [catch] only logs. *)
Definition on_line (JSON_parse : string -> option json)
  (JSON_stringify : json -> string) (line : string)
  (prev : list ChatMessage) : list ChatMessage :=
  match JSON_parse line with
  | Some evt => on_evt JSON_stringify evt prev
  | None => prev
  end.

(** The read loop of [handleSend] over the chunks of the response: the
    same buffering as in the backend, and nothing after the loop, so a
    last line without its newline is never looked at. *)
Definition read_response (JSON_parse : string -> option json)
  (JSON_stringify : json -> string) (chunks : list string)
  (prev : list ChatMessage) : list ChatMessage :=
  snd (CubeClient.read_loop (on_line JSON_parse JSON_stringify) chunks
         ("", prev)).

End App.

(* ================================================================== *)
(** ** A decoder and an encoder for JSON text

    [JSON.parse] and [JSON.stringify] belong to the platform; the program
    above takes them as parameters.  The two functions below implement them
    on the fragment of JSON whose strings stay below code unit 256 and
    whose numbers are integers of at most fifteen digits.  Outside the
    fragment the decoder answers [None], which is not what the platform
    does: they are the instances the examples run on, and every example
    stays inside the fragment. *)

Module JsonText.
Import Js.

Definition dquote : ascii := "034"%char.
Definition backslash : ascii := "092"%char.

Definition is_json_ws (c : ascii) : bool :=
  let n := nat_of_ascii c in
  Nat.eqb n 32 || Nat.eqb n 9 || Nat.eqb n 10 || Nat.eqb n 13.

Fixpoint skip_ws (cs : list ascii) : list ascii :=
  match cs with
  | c :: rest => if is_json_ws c then skip_ws rest else cs
  | [] => []
  end.

Definition is_digit (c : ascii) : bool :=
  let n := nat_of_ascii c in Nat.leb 48 n && Nat.leb n 57.

Definition hex_val (c : ascii) : option nat :=
  let n := nat_of_ascii c in
  if Nat.leb 48 n && Nat.leb n 57 then Some (n - 48)
  else if Nat.leb 65 n && Nat.leb n 70 then Some (n - 55)
  else if Nat.leb 97 n && Nat.leb n 102 then Some (n - 87)
  else None.

(** The character a two-character escape stands for. *)
Definition unescape (e : ascii) : option ascii :=
  if Ascii.eqb e dquote then Some dquote
  else if Ascii.eqb e backslash then Some backslash
  else if Ascii.eqb e "/" then Some "/"%char
  else if Ascii.eqb e "b" then Some "008"%char
  else if Ascii.eqb e "f" then Some "012"%char
  else if Ascii.eqb e "n" then Some "010"%char
  else if Ascii.eqb e "r" then Some "013"%char
  else if Ascii.eqb e "t" then Some "009"%char
  else None.

Definition cons_char (c : ascii) (r : option (string * list ascii))
  : option (string * list ascii) :=
  match r with
  | Some (s, rest) => Some (String c s, rest)
  | None => None
  end.

(** The characters of a string literal after its opening quote. *)
Fixpoint parse_chars (cs : list ascii) : option (string * list ascii) :=
  match cs with
  | [] => None
  | c :: rest =>
      if Ascii.eqb c dquote then Some ("", rest)
      else if Ascii.eqb c backslash then
        match rest with
        | [] => None
        | e :: rest1 =>
            match unescape e with
            | Some x => cons_char x (parse_chars rest1)
            | None =>
                if Ascii.eqb e "u" then
                  match rest1 with
                  | h1 :: h2 :: h3 :: h4 :: rest2 =>
                      match hex_val h1, hex_val h2, hex_val h3, hex_val h4 with
                      | Some 0, Some 0, Some a, Some b =>
                          cons_char (ascii_of_nat (16 * a + b))
                            (parse_chars rest2)
                      | _, _, _, _ => None
                      end
                  | _ => None
                  end
                else None
            end
        end
      else if Nat.ltb (nat_of_ascii c) 32 then None
      else cons_char c (parse_chars rest)
  end.

Fixpoint take_digits (cs : list ascii) : list ascii * list ascii :=
  match cs with
  | c :: rest =>
      if is_digit c
      then let (ds, r) := take_digits rest in (c :: ds, r)
      else ([], cs)
  | [] => ([], [])
  end.

(** An integer literal; [negative] says a minus sign came before. *)
Definition parse_int (negative : bool) (cs : list ascii)
  : option (json * list ascii) :=
  let (ds, rest) := take_digits cs in
  let continues :=
    match rest with
    | c :: _ => Ascii.eqb c "." || Ascii.eqb c "e" || Ascii.eqb c "E"
    | [] => false
    end in
  match ds with
  | [] => None
  | d :: more =>
      if continues then None
      else if Nat.ltb 15 (List.length ds) then None
      else if Ascii.eqb d "0" then
        match more with
        | [] => Some (JNum "0", rest)
        | _ :: _ => None
        end
      else
        let lit := string_of_list_ascii ds in
        Some (JNum (if negative then String "-" lit else lit), rest)
  end.

Definition expect (word : string) (v : json) (cs : list ascii)
  : option (json * list ascii) :=
  let w := list_ascii_of_string word in
  if String.eqb (string_of_list_ascii (firstn (List.length w) cs)) word
  then Some (v, skipn (List.length w) cs)
  else None.

Fixpoint parse_value (fuel : nat) (cs : list ascii)
  : option (json * list ascii) :=
  match fuel with
  | 0 => None
  | S fuel =>
      match skip_ws cs with
      | [] => None
      | c :: rest =>
          if Ascii.eqb c "{" then
            match skip_ws rest with
            | c1 :: rest1 =>
                if Ascii.eqb c1 "}" then Some (JObj [], rest1)
                else parse_members fuel [] (c1 :: rest1)
            | [] => None
            end
          else if Ascii.eqb c "[" then
            match skip_ws rest with
            | c1 :: rest1 =>
                if Ascii.eqb c1 "]" then Some (JArr [], rest1)
                else parse_elements fuel [] (c1 :: rest1)
            | [] => None
            end
          else if Ascii.eqb c dquote then
            match parse_chars rest with
            | Some (s, rest1) => Some (JStr s, rest1)
            | None => None
            end
          else if Ascii.eqb c "t" then expect "true" (JBool true) (c :: rest)
          else if Ascii.eqb c "f" then expect "false" (JBool false) (c :: rest)
          else if Ascii.eqb c "n" then expect "null" JNull (c :: rest)
          else if Ascii.eqb c "-" then parse_int true rest
          else parse_int false (c :: rest)
      end
  end

with parse_members (fuel : nat) (acc : list (string * json))
  (cs : list ascii) : option (json * list ascii) :=
  match fuel with
  | 0 => None
  | S fuel =>
      match skip_ws cs with
      | c :: rest =>
          if Ascii.eqb c dquote then
            match parse_chars rest with
            | Some (key, rest1) =>
                match skip_ws rest1 with
                | c2 :: rest2 =>
                    if Ascii.eqb c2 ":" then
                      match parse_value fuel rest2 with
                      | Some (v, rest3) =>
                          let acc := obj_set key v acc in
                          match skip_ws rest3 with
                          | c4 :: rest4 =>
                              if Ascii.eqb c4 "," then
                                parse_members fuel acc rest4
                              else if Ascii.eqb c4 "}" then
                                Some (JObj acc, rest4)
                              else None
                          | [] => None
                          end
                      | None => None
                      end
                    else None
                | [] => None
                end
            | None => None
            end
          else None
      | [] => None
      end
  end

with parse_elements (fuel : nat) (acc : list json) (cs : list ascii)
  : option (json * list ascii) :=
  match fuel with
  | 0 => None
  | S fuel =>
      match parse_value fuel cs with
      | Some (v, rest) =>
          let acc := (acc ++ [v])%list in
          match skip_ws rest with
          | c :: rest1 =>
              if Ascii.eqb c "," then parse_elements fuel acc rest1
              else if Ascii.eqb c "]" then Some (JArr acc, rest1)
              else None
          | [] => None
          end
      | None => None
      end
  end.

(** [JSON.parse(text)] on the fragment; [None] is a [SyntaxError]. *)
Definition parse (text : string) : option json :=
  let cs := list_ascii_of_string text in
  match parse_value (2 * List.length cs + 2) cs with
  | Some (v, rest) =>
      match skip_ws rest with
      | [] => Some v
      | _ :: _ => None
      end
  | None => None
  end.

Definition hex_digit (n : nat) : ascii :=
  ascii_of_nat (if Nat.ltb n 10 then 48 + n else 87 + n).

(** The text of a string literal before its closing quote. *)
Fixpoint quote_chars (s : string) : string :=
  match s with
  | EmptyString => String dquote ""
  | String c rest =>
      let n := nat_of_ascii c in
      let tail := quote_chars rest in
      if Ascii.eqb c dquote then String backslash (String dquote tail)
      else if Ascii.eqb c backslash
      then String backslash (String backslash tail)
      else if Nat.eqb n 8 then String backslash (String "b" tail)
      else if Nat.eqb n 12 then String backslash (String "f" tail)
      else if Nat.eqb n 10 then String backslash (String "n" tail)
      else if Nat.eqb n 13 then String backslash (String "r" tail)
      else if Nat.eqb n 9 then String backslash (String "t" tail)
      else if Nat.ltb n 32
      then String backslash
             (String "u" (String "0" (String "0"
                (String (hex_digit (n / 16))
                   (String (hex_digit (n mod 16)) tail)))))
      else String c tail
  end.

Definition quote (s : string) : string := String dquote (quote_chars s).

(** [JSON.stringify(v)]. *)
Fixpoint stringify (v : json) : string :=
  match v with
  | JNull => "null"
  | JBool true => "true"
  | JBool false => "false"
  | JNum lit => lit
  | JStr s => quote s
  | JArr xs => "[" ++ String.concat "," (map stringify xs) ++ "]"
  | JObj fs =>
      "{" ++ String.concat ","
               (map (fun kv : string * json => let (k, x) := kv in
                               quote k ++ ":" ++ stringify x) fs)
          ++ "}"
  end.

End JsonText.

(* ================================================================== *)
(** ** Vocabulary of the statements *)

Module Spec.
Import Js.

(** The side channels [mergeMeta] reads from an envelope. *)
Definition side_channels : list string :=
  ["metadata"; "thinking"; "toolCall"; "toolCallResult"; "sqlToolCall";
   "sqlToolCallResult"].

(** The channels that are assigned under their own name. *)
Definition named_channels : list string :=
  ["thinking"; "toolCall"; "toolCallResult"; "sqlToolCall";
   "sqlToolCallResult"].

(** The keys of the accumulator ([undefined] has none). *)
Definition keys (acc : option json) : list string :=
  match acc with
  | Some x => map fst (own_props x)
  | None => []
  end.

(** The envelope [msg] with its field [k] taken away. *)
Definition without (k : string) (msg : json) : json :=
  match msg with
  | JObj fs => JObj (filter (fun kv => negb (fst kv =? k)) fs)
  | _ => msg
  end.

(** The envelope's own [metadata] object is merged and carries the key. *)
Definition metadata_carries (k : string) (msg : json) : bool :=
  match get "metadata" msg with
  | Some m =>
      truthy (Some m)
      && match assoc k (own_props m) with Some _ => true | None => false end
  | None => false
  end.

(** The value the accumulator holds under [k] ([undefined] holds none). *)
Definition acc_get (k : string) (acc : option json) : option json :=
  assoc k (spread_or_empty acc).

(** A line the loop does not skip: [line.trim()] is truthy. *)
Definition nonblank (line : string) : bool := truthy_str (trim line).

(** [t] contains [a] and then [b]. *)
Definition contains_in_order (t a b : string) : Prop :=
  exists x y z, t = x ++ a ++ y ++ b ++ z.

(** A callback that only records how it was called. *)
Definition record_call (chunk : string) (raw : json)
  (calls : list (string * json)) : list (string * json) :=
  (calls ++ [(chunk, raw)])%list.

(** A newline-terminated line. *)
Definition ln (line : string) : string := line ++ String nl "".

(** An upstream response that succeeded with the given chunks. *)
Definition ok_response (chunks : list string) : CubeClient.Response :=
  {| CubeClient.ok := true;
     CubeClient.status := 200;
     CubeClient.body := Some chunks |}.

(** Envelopes. *)
Definition cutoff (isStreaming : bool) : json :=
  JObj [("id", JStr "__cutoff__");
        ("state", JObj [("isStreaming", JBool isStreaming)])].

Definition thinking_env (t : string) : json := JObj [("thinking", JStr t)].

Definition toolCall_env (v : json) : json := JObj [("toolCall", v)].

Definition assistant_env (fragment : string) : json :=
  JObj [("role", JStr "assistant"); ("content", JStr fragment)].

Definition user_env (c : string) : json :=
  JObj [("role", JStr "user"); ("content", JStr c)].

(** A cutoff marker that also carries [role: "user"]. *)
Definition user_cutoff : json :=
  JObj [("id", JStr "__cutoff__"); ("role", JStr "user");
        ("state", JObj [("isStreaming", JBool true)])].

(** A cutoff marker that also carries a side channel. *)
Definition thinking_cutoff : json :=
  JObj [("id", JStr "__cutoff__");
        ("state", JObj [("isStreaming", JBool true)]);
        ("thinking", JStr "t")].

(** [msg.id === "__cutoff__"]. *)
Definition is_cutoff (msg : json) : bool :=
  json_eqb_str (get "id" msg) CubeClient.cutoff_id.

(** The line decodes to a cutoff marker. *)
Definition decodes_to_cutoff (JSON_parse : string -> option json)
  (line : string) : bool :=
  match JSON_parse line with
  | Some msg => is_cutoff msg
  | None => false
  end.

(** The value of [state.isStreaming] of an envelope, if it has one. *)
Definition streaming_flag (msg : json) : option json :=
  get_opt "isStreaming" (get "state" msg).

(** The line is not blank and decodes to [msg], a cutoff marker that is
    not a user echo. *)
Definition marker_line (JSON_parse : string -> option json)
  (line : string) (msg : json) : Prop :=
  nonblank line = true
  /\ JSON_parse line = Some msg
  /\ is_cutoff msg = true
  /\ json_eqb_str (get "role" msg) "user" = false.

(** A cutoff marker that says nothing about streaming. *)
Definition bare_cutoff : json := JObj [("id", JStr "__cutoff__")].

(** Nothing has been aggregated or forwarded: the state is the initial
    one, whatever the gate. *)
Definition nothing_aggregated {S : Type} (s : S)
  (st : CubeClient.locals (S := S)) : Prop :=
  CubeClient.assistantText st = ""
  /\ CubeClient.lastMetadata st = None
  /\ CubeClient.sink st = s.

(** The contents of the [delta] envelopes among what was written. *)
Definition delta_contents (ws : list Server.Wire) : list string :=
  flat_map (fun w => match w with
                     | Server.WDelta c => [c]
                     | _ => []
                     end) ws.

(** The envelope is an assistant envelope whose content is [fragment] and
    it is not a cutoff marker: behind an open gate it is accepted and
    [fragment] is forwarded. *)
Definition carries (msg : json) (fragment : string) : Prop :=
  json_eqb_str (get "role" msg) "assistant" = true
  /\ get "content" msg = Some (JStr fragment)
  /\ is_cutoff msg = false.

(** No fragment is empty, and none begins with the whole text forwarded
    before it ([accum], when that is not empty). *)
Fixpoint fresh_fragments (accum : string) (fragments : list string) : bool :=
  match fragments with
  | [] => true
  | f :: rest =>
      truthy_str f
      && (negb (truthy_str accum) || negb (startsWith f accum))
      && fresh_fragments (accum ++ f) rest
  end.

(** The gate is open and nothing has been aggregated or written. *)
Definition open_stream : CubeClient.locals :=
  CubeClient.set_streaming true
    (CubeClient.start
       {| Server.assistantAccum := ""; Server.written := [] |}).


(** The line of text that carries an envelope. *)
Definition line_of (msg : json) : string := JsonText.stringify msg.

(** The decoder reads the line of an envelope as that envelope. *)
Definition decodes (JSON_parse : string -> option json) (msg : json) : Prop :=
  JSON_parse (line_of msg) = Some msg.

(** [!res.ok || !res.body]. *)
Definition upstream_failed (res : CubeClient.Response) : bool :=
  negb (CubeClient.ok res)
  || match CubeClient.body res with Some _ => false | None => true end.

(** The user and the conversation of a turn, and the row of its user
    message. *)
Definition turn_user (req : Server.ChatRequest) : string :=
  match Server.userId req with Some u => u | None => "anonymous" end.

Definition turn_conversation (w : Server.World) (req : Server.ChatRequest)
  : string :=
  match Server.conversationId req with
  | Some c => if truthy_str c then c else Server.uuid w
  | None => Server.uuid w
  end.

Definition user_row (w : Server.World) (req : Server.ChatRequest)
  : Repo.MessageRow :=
  {| Repo.m_conversation_id := turn_conversation w req;
     Repo.m_role := "user";
     Repo.m_content := Server.content req;
     Repo.m_timestamp := Server.now_start w;
     Repo.m_metadata := JNull |}.

(** The conversation row a turn adds: one when the request names no
    conversation, none otherwise. *)
Definition opened_conversation (w : Server.World) (req : Server.ChatRequest)
  : list Repo.ConversationRow :=
  let row := {| Repo.c_id := Server.uuid w;
                Repo.c_user_id := turn_user req;
                Repo.c_title := Some (substring 0 50 (Server.content req)) |} in
  match Server.conversationId req with
  | Some c => if truthy_str c then [] else [row]
  | None => [row]
  end.

(** The conversation the request names, if it names one, is the user's. *)
Definition turn_owned (req : Server.ChatRequest) (db : Repo.Db) : Prop :=
  match Server.conversationId req with
  | Some c =>
      if truthy_str c then Repo.listMessages c (turn_user req) db <> None
      else True
  | None => True
  end.

(** The conversation the request names, if it names one, exists. *)
Definition turn_known (req : Server.ChatRequest) (db : Repo.Db) : bool :=
  match Server.conversationId req with
  | Some c => if truthy_str c then Repo.has_conversation c db else true
  | None => true
  end.

(** The database once the handler has stored the conversation it opened,
    if it opened one, and the user message of the turn. *)
Definition after_user_message (w : Server.World) (req : Server.ChatRequest)
  (db : Repo.Db) : Repo.Db :=
  {| Repo.conversations :=
       (Repo.conversations db ++ opened_conversation w req)%list;
     Repo.messages := (Repo.messages db ++ [user_row w req])%list |}.

(** The row of the assistant message of a turn, for the reply
    [sendToCube] returned. *)
Definition assistant_row (w : Server.World) (req : Server.ChatRequest)
  (reply : CubeClient.CubeReply) : Repo.MessageRow :=
  {| Repo.m_conversation_id := turn_conversation w req;
     Repo.m_role := "assistant";
     Repo.m_content := CubeClient.message reply;
     Repo.m_timestamp := Server.now_end w;
     Repo.m_metadata := match CubeClient.metadata reply with
                        | Some v => v
                        | None => JNull
                        end |}.

(** The database once the assistant message is stored as well. *)
Definition after_turn (w : Server.World) (req : Server.ChatRequest)
  (reply : CubeClient.CubeReply) (db : Repo.Db) : Repo.Db :=
  {| Repo.conversations := Repo.conversations (after_user_message w req db);
     Repo.messages :=
       (Repo.messages (after_user_message w req db)
        ++ [assistant_row w req reply])%list |}.

(** The four lines of the example scenario, the last one unterminated. *)
Definition scenario_text : string :=
  ln (line_of (user_env "hi")) ++ ln (line_of (cutoff true))
  ++ ln (line_of (assistant_env "Sales "))
  ++ line_of (assistant_env "are up.").

(** The scenario cut into chunks in the middle of its lines. *)
Definition scenario_chunks : list string :=
  [substring 0 20 scenario_text; substring 20 7 scenario_text;
   substring 27 200 scenario_text].

Definition scenario_world : Server.World :=
  {| Server.configured := true;
     Server.uuid := "c-1";
     Server.now_start := "2024-01-01T00:00:00.000Z";
     Server.now_end := "2024-01-01T00:00:01.000Z";
     Server.upstream := ok_response scenario_chunks |}.


(** The assistant placeholder [handleSend] appends before it reads the
    stream. *)
Definition placeholder (now : string) : App.ChatMessage :=
  {| App.role := "assistant";
     App.content := "";
     App.timestamp := now;
     App.assistantChunks := None;
     App.thinkingSteps := None;
     App.thinkingBuffer := None;
     App.toolCalls := None;
     App.toolResults := None;
     App.sqlToolCalls := None;
     App.sqlToolResults := None;
     App.segments := None;
     App.metadata := None |}.





(** An assistant message that has received one delta. *)
Definition started (now fragment : string) : App.ChatMessage :=
  {| App.role := "assistant";
     App.content := fragment;
     App.timestamp := now;
     App.assistantChunks := Some [fragment];
     App.thinkingSteps := None;
     App.thinkingBuffer := None;
     App.toolCalls := None;
     App.toolResults := None;
     App.sqlToolCalls := None;
     App.sqlToolResults := None;
     App.segments := Some [App.text fragment];
     App.metadata := None |}.

(** A first turn whose upstream request fails with HTTP 500. *)
Definition failing_world : Server.World :=
  {| Server.configured := true;
     Server.uuid := "c-1";
     Server.now_start := "2024-01-01T00:00:00.000Z";
     Server.now_end := "2024-01-01T00:00:01.000Z";
     Server.upstream := {| CubeClient.ok := false;
                           CubeClient.status := 500;
                           CubeClient.body := Some [] |} |}.

Definition first_request : Server.ChatRequest :=
  {| Server.userId := Some "u-1";
     Server.content := "hi";
     Server.conversationId := None |}.

(** A turn of the user "u-2" that names the conversation "c-0", and a
    turn that names a conversation "c-9". *)
Definition foreign_request : Server.ChatRequest :=
  {| Server.userId := Some "u-2";
     Server.content := "hi";
     Server.conversationId := Some "c-0" |}.

Definition stray_request : Server.ChatRequest :=
  {| Server.userId := Some "u-1";
     Server.content := "hi";
     Server.conversationId := Some "c-9" |}.

Definition empty_db : Repo.Db :=
  {| Repo.conversations := []; Repo.messages := [] |}.

(** An accumulator and an envelope whose [metadata] object carries the
    key of a side channel that the envelope itself sets to [null]. *)
Definition shadow_base : option json :=
  Some (JObj [("toolCall", JStr "a")]).

Definition shadow_env : json :=
  JObj [("metadata", JObj [("toolCall", JStr "b")]); ("toolCall", JNull)].

(** The line is not blank and decodes to something other than [null]: the
    loop body gets to look at it. *)
Definition decodable (JSON_parse : string -> option json) (line : string)
  : bool :=
  nonblank line
  && match JSON_parse line with
     | Some JNull => false
     | Some _ => true
     | None => false
     end.

(** [msg.role === "user"]. *)
Definition is_user (msg : json) : bool :=
  json_eqb_str (get "role" msg) "user".

(** What the loop keeps true of the text, the metadata and the calls it
    has made, when the callback records them. *)
Definition consistent
  (st : CubeClient.locals (S := list (string * json))) : Prop :=
  CubeClient.assistantText st
  = String.concat "" (map fst (CubeClient.sink st))
  /\ (CubeClient.lastMetadata st = None <-> CubeClient.sink st = [])
  /\ Forall (fun c => is_user (snd c) = false) (CubeClient.sink st).

(** The value the last property named [k] of a list has. *)
Definition last_value (k : string) (ps : list (string * json))
  : option json :=
  assoc k (rev ps).

(** The properties [mergeMeta] takes over from the envelope's [metadata]:
    all its own properties but ["__proto__"]. *)
Definition merged_metadata (msg : json) : list (string * json) :=
  match get "metadata" msg with
  | Some m =>
      if truthy (Some m)
      then filter (fun kv => negb (fst kv =? "__proto__")) (own_props m)
      else []
  | None => []
  end.

(** The value a named channel of the envelope assigns to the key [k]. *)
Definition named_value (k : string) (msg : json) : option json :=
  if existsb (String.eqb k) named_channels
  then match get k msg with
       | Some v => if truthy (Some v) then Some v else None
       | None => None
       end
  else None.

(** What the handler writes while the upstream stream is read: a [delta]
    that is not empty, or an [event] whose envelope has a side channel. *)
Definition streamed (w : Server.Wire) : bool :=
  match w with
  | Server.WDelta c => truthy_str c
  | Server.WEvent raw => truthy (Some raw) && Server.has_side_channel raw
  | _ => false
  end.

(** The state of the response before the upstream stream is read. *)
Definition no_writes : Server.Stream :=
  {| Server.assistantAccum := ""; Server.written := [] |}.

(** The state [onDelta] keeps: the accumulated text is the deltas written,
    put together, and nothing else than deltas and events was written. *)
Definition stream_ok (st : Server.Stream) : Prop :=
  Server.assistantAccum st
  = String.concat "" (delta_contents (Server.written st))
  /\ forallb streamed (Server.written st) = true.

(** The listing is in the order of the timestamps. *)
Definition by_timestamp (a b : Repo.MessagePayload) : Prop :=
  String.leb (Repo.timestamp a) (Repo.timestamp b) = true.

(** A stored row as [listMessages] shows it. *)
Definition listed (r : Repo.MessageRow) : Repo.MessagePayload :=
  {| Repo.role := Repo.m_role r;
     Repo.content := Repo.m_content r;
     Repo.timestamp := Repo.m_timestamp r;
     Repo.metadata := Some (Repo.m_metadata r) |}.

(** The row [addMessage] stores for a message. *)
Definition stored (conversationId : string) (msg : Repo.MessagePayload)
  : Repo.MessageRow :=
  {| Repo.m_conversation_id := conversationId;
     Repo.m_role := Repo.role msg;
     Repo.m_content := Repo.content msg;
     Repo.m_timestamp := Repo.timestamp msg;
     Repo.m_metadata := match Repo.metadata msg with
                        | Some v => v
                        | None => JNull
                        end |}.

(** The text has no newline in it. *)
Fixpoint no_nl (s : string) : bool :=
  match s with
  | EmptyString => true
  | String c rest => negb (Ascii.eqb c nl) && no_nl rest
  end.

(** What the client makes of the envelopes the server wrote, one after
    the other. *)
Definition client_fold (JSON_stringify : json -> string)
  (ws : list Server.Wire) (prev : list App.ChatMessage)
  : list App.ChatMessage :=
  fold_left (fun st w => App.on_evt JSON_stringify (Server.wire_json w) st)
    ws prev.

(** The line of an envelope survives the transport: it is one non-blank
    line, and the decoder reads it back. *)
Definition transports (JSON_parse : string -> option json)
  (JSON_stringify : json -> string) (v : json) : Prop :=
  no_nl (JSON_stringify v) = true
  /\ nonblank (JSON_stringify v) = true
  /\ JSON_parse (JSON_stringify v) = Some v.

(** An assistant envelope that also carries reasoning text. *)
Definition reasoned_env (fragment t : string) : json :=
  JObj [("role", JStr "assistant"); ("content", JStr fragment);
        ("thinking", JStr t)].

(** A stream with a user echo, a line that is not JSON, the opening
    marker, and two assistant envelopes, the first with reasoning text. *)
Definition mixed_response : CubeClient.Response :=
  ok_response
    [ln (line_of (user_env "hi")) ++ ln "not json";
     ln (line_of (cutoff true)) ++ ln (line_of (user_env "hi"));
     ln (line_of (reasoned_env "Sales " "t"));
     line_of (assistant_env "are up.")].

(** A network that answers every request, one that refuses the session,
    and an empty cache. *)
Definition good_network : Tokens.Network :=
  {| Tokens.api_configured := true;
     Tokens.generate_session :=
       fun e => {| Tokens.a_ok := true; Tokens.a_status := 200;
                   Tokens.a_field := "s-" ++ e |};
     Tokens.session_token :=
       fun sid => {| Tokens.a_ok := true; Tokens.a_status := 200;
                     Tokens.a_field := "t-" ++ sid |} |}.

Definition bad_network : Tokens.Network :=
  {| Tokens.api_configured := true;
     Tokens.generate_session :=
       fun e => {| Tokens.a_ok := false; Tokens.a_status := 503;
                   Tokens.a_field := "" |};
     Tokens.session_token :=
       fun sid => {| Tokens.a_ok := true; Tokens.a_status := 200;
                     Tokens.a_field := "t-" ++ sid |} |}.

Definition empty_cache : Tokens.Cache :=
  {| Tokens.cachedToken := None; Tokens.tokens := [] |}.

(** A database with one conversation of the user "u-1" and two of its
    messages, stored out of order. *)
Definition small_db : Repo.Db :=
  {| Repo.conversations :=
       [{| Repo.c_id := "c-0"; Repo.c_user_id := "u-1";
           Repo.c_title := Some "first" |}];
     Repo.messages :=
       [{| Repo.m_conversation_id := "c-0"; Repo.m_role := "assistant";
           Repo.m_content := "later"; Repo.m_timestamp := "2024-01-02";
           Repo.m_metadata := JObj [] |};
        {| Repo.m_conversation_id := "c-0"; Repo.m_role := "user";
           Repo.m_content := "sooner"; Repo.m_timestamp := "2024-01-01";
           Repo.m_metadata := JNull |}] |}.

Definition note : Repo.MessagePayload :=
  {| Repo.role := "user"; Repo.content := "note";
     Repo.timestamp := "2024-01-03"; Repo.metadata := None |}.

Definition nameless_request : Server.ChatRequest :=
  {| Server.userId := Some "";
     Server.content := "hi";
     Server.conversationId := None |}.

(** The reply [sendToCube] builds from the text it has accumulated. *)
Definition reply_text (accumulated : string) : string :=
  if truthy_str accumulated then accumulated else "No response".

End Spec.

(* ================================================================== *)
(** * Properties *)

Import Js.

(** ** Objects *)

Section ObjectFacts.

Lemma assoc_obj_replace_same (k : string) (v : json)
  (fs : list (string * json)) :
  assoc k fs <> None -> assoc k (obj_replace k v fs) = Some v.
Proof.
  induction fs as [|[k' v'] rest IH]; simpl; [congruence|].
  destruct (k' =? k) eqn:E; simpl; rewrite E; auto.
Qed.

Lemma assoc_obj_replace_other (k k' : string) (v : json)
  (fs : list (string * json)) :
  k <> k' -> assoc k (obj_replace k' v fs) = assoc k fs.
Proof.
  intros Hne. induction fs as [|[k0 v0] rest IH]; simpl; auto.
  destruct (k0 =? k') eqn:E; simpl.
  - apply String.eqb_eq in E. subst k0.
    destruct (k' =? k) eqn:E'; auto.
    apply String.eqb_eq in E'. congruence.
  - now rewrite IH.
Qed.

Lemma assoc_obj_add_same (k : string) (v : json)
  (fs : list (string * json)) :
  assoc k fs = None -> assoc k (obj_add k v fs) = Some v.
Proof.
  induction fs as [|[k' v'] rest IH]; simpl.
  - now rewrite String.eqb_refl.
  - destruct (k' =? k) eqn:E; [discriminate|]. intros H.
    destruct (precedes k k'); simpl.
    + now rewrite String.eqb_refl.
    + rewrite E. auto.
Qed.

Lemma assoc_obj_add_other (k k' : string) (v : json)
  (fs : list (string * json)) :
  k <> k' -> assoc k (obj_add k' v fs) = assoc k fs.
Proof.
  intros Hne.
  assert (E : (k' =? k) = false) by (apply String.eqb_neq; congruence).
  induction fs as [|[k0 v0] rest IH]; simpl.
  - now rewrite E.
  - destruct (precedes k' k0); simpl.
    + now rewrite E.
    + now rewrite IH.
Qed.

Lemma assoc_obj_set_same (k : string) (v : json) (fs : list (string * json)) :
  assoc k (obj_set k v fs) = Some v.
Proof.
  unfold obj_set. destruct (assoc k fs) eqn:E.
  - apply assoc_obj_replace_same. congruence.
  - now apply assoc_obj_add_same.
Qed.

Lemma assoc_obj_set_other (k k' : string) (v : json)
  (fs : list (string * json)) :
  k <> k' -> assoc k (obj_set k' v fs) = assoc k fs.
Proof.
  intros Hne. unfold obj_set. destruct (assoc k' fs).
  - now apply assoc_obj_replace_other.
  - now apply assoc_obj_add_other.
Qed.

Lemma assoc_obj_set_some (k k' : string) (v : json)
  (fs : list (string * json)) :
  assoc k fs <> None -> assoc k (obj_set k' v fs) <> None.
Proof.
  intros H. destruct (String.eqb_spec k k') as [->|Hne].
  - rewrite assoc_obj_set_same. discriminate.
  - now rewrite assoc_obj_set_other.
Qed.

(** [Object.assign] keeps every property its target has. *)
Lemma assoc_assign_some (k : string) (src : json)
  (out : list (string * json)) :
  assoc k out <> None -> assoc k (assign out src) <> None.
Proof.
  unfold assign. generalize (own_props src) as ps. intros ps.
  revert out. induction ps as [|[k' v'] rest IH]; simpl; intros out H; auto.
  apply IH. destruct (k' =? "__proto__"); auto.
  now apply assoc_obj_set_some.
Qed.

(** [Object.assign] leaves alone what its source does not have. *)
Lemma assoc_assign_absent (k : string) (src : json)
  (out : list (string * json)) :
  assoc k (own_props src) = None ->
  assoc k (assign out src) = assoc k out.
Proof.
  unfold assign. generalize (own_props src) as ps. intros ps.
  revert out. induction ps as [|[k' v'] rest IH]; simpl; intros out H; auto.
  destruct (k' =? k) eqn:E; [discriminate|].
  rewrite IH by assumption.
  destruct (k' =? "__proto__"); auto.
  apply assoc_obj_set_other. intros ->.
  now rewrite String.eqb_refl in E.
Qed.

Lemma assoc_in_keys (k : string) (fs : list (string * json)) :
  In k (map fst fs) <-> assoc k fs <> None.
Proof.
  induction fs as [|[k' v'] rest IH]; simpl.
  - split; [tauto | congruence].
  - destruct (String.eqb_spec k' k) as [->|Hne].
    + split; [discriminate | auto].
    + rewrite <- IH. split; [intros [?|?]; [congruence | assumption] | auto].
Qed.

End ObjectFacts.

(** ** mergeMeta *)

Section MergeMetaFacts.
Import CubeClient.

Lemma set_if_truthy_some (f k : string) (msg : json)
  (out : list (string * json)) :
  assoc k out <> None -> assoc k (set_if_truthy f msg out) <> None.
Proof.
  intros H. unfold set_if_truthy.
  destruct (get f msg) as [v|]; auto.
  destruct (truthy (Some v)); auto.
  now apply assoc_obj_set_some.
Qed.

Lemma set_if_truthy_other (f k : string) (msg : json)
  (out : list (string * json)) :
  k <> f -> assoc k (set_if_truthy f msg out) = assoc k out.
Proof.
  intros H. unfold set_if_truthy.
  destruct (get f msg) as [v|]; auto.
  destruct (truthy (Some v)); auto.
  now apply assoc_obj_set_other.
Qed.

Lemma set_if_truthy_falsy (f : string) (msg : json)
  (out : list (string * json)) :
  truthy (get f msg) = false -> set_if_truthy f msg out = out.
Proof.
  unfold set_if_truthy. destruct (get f msg) as [v|]; auto.
  now intros ->.
Qed.

Lemma set_if_truthy_truthy (f : string) (msg v : json)
  (out : list (string * json)) :
  get f msg = Some v -> truthy (Some v) = true ->
  assoc f (set_if_truthy f msg out) = Some v.
Proof.
  unfold set_if_truthy. intros -> ->. apply assoc_obj_set_same.
Qed.

End MergeMetaFacts.

(** ** Strings *)

Section StringFacts.

Lemma append_empty_r (s : string) : s ++ "" = s.
Proof. induction s; simpl; congruence. Qed.

Lemma append_assoc (a b c : string) : (a ++ b) ++ c = a ++ (b ++ c).
Proof. induction a; simpl; congruence. Qed.

Lemma length_append (a b : string) :
  String.length (a ++ b) = String.length a + String.length b.
Proof. induction a; simpl; congruence. Qed.

End StringFacts.

(** ** The read loop *)

Section ReadLoopFacts.
Import CubeClient.

Lemma split_nl_nonempty (s : string) : split_nl s <> [].
Proof.
  destruct s as [|c rest]; simpl; [discriminate|].
  destruct (Ascii.eqb c nl); [discriminate|].
  destruct (split_nl rest); discriminate.
Qed.

Lemma last_app_nonempty {A : Type} (xs ys : list A) (d : A) :
  ys <> [] -> last (xs ++ ys) d = last ys d.
Proof.
  intros Hy. induction xs as [|x rest IH]; simpl; auto.
  destruct (rest ++ ys)%list eqn:E; auto.
  apply app_eq_nil in E. tauto.
Qed.

(** Splitting a text that continues: the complete lines seen so far stay,
    and the pending fragment is split together with what follows. *)
Lemma split_nl_app (a b : string) :
  split_nl (a ++ b)
  = (removelast (split_nl a) ++ split_nl (last (split_nl a) "" ++ b))%list.
Proof.
  induction a as [|c a IH]; simpl; auto.
  destruct (Ascii.eqb c nl) eqn:Ec.
  - rewrite IH.
    destruct (split_nl a) as [|p ps] eqn:Ea;
      [now apply split_nl_nonempty in Ea|].
    reflexivity.
  - rewrite IH.
    destruct (split_nl a) as [|p ps] eqn:Ea;
      [now apply split_nl_nonempty in Ea|].
    destruct ps as [|q qs].
    + simpl. rewrite Ec. reflexivity.
    + reflexivity.
Qed.

Variable St : Type.
Variables on_line on_trailing : string -> St -> St.

Lemma for_lines_app (xs ys : list string) (st : St) :
  for_lines on_line (xs ++ ys) st
  = for_lines on_line ys (for_lines on_line xs st).
Proof. unfold for_lines. apply fold_left_app. Qed.

(** After any number of chunks the buffer is what follows the last newline
    of the text read so far, and the loop body has run on every complete
    line of that text, in order. *)
Lemma read_loop_text (chunks : list string) (sofar : string) (st : St) :
  read_loop on_line chunks
    (last (split_nl sofar) "",
     for_lines on_line (removelast (split_nl sofar)) st)
  = (last (split_nl (sofar ++ String.concat "" chunks)) "",
     for_lines on_line
       (removelast (split_nl (sofar ++ String.concat "" chunks))) st).
Proof.
  revert sofar. induction chunks as [|c rest IH]; intros sofar.
  - simpl. now rewrite append_empty_r.
  - assert (Hc : String.concat "" (c :: rest) = c ++ String.concat "" rest).
    { destruct rest; simpl; [now rewrite append_empty_r | reflexivity]. }
    rewrite Hc, <- append_assoc, <- IH.
    unfold read_loop at 1. simpl fold_left. fold (read_loop on_line rest).
    f_equal. unfold read_chunk, pop. simpl fst; simpl snd.
    rewrite (split_nl_app sofar c).
    rewrite last_app_nonempty by apply split_nl_nonempty.
    rewrite removelast_app by apply split_nl_nonempty.
    now rewrite for_lines_app.
Qed.

Lemma read_stream_text (chunks : list string) (st : St) :
  read_stream on_line on_trailing chunks st
  = flush_buffer on_trailing
      (last (split_nl (String.concat "" chunks)) "",
       for_lines on_line (removelast (split_nl (String.concat "" chunks))) st).
Proof.
  unfold read_stream. f_equal.
  exact (read_loop_text chunks "" st).
Qed.

End ReadLoopFacts.

(** ** The line framer *)

Section FramerFacts.
Import CubeClient Spec.

Lemma for_lines_record (lines seen : list string) :
  for_lines (fun line seen => (seen ++ [line])%list) lines seen
  = (seen ++ filter nonblank lines)%list.
Proof.
  revert seen. induction lines as [|l rest IH]; intros seen; simpl.
  - now rewrite app_nil_r.
  - unfold for_lines in *. simpl. unfold nonblank at 1.
    destruct (truthy_str (trim l)); simpl.
    + rewrite IH. now rewrite <- app_assoc.
    + apply IH.
Qed.

Lemma framed_lines_text (chunks : list string) :
  framed_lines chunks
  = filter nonblank (split_nl (String.concat "" chunks)).
Proof.
  unfold framed_lines. rewrite read_stream_text.
  generalize (split_nl_nonempty (String.concat "" chunks)).
  generalize (split_nl (String.concat "" chunks)).
  intros pieces Hne.
  assert (E : filter nonblank pieces
              = (filter nonblank (removelast pieces)
                 ++ filter nonblank [last pieces ""])%list).
  { rewrite <- filter_app. now rewrite <- app_removelast_last. }
  rewrite E, for_lines_record. unfold flush_buffer. simpl.
  change (truthy_str (trim (last pieces ""))) with (nonblank (last pieces "")).
  destruct (nonblank (last pieces "")); [reflexivity | now rewrite app_nil_r].
Qed.

(** C5.  The lines the framer hands to the decoder are the non-blank
    pieces of the whole text between newlines, in order, each once, the
    piece after the last newline included; so they do not depend on how
    the text was cut into chunks. *)
Theorem line_framer_chunk_invariance :
  (forall chunks : list string,
     framed_lines chunks
     = filter nonblank (split_nl (String.concat "" chunks)))
  /\ (forall chunks1 chunks2 : list string,
        String.concat "" chunks1 = String.concat "" chunks2 ->
        framed_lines chunks1 = framed_lines chunks2).
Proof.
  split.
  - exact framed_lines_text.
  - intros c1 c2 H. now rewrite !framed_lines_text, H.
Qed.

Lemma line_framer_chunk_invariance_witness :
  framed_lines [ln "ab" ++ " "; String nl "c"; "d " ++ String nl "e"]
  = framed_lines ["a"; ln "b" ++ ln " " ++ "cd"; ln " " ++ "e"]
  /\ framed_lines ["a"; ln "b" ++ ln " " ++ "cd"; ln " " ++ "e"]
     = ["ab"; "cd "; "e"].
Proof.
  split.
  - apply (proj2 line_framer_chunk_invariance). reflexivity.
  - rewrite (proj1 line_framer_chunk_invariance). reflexivity.
Defined.

End FramerFacts.

(** ** The metadata merge *)

Section MergeMetaClaims.
Import CubeClient Spec.

Lemma spread_or_empty_props (x : json) :
  spread_or_empty (Some x) = own_props x.
Proof.
  unfold spread_or_empty.
  destruct x as [|b|lit|s|xs|fs]; simpl; auto.
  - now destruct b.
  - now destruct (_ || _).
  - destruct s; reflexivity.
Qed.

(** Every key of the accumulator is still a key of what [mergeMeta]
    returns. *)
Lemma mergeMeta_keeps_keys (base : option json) (msg : json) :
  incl (keys base) (keys (Some (mergeMeta base msg))).
Proof.
  intros k Hk. unfold keys in *. unfold mergeMeta. cbn [own_props].
  apply assoc_in_keys.
  do 5 apply set_if_truthy_some.
  assert (H0 : assoc k (spread_or_empty base) <> None).
  { destruct base as [x|]; [|contradiction].
    rewrite spread_or_empty_props. now apply assoc_in_keys. }
  destruct (get "metadata" msg) as [m|]; auto.
  destruct (truthy (Some m)); auto.
  now apply assoc_assign_some.
Qed.

Lemma assoc_filter_neq (k f : string) (fs : list (string * json)) :
  assoc k (filter (fun kv => negb (fst kv =? f)) fs)
  = if k =? f then None else assoc k fs.
Proof.
  induction fs as [|[k' v'] rest IH]; simpl.
  - now destruct (k =? f).
  - destruct (String.eqb_spec k' f) as [->|Hne]; simpl.
    + rewrite IH. destruct (String.eqb_spec k f) as [->|Hkf]; auto.
      destruct (String.eqb_spec f k); congruence.
    + rewrite IH.
      destruct (String.eqb_spec k' k) as [->|Hk'].
      * destruct (String.eqb_spec k f); congruence.
      * reflexivity.
Qed.

Lemma get_without (k f : string) (msg : json) :
  get k (without f msg) = if k =? f then None else get k msg.
Proof.
  destruct msg; simpl; try now destruct (k =? f).
  apply assoc_filter_neq.
Qed.

Lemma set_if_truthy_without (k f : string) (msg : json)
  (out : list (string * json)) :
  truthy (get f msg) = false ->
  set_if_truthy k (without f msg) out = set_if_truthy k msg out.
Proof.
  intros Hf. unfold set_if_truthy at 1. rewrite get_without.
  destruct (String.eqb_spec k f) as [->|Hne].
  - now rewrite set_if_truthy_falsy.
  - reflexivity.
Qed.

Lemma set_if_truthy_keeps (k f : string) (msg : json)
  (out : list (string * json)) :
  truthy (get f msg) = false ->
  assoc f (set_if_truthy k msg out) = assoc f out.
Proof.
  intros Hf. destruct (String.eqb_spec f k) as [->|Hne].
  - now rewrite set_if_truthy_falsy.
  - now apply set_if_truthy_other.
Qed.

(** C10, as the code has it.  A falsy field counts as absent: merging the
    envelope gives what merging it without that field gives.  The key of
    that name keeps the value the accumulator had, unless the envelope's
    own (truthy) [metadata] object carries the key. *)
Theorem mergeMeta_falsy_field_as_absent
  (base : option json) (msg : json) (f : string) :
  truthy (get f msg) = false ->
  mergeMeta base msg = mergeMeta base (without f msg)
  /\ (metadata_carries f msg = false ->
      acc_get f (Some (mergeMeta base msg)) = acc_get f base).
Proof.
  intros Hf. split.
  - unfold mergeMeta.
    rewrite !(set_if_truthy_without _ f msg) by assumption.
    rewrite get_without.
    destruct (String.eqb_spec "metadata" f) as [<-|Hne]; auto.
    destruct (get "metadata" msg) as [m|]; auto.
    now rewrite Hf.
  - intros Hm. unfold acc_get at 1. rewrite spread_or_empty_props.
    unfold mergeMeta. cbn [own_props].
    rewrite !set_if_truthy_keeps by assumption.
    unfold acc_get. unfold metadata_carries in Hm.
    destruct (get "metadata" msg) as [m|]; auto.
    destruct (truthy (Some m)); auto.
    apply assoc_assign_absent.
    simpl in Hm. now destruct (assoc f (own_props m)).
Qed.

Lemma mergeMeta_falsy_field_as_absent_witness :
  mergeMeta shadow_base (JObj [("chartType", JStr "bar"); ("toolCall", JNull)])
  = mergeMeta shadow_base (JObj [("chartType", JStr "bar")])
  /\ acc_get "toolCall"
       (Some (mergeMeta shadow_base
                (JObj [("chartType", JStr "bar"); ("toolCall", JNull)])))
     = Some (JStr "a").
Proof.
  destruct (mergeMeta_falsy_field_as_absent shadow_base
              (JObj [("chartType", JStr "bar"); ("toolCall", JNull)])
              "toolCall" eq_refl) as [H1 H2].
  split; [exact H1 | exact (H2 eq_refl)].
Defined.

(** C10 as stated fails: the envelope sets [toolCall] to [null], yet the
    accumulator's [toolCall] changes, through the envelope's [metadata]. *)
Lemma falsy_field_shadowed_counterexample :
  In "toolCall" side_channels
  /\ truthy (get "toolCall" shadow_env) = false
  /\ acc_get "toolCall" shadow_base = Some (JStr "a")
  /\ acc_get "toolCall" (Some (mergeMeta shadow_base shadow_env))
     = Some (JStr "b")
  /\ acc_get "toolCall" (Some (mergeMeta shadow_base shadow_env))
     <> acc_get "toolCall" shadow_base.
Proof.
  repeat split; try reflexivity.
  - simpl. auto.
  - discriminate.
Qed.

End MergeMetaClaims.

(** ** The replay gate *)

Section GateFacts.
Import CubeClient Spec.

Variable S : Type.
Variable JSON_parse : string -> option json.
Variable onDelta : string -> json -> S -> S.

Local Abbreviation body := (on_line JSON_parse onDelta).
Local Abbreviation run := (for_lines (on_line JSON_parse onDelta)).

Lemma accept_keeps_gate (msg : json) (st : locals) :
  streamingStarted (accept onDelta msg st) = streamingStarted st.
Proof.
  unfold accept. destruct (is_string (get "content" msg)); auto.
  destruct (json_eqb_str (get "role" msg) "assistant"); auto.
Qed.

(** While the gate is shut, a line that is not a cutoff marker changes
    nothing. *)
Lemma on_line_suppressed (line : string) (st : locals) :
  streamingStarted st = false ->
  decodes_to_cutoff JSON_parse line = false ->
  body line st = st.
Proof.
  intros Hg Hc. unfold on_line, decodes_to_cutoff in *.
  destruct (JSON_parse line) as [msg|]; auto.
  unfold on_message. unfold is_cutoff in Hc.
  destruct msg; auto;
    destruct (json_eqb_str _ "user"); auto; rewrite Hc, Hg; auto.
Qed.

Lemma run_suppressed (pre : list string) (st : locals) :
  streamingStarted st = false ->
  forallb (fun l => negb (decodes_to_cutoff JSON_parse l)) pre = true ->
  run pre st = st.
Proof.
  intros Hg. unfold for_lines.
  induction pre as [|l rest IH]; simpl; intros H; auto.
  apply andb_prop in H. destruct H as [Hl Hrest].
  apply negb_true_iff in Hl.
  destruct (negb (truthy_str (trim l))); auto.
  rewrite on_line_suppressed; auto.
Qed.

(** In the loop a cutoff marker that is not a user echo only sets the
    gate: to open when its [state.isStreaming] is [true], to shut when it
    is anything else or missing. *)
Lemma on_line_marker (line : string) (msg : json) (st : locals) :
  marker_line JSON_parse line msg ->
  (streaming_flag msg = Some (JBool true) ->
   run [line] st = set_streaming true st)
  /\ (streaming_flag msg <> Some (JBool true) ->
      run [line] st = set_streaming false st).
Proof.
  intros (Hnb & Hp & Hid & Hrole).
  assert (E : run [line] st = set_streaming (isStreaming_true msg) st).
  { unfold for_lines. simpl. unfold nonblank in Hnb. rewrite Hnb. simpl.
    unfold on_line. rewrite Hp.
    unfold is_cutoff in Hid.
    destruct msg; try discriminate.
    unfold on_message. now rewrite Hrole, Hid. }
  rewrite E. unfold isStreaming_true, streaming_flag.
  split; intros H.
  - now rewrite H.
  - destruct (get_opt "isStreaming" (get "state" msg)) as [[|[|]| | | |]|];
      try reflexivity.
    now contradiction H.
Qed.

Lemma on_trailing_suppressed (line : string) (st : locals) :
  streamingStarted st = false ->
  decodes_to_cutoff JSON_parse line = false ->
  on_trailing JSON_parse onDelta line st = st.
Proof.
  intros Hg Hc. unfold on_trailing, decodes_to_cutoff in *.
  destruct (JSON_parse line) as [msg|]; auto.
  unfold on_trailing_message. unfold is_cutoff in Hc.
  destruct msg; auto; rewrite Hc, Hg; auto.
Qed.

(** A stream in which no line decodes to a cutoff marker leaves the
    initial state as it is. *)
Lemma stream_without_cutoff (chunks : list string) (s : S) :
  forallb (fun l => negb (decodes_to_cutoff JSON_parse l))
    (split_nl (String.concat "" chunks)) = true ->
  read_stream body (on_trailing JSON_parse onDelta) chunks (start s)
  = start s.
Proof.
  rewrite read_stream_text.
  generalize (split_nl_nonempty (String.concat "" chunks)).
  generalize (split_nl (String.concat "" chunks)).
  intros pieces Hne H.
  rewrite (app_removelast_last "" Hne), forallb_app in H.
  apply andb_prop in H. destruct H as [Hinit Hlast].
  simpl in Hlast. rewrite andb_true_r in Hlast.
  apply negb_true_iff in Hlast.
  rewrite run_suppressed by auto.
  unfold flush_buffer. simpl.
  destruct (truthy_str (trim (last pieces ""))); auto.
  now apply on_trailing_suppressed.
Qed.

Lemma run_app (xs ys : list string) (st : locals) :
  run (xs ++ ys) st = run ys (run xs st).
Proof. apply for_lines_app. Qed.

(** While the gate is shut one more line aggregates nothing. *)
Lemma run_shut (C : string) (s : S) :
  nothing_aggregated s (run [C] (set_streaming false (start s))).
Proof.
  unfold for_lines. simpl.
  destruct (negb (truthy_str (trim C))); [now repeat split|].
  unfold on_line.
  destruct (JSON_parse C) as [msg|]; [|now repeat split].
  unfold on_message, set_streaming, nothing_aggregated.
  destruct msg; try (now repeat split);
    destruct (json_eqb_str _ "user"); try (now repeat split);
    destruct (json_eqb_str _ cutoff_id); now repeat split.
Qed.

(** X27.  The replay gate of the read loop.  A stream without a cutoff
    marker, and the lines before the first cutoff marker, leave the
    initial state as it is.  A cutoff marker that is not a user echo
    changes the gate and nothing else: it opens the gate when its
    [state.isStreaming] is [true], and shuts it when [state.isStreaming]
    is [false], is any other value, or is missing.  So lines A, B, an
    opening marker, C, D give what C, D give behind an open gate, and A,
    a marker that does not open, C give nothing. *)
Theorem cutoff_gating :
  (forall (chunks : list string) (s : S),
     forallb (fun l => negb (decodes_to_cutoff JSON_parse l))
       (split_nl (String.concat "" chunks)) = true ->
     read_stream body (on_trailing JSON_parse onDelta) chunks (start s)
     = start s)
  /\ (forall (pre : list string) (s : S),
        forallb (fun l => negb (decodes_to_cutoff JSON_parse l)) pre = true ->
        run pre (start s) = start s)
  /\ (forall (line : string) (msg : json) (st : locals),
        marker_line JSON_parse line msg ->
        streaming_flag msg = Some (JBool true) ->
        run [line] st = set_streaming true st)
  /\ (forall (line : string) (msg : json) (st : locals),
        marker_line JSON_parse line msg ->
        streaming_flag msg <> Some (JBool true) ->
        run [line] st = set_streaming false st)
  /\ (forall (A B K C D : string) (msg : json) (s : S),
        decodes_to_cutoff JSON_parse A = false ->
        decodes_to_cutoff JSON_parse B = false ->
        marker_line JSON_parse K msg ->
        streaming_flag msg = Some (JBool true) ->
        run [A; B; K; C; D] (start s)
        = run [C; D] (set_streaming true (start s)))
  /\ (forall (A K C : string) (msg : json) (s : S),
        decodes_to_cutoff JSON_parse A = false ->
        marker_line JSON_parse K msg ->
        streaming_flag msg <> Some (JBool true) ->
        nothing_aggregated s (run [A; K; C] (start s))).
Proof.
  split; [|split; [|split; [|split; [|split]]]].
  - intros chunks s H. now apply stream_without_cutoff.
  - intros pre s H. now apply run_suppressed.
  - intros line msg st H Hf. now apply (on_line_marker line msg).
  - intros line msg st H Hf. now apply (on_line_marker line msg).
  - intros A B K C D msg s HA HB HK Hf.
    change [A; B; K; C; D] with ([A; B] ++ [K] ++ [C; D])%list.
    rewrite !run_app.
    rewrite (run_suppressed [A; B]); [|reflexivity|simpl; now rewrite HA, HB].
    now rewrite (proj1 (on_line_marker K msg _ HK)).
  - intros A K C msg s HA HK Hf.
    change [A; K; C] with ([A] ++ [K] ++ [C])%list.
    rewrite !run_app.
    rewrite (run_suppressed [A]); [|reflexivity|simpl; now rewrite HA].
    rewrite (proj2 (on_line_marker K msg _ HK)) by assumption.
    apply run_shut.
Qed.

End GateFacts.

Section GateExamples.
Import CubeClient Spec.

Lemma cutoff_gating_witness :
  for_lines (on_line JsonText.parse record_call)
    [line_of (user_env "hi"); line_of (assistant_env "old");
     line_of (cutoff true);
     line_of (assistant_env "Sales "); line_of (assistant_env "are up.")]
    (start [])
  = for_lines (on_line JsonText.parse record_call)
      [line_of (assistant_env "Sales "); line_of (assistant_env "are up.")]
      (set_streaming true (start []))
  /\ nothing_aggregated []
       (for_lines (on_line JsonText.parse record_call)
          [line_of (assistant_env "old"); line_of (cutoff false);
           line_of (assistant_env "Sales ")]
          (start []))
  /\ nothing_aggregated []
       (for_lines (on_line JsonText.parse record_call)
          [line_of (assistant_env "old"); line_of bare_cutoff;
           line_of (assistant_env "Sales ")]
          (start []))
  /\ for_lines (on_line JsonText.parse record_call) [line_of bare_cutoff]
       (set_streaming true (start []))
     = set_streaming false (set_streaming true (start []))
  /\ read_stream (on_line JsonText.parse record_call)
       (on_trailing JsonText.parse record_call)
       [ln (line_of (user_env "hi")); line_of (assistant_env "old")]
       (start [])
     = start [].
Proof.
  destruct (cutoff_gating (list (string * json)) JsonText.parse record_call)
    as (H1 & _ & _ & H4 & H5 & H6).
  split; [|split; [|split; [|split]]].
  - apply (H5 _ _ _ _ _ (cutoff true));
      [reflexivity | reflexivity | repeat split | reflexivity].
  - apply (H6 _ _ _ (cutoff false));
      [reflexivity | repeat split | discriminate].
  - apply (H6 _ _ _ bare_cutoff);
      [reflexivity | repeat split | discriminate].
  - apply (H4 _ bare_cutoff); [repeat split | discriminate].
  - apply H1. reflexivity.
Defined.

(** C2 at the failing input: a cutoff marker whose [state.isStreaming] is
    [true] and which also carries [role: "user"].  On a complete line the
    loop drops it as a user echo before it looks at [id]: the gate stays
    shut and the assistant line after it is lost.  The flush after the
    loop, given the same marker, sets the gate from it; and with the
    marker without [role] the same stream gives the assistant text. *)
Theorem user_cutoff_is_dropped_by_the_loop :
  JsonText.parse (line_of user_cutoff) = Some user_cutoff
  /\ is_cutoff user_cutoff = true
  /\ streaming_flag user_cutoff = Some (JBool true)
  /\ streamingStarted
       (for_lines (on_line JsonText.parse record_call) [line_of user_cutoff]
          (start []))
     = false
  /\ streamingStarted
       (flush_buffer (on_trailing JsonText.parse record_call)
          (line_of user_cutoff, start []))
     = true
  /\ sendToCube JsonText.parse record_call true
       (ok_response [ln (line_of user_cutoff);
                     ln (line_of (assistant_env "Sales "))])
       []
     = Returned ({| message := "No response"; metadata := None |}, [])
  /\ sendToCube JsonText.parse record_call true
       (ok_response [ln (line_of (cutoff true));
                     ln (line_of (assistant_env "Sales "))])
       []
     = Returned ({| message := "Sales "; metadata := Some (JObj []) |},
                 [("", assistant_env "Sales ");
                  ("Sales ", assistant_env "Sales ")]).
Proof. repeat split; reflexivity. Qed.

End GateExamples.

(** ** The cutoff marker on the trailing line *)

Section TrailingCutoff.
Import CubeClient Spec.

(** In the loop a line that decodes to a cutoff marker is never merged
    and never handed to [onDelta], whatever else it carries. *)
Lemma loop_consumes_cutoff (S : Type) (JSON_parse : string -> option json)
  (onDelta : string -> json -> S -> S) (line : string) (st : locals) :
  decodes_to_cutoff JSON_parse line = true ->
  let st' := on_line JSON_parse onDelta line st in
  assistantText st' = assistantText st
  /\ lastMetadata st' = lastMetadata st
  /\ sink st' = sink st.
Proof.
  unfold decodes_to_cutoff, on_line, is_cutoff.
  destruct (JSON_parse line) as [msg|]; [|discriminate].
  intros H. unfold on_message.
  destruct msg; try discriminate.
  rewrite H. destruct (json_eqb_str _ "user"); now repeat split.
Qed.

(** C4 at the failing input: the whole stream is one unterminated line, a
    cutoff marker with [state.isStreaming] true that also carries
    [thinking].  The flush after the loop merges the marker into the
    metadata and hands it to [onDelta], and the server writes it out as an
    [event]; the same line followed by a newline does neither. *)
Theorem trailing_cutoff_is_merged_and_forwarded :
  JsonText.parse (line_of thinking_cutoff) = Some thinking_cutoff
  /\ is_cutoff thinking_cutoff = true
  /\ sendToCube JsonText.parse record_call true
       (ok_response [line_of thinking_cutoff]) []
     = Returned ({| message := "No response";
                    metadata := Some (JObj [("thinking", JStr "t")]) |},
                 [("", thinking_cutoff)])
  /\ sendToCube JsonText.parse Server.onDelta true
       (ok_response [line_of thinking_cutoff])
       {| Server.assistantAccum := ""; Server.written := [] |}
     = Returned ({| message := "No response";
                    metadata := Some (JObj [("thinking", JStr "t")]) |},
                 {| Server.assistantAccum := "";
                    Server.written := [Server.WEvent thinking_cutoff] |})
  /\ sendToCube JsonText.parse record_call true
       (ok_response [ln (line_of thinking_cutoff)]) []
     = Returned ({| message := "No response"; metadata := None |}, []).
Proof. repeat split; reflexivity. Qed.

End TrailingCutoff.

(** ** Merge precedence *)

Section MergePrecedence.
Import CubeClient Spec.

Variable S : Type.
Variable onDelta : string -> json -> S -> S.

Lemma on_message_plain (msg : json) (st : locals) :
  streamingStarted st = true ->
  json_eqb_str (get "role" msg) "user" = false ->
  is_cutoff msg = false ->
  on_message onDelta msg st = accept onDelta msg st.
Proof.
  intros Hg Hr Hc. unfold on_message. unfold is_cutoff in Hc.
  now rewrite Hr, Hc, Hg.
Qed.

Lemma accept_metadata (msg : json) (st : locals) :
  lastMetadata (accept onDelta msg st)
  = Some (mergeMeta (lastMetadata st) msg).
Proof.
  unfold accept. destruct (is_string (get "content" msg)); auto.
  destruct (json_eqb_str (get "role" msg) "assistant"); auto.
Qed.

(** C1, as the code has it.  Behind an open gate, of two envelopes that
    carry only [toolCall] the second one's value is the final [toolCall]
    when it is truthy; and of two envelopes that carry only [thinking] the
    second one's text, when it is not empty, is the final [thinking]: it
    replaces the first, it is not appended to it. *)
Theorem merge_precedence :
  (forall (st : locals) (X Y : json),
     streamingStarted st = true ->
     truthy (Some Y) = true ->
     get_opt "toolCall"
       (lastMetadata
          (on_message onDelta (toolCall_env Y)
             (on_message onDelta (toolCall_env X) st)))
     = Some Y)
  /\ (forall (st : locals) (foo bar : string),
        streamingStarted st = true ->
        bar <> "" ->
        get_opt "thinking"
          (lastMetadata
             (on_message onDelta (thinking_env bar)
                (on_message onDelta (thinking_env foo) st)))
        = Some (JStr bar)).
Proof.
  split.
  - intros st X Y Hg HY.
    rewrite (on_message_plain (toolCall_env X) st) by auto.
    rewrite on_message_plain by (rewrite ?accept_keeps_gate; auto).
    rewrite accept_metadata. unfold mergeMeta. simpl get.
    cbn [get_opt get].
    rewrite !set_if_truthy_other by discriminate.
    now apply set_if_truthy_truthy.
  - intros st foo bar Hg Hbar.
    rewrite (on_message_plain (thinking_env foo) st) by auto.
    rewrite on_message_plain by (rewrite ?accept_keeps_gate; auto).
    rewrite accept_metadata. unfold mergeMeta. simpl get.
    cbn [get_opt get].
    rewrite !set_if_truthy_other by discriminate.
    apply set_if_truthy_truthy; [reflexivity|].
    simpl. apply negb_true_iff. now apply String.eqb_neq.
Qed.

End MergePrecedence.

Section MergePrecedenceExamples.
Import CubeClient Spec.

Lemma merge_precedence_witness :
  get_opt "toolCall"
    (lastMetadata
       (on_message record_call (toolCall_env (JStr "Y"))
          (on_message record_call (toolCall_env (JStr "X"))
             (set_streaming true (start [])))))
  = Some (JStr "Y")
  /\ get_opt "thinking"
       (lastMetadata
          (on_message record_call (thinking_env "bar")
             (on_message record_call (thinking_env "foo")
                (set_streaming true (start [])))))
     = Some (JStr "bar").
Proof.
  destruct (merge_precedence (list (string * json)) record_call) as [H1 H2].
  split.
  - apply H1; reflexivity.
  - apply H2; [reflexivity | discriminate].
Defined.

(** C1 as stated fails: after the cutoff marker, the envelopes with
    [thinking] "foo" and then "bar" leave "bar" as the final [thinking],
    which does not contain "foo". *)
Lemma thinking_replaced_counterexample :
  sendToCube JsonText.parse record_call true
    (ok_response [ln (line_of (cutoff true));
                  ln (line_of (thinking_env "foo"));
                  ln (line_of (thinking_env "bar"))])
    []
  = Returned ({| message := "No response";
                 metadata := Some (JObj [("thinking", JStr "bar")]) |},
              [("", thinking_env "foo"); ("", thinking_env "bar")])
  /\ ~ contains_in_order "bar" "foo" "bar".
Proof.
  split; [reflexivity|].
  intros (x & y & z & H).
  apply (f_equal String.length) in H.
  rewrite !length_append in H. simpl in H. lia.
Qed.

End MergePrecedenceExamples.

(** ** The accumulator over a turn *)

Section AccumulatorInvariant.
Import CubeClient Spec.

Variable S : Type.
Variable JSON_parse : string -> option json.
Variable onDelta : string -> json -> S -> S.

Lemma on_message_keeps_keys (msg : json) (st : locals) :
  incl (keys (lastMetadata st))
       (keys (lastMetadata (on_message onDelta msg st))).
Proof.
  unfold on_message.
  destruct (json_eqb_str (get "role" msg) "user"); [apply incl_refl|].
  destruct (json_eqb_str (get "id" msg) cutoff_id); [apply incl_refl|].
  destruct (negb (streamingStarted st)); [apply incl_refl|].
  rewrite accept_metadata. apply mergeMeta_keeps_keys.
Qed.

Lemma on_line_keeps_keys (line : string) (st : locals) :
  incl (keys (lastMetadata st))
       (keys (lastMetadata (on_line JSON_parse onDelta line st))).
Proof.
  unfold on_line.
  destruct (JSON_parse line) as [msg|]; [|apply incl_refl].
  destruct msg; try apply on_message_keeps_keys. apply incl_refl.
Qed.

Lemma on_trailing_keeps_keys (line : string) (st : locals) :
  incl (keys (lastMetadata st))
       (keys (lastMetadata (on_trailing JSON_parse onDelta line st))).
Proof.
  unfold on_trailing.
  destruct (JSON_parse line) as [msg|]; [|apply incl_refl].
  assert (H : incl (keys (lastMetadata st))
                (keys (lastMetadata (on_trailing_message onDelta msg st)))).
  { unfold on_trailing_message.
    destruct (json_eqb_str (get "id" msg) cutoff_id);
      match goal with
      | |- context [if ?c then _ else _] => destruct c
      end;
      try apply incl_refl;
      rewrite accept_metadata; apply mergeMeta_keeps_keys. }
  destruct msg; try exact H. apply incl_refl.
Qed.

Lemma for_lines_keeps_keys (lines : list string) (st : locals) :
  incl (keys (lastMetadata st))
       (keys (lastMetadata
                (for_lines (on_line JSON_parse onDelta) lines st))).
Proof.
  revert st. unfold for_lines.
  induction lines as [|l rest IH]; intros st; simpl; [apply incl_refl|].
  eapply incl_tran; [|apply IH].
  destruct (negb (truthy_str (trim l))); [apply incl_refl|].
  apply on_line_keeps_keys.
Qed.

(** C9.  Every key of the accumulator is still a key of the accumulator
    after [mergeMeta] has merged an envelope into it; and so the keys the
    accumulator has at any point of a turn are still there after any
    further chunks and the final flush. *)
Theorem accumulator_never_deletes :
  (forall (base : option json) (msg : json),
     incl (keys base) (keys (Some (mergeMeta base msg))))
  /\ (forall (chunks : list string) (st : locals),
        incl (keys (lastMetadata st))
             (keys (lastMetadata
                      (read_stream (on_line JSON_parse onDelta)
                         (on_trailing JSON_parse onDelta) chunks st)))).
Proof.
  split; [exact mergeMeta_keeps_keys|].
  intros chunks st. rewrite read_stream_text.
  eapply incl_tran; [apply for_lines_keeps_keys|].
  unfold flush_buffer. cbn [fst snd].
  destruct (truthy_str _); [|apply incl_refl].
  apply on_trailing_keeps_keys.
Qed.

End AccumulatorInvariant.

Section AccumulatorExamples.
Import CubeClient Spec.

Lemma accumulator_never_deletes_witness :
  incl ["chartType"; "toolCall"]
    (keys (Some (mergeMeta
                   (Some (JObj [("chartType", JStr "bar");
                                ("toolCall", JStr "a")]))
                   (JObj [("metadata", JObj [("query", JNull)]);
                          ("toolCall", JStr "b")]))))
  /\ keys (Some (mergeMeta
                   (Some (JObj [("chartType", JStr "bar");
                                ("toolCall", JStr "a")]))
                   (JObj [("metadata", JObj [("query", JNull)]);
                          ("toolCall", JStr "b")])))
     = ["chartType"; "toolCall"; "query"].
Proof.
  split; [|reflexivity].
  exact (proj1 (accumulator_never_deletes (list (string * json))
                  JsonText.parse record_call)
           (Some (JObj [("chartType", JStr "bar"); ("toolCall", JStr "a")]))
           (JObj [("metadata", JObj [("query", JNull)]);
                  ("toolCall", JStr "b")])).
Defined.

End AccumulatorExamples.

(** ** The downstream re-emitter *)

Section ReEmitter.
Import CubeClient Spec.

Lemma prefix_empty (s : string) : prefix "" s = true.
Proof. now destruct s. Qed.

Lemma substring_all (s : string) : substring 0 (String.length s) s = s.
Proof. induction s; simpl; congruence. Qed.

Lemma delta_contents_app (xs ys : list Server.Wire) :
  delta_contents (xs ++ ys) = (delta_contents xs ++ delta_contents ys)%list.
Proof. unfold delta_contents. now rewrite flat_map_app. Qed.



Lemma on_message_carries (msg : json) (f : string) (st : locals) :
  streamingStarted st = true ->
  carries msg f ->
  streamingStarted (on_message Server.onDelta msg st) = true
  /\ sink (on_message Server.onDelta msg st)
     = Server.onDelta f msg (Server.onDelta "" msg (sink st)).
Proof.
  intros Hg (Hr & Hc & Hk). unfold on_message. unfold is_cutoff in Hk.
  assert (Hu : json_eqb_str (get "role" msg) "user" = false).
  { unfold json_eqb_str in *. destruct (get "role" msg) as [[]|]; auto.
    apply String.eqb_eq in Hr. now subst. }
  rewrite Hu, Hk, Hg. simpl negb. cbv iota.
  unfold accept. rewrite Hc, Hr. simpl. auto.
Qed.





End ReEmitter.

(** ** The repository under the chat handler *)

Section RepoFacts.
Import CubeClient Spec.

Lemma in_insert_by_timestamp (r x : Repo.MessageRow)
  (rows : list Repo.MessageRow) :
  In x (Repo.insert_by_timestamp r rows) <-> x = r \/ In x rows.
Proof.
  induction rows as [|y rest IH]; simpl.
  - intuition.
  - destruct (String.leb _ _); simpl; [intuition|].
    rewrite IH. intuition.
Qed.

Lemma in_order_by_timestamp (x : Repo.MessageRow)
  (rows : list Repo.MessageRow) :
  In x (Repo.order_by_timestamp rows) <-> In x rows.
Proof.
  unfold Repo.order_by_timestamp.
  induction rows as [|y rest IH]; simpl; [tauto|].
  rewrite in_insert_by_timestamp, IH. intuition.
Qed.

(** The [INSERT] of [addMessage] succeeds exactly for a conversation
    that exists. *)
Lemma addMessage_known (cid : string) (msg : Repo.MessagePayload)
  (db : Repo.Db) :
  Repo.has_conversation cid db = true ->
  Repo.addMessage cid msg db
  = Returned {| Repo.conversations := Repo.conversations db;
                Repo.messages := (Repo.messages db ++ [stored cid msg])%list |}.
Proof. intros H. unfold Repo.addMessage. now rewrite H. Qed.

Lemma addMessage_unknown (cid : string) (msg : Repo.MessagePayload)
  (db : Repo.Db) :
  Repo.has_conversation cid db = false ->
  Repo.addMessage cid msg db = Thrown "FOREIGN KEY constraint failed".
Proof. intros H. unfold Repo.addMessage. now rewrite H. Qed.

(** A conversation a user can list exists. *)
Lemma listMessages_known (cid uid : string) (db : Repo.Db) :
  Repo.listMessages cid uid db <> None ->
  Repo.has_conversation cid db = true.
Proof.
  unfold Repo.listMessages, Repo.has_conversation.
  destruct (existsb (fun c => (Repo.c_id c =? cid) && (Repo.c_user_id c =? uid))
              (Repo.conversations db)) eqn:E; [|congruence].
  intros _. apply existsb_exists in E. destruct E as (c & Hin & Hc).
  apply existsb_exists. exists c. split; [exact Hin|].
  apply andb_prop in Hc. tauto.
Qed.

(** A row stored for a conversation of the user is among the messages
    listed for it. *)
Lemma listMessages_stored (cid uid : string) (r : Repo.MessageRow)
  (db : Repo.Db) :
  Repo.listMessages cid uid db <> None ->
  In r (Repo.messages db) ->
  Repo.m_conversation_id r = cid ->
  exists rows,
    Repo.listMessages cid uid db = Some rows /\ In (listed r) rows.
Proof.
  unfold Repo.listMessages.
  destruct (existsb _ (Repo.conversations db)); [|congruence].
  intros _ Hin Hc. eexists. split; [reflexivity|].
  apply in_map_iff. exists r. split; [reflexivity|].
  apply in_order_by_timestamp, filter_In. split; [exact Hin|].
  rewrite Hc. apply String.eqb_refl.
Qed.

Lemma listMessages_created (id uid : string) (title : option string)
  (db : Repo.Db) :
  Repo.listMessages id uid (snd (Repo.createConversation id uid title db))
  <> None.
Proof.
  unfold Repo.listMessages. simpl.
  rewrite existsb_app. simpl. rewrite !String.eqb_refl. simpl.
  rewrite orb_true_r. discriminate.
Qed.

End RepoFacts.

(** ** The chat handler *)

Section ChatFacts.
Import CubeClient Spec.

Variable JSON_parse : string -> option json.

Lemma content_truthy (req : Server.ChatRequest) :
  Server.content req <> "" -> truthy_str (Server.content req) = true.
Proof.
  intros H. unfold truthy_str. apply negb_true_iff. now apply String.eqb_neq.
Qed.

(** What the handler does on a request with content whose conversation
    exists: it stores the user message, calls upstream, and either throws
    with the headers flushed and nothing written, or stores the assistant
    message and ends the response with a [done]. *)
Lemma chat_known (w : Server.World) (req : Server.ChatRequest)
  (db : Repo.Db) :
  Server.content req <> "" ->
  turn_known req db = true ->
  Server.chat JSON_parse w req db
  = match sendToCube JSON_parse Server.onDelta (Server.configured w)
            (Server.upstream w) no_writes with
    | Thrown e =>
        (after_user_message w req db,
         {| Server.head := Some 200; Server.sent := [];
            Server.closed := Server.Open |},
         Thrown e)
    | Returned (reply, stream) =>
        (after_turn w req reply db,
         {| Server.head := Some 200;
            Server.sent :=
              (Server.written stream
               ++ [Server.WDone (turn_conversation w req)
                     match Repo.listMessages (turn_conversation w req)
                             (turn_user req) (after_turn w req reply db) with
                     | Some rows => rows
                     | None => []
                     end])%list;
            Server.closed := Server.Ended |},
         Returned tt)
    end.
Proof.
  intros Hc Hk.
  unfold Server.chat. rewrite (content_truthy req Hc). simpl negb. cbv iota.
  change {| Server.assistantAccum := ""; Server.written := [] |}
    with no_writes.
  unfold after_turn, after_user_message, assistant_row, user_row.
  unfold turn_conversation, opened_conversation, turn_user, turn_known in *.
  destruct (Server.conversationId req) as [c|]; [destruct (truthy_str c)|];
    cbn [Repo.createConversation];
    (rewrite addMessage_known
       by (unfold Repo.has_conversation in *; cbn [Repo.conversations];
           rewrite ?existsb_app; cbn [existsb Repo.c_id];
           rewrite ?String.eqb_refl, ?orb_true_r; auto));
    (destruct (sendToCube _ _ _ _ _) as [[reply stream]|e];
     [|rewrite ?app_nil_r; reflexivity]);
    (rewrite addMessage_known
       by (unfold Repo.has_conversation in *; cbn [Repo.conversations];
           rewrite ?existsb_app; cbn [existsb Repo.c_id];
           rewrite ?String.eqb_refl, ?orb_true_r; auto));
    unfold stored; cbn [Repo.role Repo.content Repo.timestamp Repo.metadata
                        Repo.conversations Repo.messages];
    rewrite ?app_nil_r;
    destruct (metadata reply) as [[]|]; reflexivity.
Qed.


End ChatFacts.

Section UpstreamFailure.
Import CubeClient Spec.

Variable JSON_parse : string -> option json.



End UpstreamFailure.

Section UpstreamFailureExamples.
Import CubeClient Spec.



End UpstreamFailureExamples.

(** ** The example scenario *)

Section Scenario.
Import CubeClient Spec.

Variable JSON_parse : string -> option json.
Hypothesis parse_user : decodes JSON_parse (user_env "hi").
Hypothesis parse_cutoff : decodes JSON_parse (cutoff true).
Hypothesis parse_sales : decodes JSON_parse (assistant_env "Sales ").
Hypothesis parse_up : decodes JSON_parse (assistant_env "are up.").

(** Whatever the chunking, and whether or not the last line is
    terminated, the loop accepts the two assistant envelopes and nothing
    else. *)
Lemma scenario_stream (S : Type) (onDelta : string -> json -> S -> S)
  (chunks : list string) (s : S) :
  String.concat "" chunks = scenario_text
  \/ String.concat "" chunks = ln scenario_text ->
  read_stream (on_line JSON_parse onDelta) (on_trailing JSON_parse onDelta)
    chunks (start s)
  = accept onDelta (assistant_env "are up.")
      (accept onDelta (assistant_env "Sales ")
         (set_streaming true (start s))).
Proof.
  intros Htext. rewrite read_stream_text.
  assert (E1 : split_nl scenario_text
               = [line_of (user_env "hi"); line_of (cutoff true);
                  line_of (assistant_env "Sales ");
                  line_of (assistant_env "are up.")]) by reflexivity.
  assert (E2 : split_nl (ln scenario_text)
               = [line_of (user_env "hi"); line_of (cutoff true);
                  line_of (assistant_env "Sales ");
                  line_of (assistant_env "are up."); ""]) by reflexivity.
  assert (N1 : truthy_str (trim (line_of (user_env "hi"))) = true)
    by reflexivity.
  assert (N2 : truthy_str (trim (line_of (cutoff true))) = true)
    by reflexivity.
  assert (N3 : truthy_str (trim (line_of (assistant_env "Sales "))) = true)
    by reflexivity.
  assert (N4 : truthy_str (trim (line_of (assistant_env "are up."))) = true)
    by reflexivity.
  unfold decodes in *.
  destruct Htext as [-> | ->]; [rewrite E1 | rewrite E2];
    cbn [last removelast]; unfold flush_buffer, for_lines;
    cbn [fold_left fst snd]; rewrite ?N1, ?N2, ?N3, ?N4; cbn [negb];
    unfold on_line, on_trailing;
    rewrite ?parse_user, ?parse_cutoff, ?parse_sales, ?parse_up;
    reflexivity.
Qed.

(** C3, as the code has it.  Upstream sends the four lines of the
    scenario: the user echo, the opening cutoff marker, and the assistant
    fragments "Sales " and "are up.".  For a request with content that
    names no conversation, or one of the requesting user, the handler
    sends the status 200, writes the [delta] "Sales ", the [delta]
    "are up." and one [done], ends the response, and stores the assistant
    message "Sales are up."; the messages of the [done] are the listing of
    the conversation, and that message is among them. *)
Theorem example_scenario
  (w : Server.World) (req : Server.ChatRequest) (db : Repo.Db)
  (chunks : list string) :
  Server.content req <> "" ->
  Server.configured w = true ->
  Server.upstream w = ok_response chunks ->
  String.concat "" chunks = scenario_text
  \/ String.concat "" chunks = ln scenario_text ->
  turn_owned req db ->
  exists db' msgs,
    Server.chat JSON_parse w req db
    = (db',
       {| Server.head := Some 200;
          Server.sent :=
            [Server.WDelta "Sales "; Server.WDelta "are up.";
             Server.WDone (turn_conversation w req) msgs];
          Server.closed := Server.Ended |},
       Returned tt)
    /\ Repo.messages db'
       = (Repo.messages db
          ++ [user_row w req;
              {| Repo.m_conversation_id := turn_conversation w req;
                 Repo.m_role := "assistant";
                 Repo.m_content := "Sales are up.";
                 Repo.m_timestamp := Server.now_end w;
                 Repo.m_metadata := JObj [] |}])%list
    /\ Repo.listMessages (turn_conversation w req) (turn_user req) db'
       = Some msgs
    /\ In {| Repo.role := "assistant";
             Repo.content := "Sales are up.";
             Repo.timestamp := Server.now_end w;
             Repo.metadata := Some (JObj []) |} msgs.
Proof.
  intros Hc Hconf Hup Htext Hown.
  assert (Hsend :
            sendToCube JSON_parse Server.onDelta (Server.configured w)
              (Server.upstream w) no_writes
            = Returned
                ({| message := "Sales are up.";
                    metadata := Some (JObj []) |},
                 {| Server.assistantAccum := "Sales are up.";
                    Server.written := [Server.WDelta "Sales ";
                                       Server.WDelta "are up."] |})).
  { rewrite Hconf, Hup. unfold sendToCube, ok_response. simpl negb.
    cbv iota. cbn [body ok]. rewrite scenario_stream by assumption.
    reflexivity. }
  assert (Hk : turn_known req db = true).
  { unfold turn_owned in Hown. unfold turn_known.
    destruct (Server.conversationId req) as [c|]; auto.
    destruct (truthy_str c); auto.
    now apply (listMessages_known c (turn_user req)). }
  set (reply := {| message := "Sales are up."; metadata := Some (JObj []) |})
    in Hsend.
  assert (Hlist : Repo.listMessages (turn_conversation w req) (turn_user req)
                    (after_turn w req reply db) <> None).
  { unfold Repo.listMessages, after_turn, after_user_message.
    cbn [Repo.conversations]. rewrite existsb_app.
    unfold turn_owned, Repo.listMessages in Hown.
    unfold turn_conversation, opened_conversation.
    destruct (Server.conversationId req) as [c|];
      [destruct (truthy_str c)|]; cbn [existsb Repo.c_id Repo.c_user_id];
      rewrite ?String.eqb_refl; cbn [andb orb]; rewrite ?orb_true_r;
      try discriminate.
    destruct (existsb _ (Repo.conversations db)); [discriminate|].
    now contradiction Hown. }
  destruct (listMessages_stored (turn_conversation w req) (turn_user req)
              (assistant_row w req reply) (after_turn w req reply db) Hlist)
    as (msgs & Hmsgs & Hin).
  { unfold after_turn. cbn [Repo.messages]. apply in_or_app. right. now left. }
  { reflexivity. }
  exists (after_turn w req reply db), msgs.
  rewrite chat_known by assumption. rewrite Hsend.
  split; [now rewrite Hmsgs|]. split; [|split; [exact Hmsgs | exact Hin]].
  unfold after_turn, after_user_message. cbn [Repo.messages].
  now rewrite <- app_assoc.
Qed.

End Scenario.

Section ScenarioExamples.
Import CubeClient Spec.

Lemma example_scenario_witness :
  exists db' msgs,
    Server.chat JsonText.parse scenario_world first_request empty_db
    = (db',
       {| Server.head := Some 200;
          Server.sent :=
            [Server.WDelta "Sales "; Server.WDelta "are up.";
             Server.WDone "c-1" msgs];
          Server.closed := Server.Ended |},
       Returned tt)
    /\ Repo.messages db'
       = [user_row scenario_world first_request;
          {| Repo.m_conversation_id := "c-1";
             Repo.m_role := "assistant";
             Repo.m_content := "Sales are up.";
             Repo.m_timestamp := "2024-01-01T00:00:01.000Z";
             Repo.m_metadata := JObj [] |}]
    /\ Repo.listMessages "c-1" "u-1" db' = Some msgs
    /\ In {| Repo.role := "assistant";
             Repo.content := "Sales are up.";
             Repo.timestamp := "2024-01-01T00:00:01.000Z";
             Repo.metadata := Some (JObj []) |} msgs.
Proof.
  apply (example_scenario JsonText.parse
           eq_refl eq_refl eq_refl eq_refl
           scenario_world first_request empty_db scenario_chunks).
  - discriminate.
  - reflexivity.
  - reflexivity.
  - left. reflexivity.
  - exact I.
Defined.

(** C3 as stated fails.  Upstream sends the four lines of the scenario to
    a turn of the user "u-2" that names the conversation "c-0" of the user
    "u-1": the handler writes the two deltas and a [done] that carries no
    message at all.  And to a turn that names a conversation that does
    not exist the handler writes nothing: it throws on the foreign key
    before the upstream call, and the connection is destroyed. *)
Lemma foreign_conversation_counterexample :
  Server.upstream scenario_world = ok_response scenario_chunks
  /\ String.concat "" scenario_chunks = scenario_text
  /\ snd (Server.app JsonText.parse scenario_world foreign_request small_db)
     = {| Server.head := Some 200;
          Server.sent := [Server.WDelta "Sales "; Server.WDelta "are up.";
                          Server.WDone "c-0" []];
          Server.closed := Server.Ended |}
  /\ snd (Server.app JsonText.parse scenario_world stray_request small_db)
     = {| Server.head := Some 200; Server.sent := [];
          Server.closed := Server.Destroyed |}.
Proof. repeat split; reflexivity. Qed.

End ScenarioExamples.

(** ** The client reducer *)

Section ReducerFacts.
Import Spec.

Variable JSON_stringify : json -> string.

Lemma last_of_snoc {A : Type} (xs : list A) (x : A) :
  App.last_of (xs ++ [x]) = Some x.
Proof.
  destruct xs as [|y rest]; [reflexivity|].
  simpl. f_equal. apply last_last.
Qed.

Lemma last_of_set_last {A : Type} (xs : list A) (m : A) :
  App.last_of (App.set_last xs m) = Some m.
Proof. apply last_of_snoc. Qed.







End ReducerFacts.

Section ReducerExamples.
Import Spec.



End ReducerExamples.

(* ================================================================== *)
(** * Further properties of the code *)

(** ** sendToCube: what reaches the aggregation *)

Section StreamInvariants.
Import CubeClient Spec.

(** A property of the state that every loop body and the flush keep holds
    after the whole stream. *)
Lemma read_stream_invariant (St : Type)
  (on_line on_trailing : string -> St -> St) (P : St -> Prop) :
  (forall line st, P st -> P (on_line line st)) ->
  (forall line st, P st -> P (on_trailing line st)) ->
  forall chunks st, P st -> P (read_stream on_line on_trailing chunks st).
Proof.
  intros Hl Ht chunks st H. rewrite read_stream_text.
  unfold flush_buffer. cbn [fst snd].
  assert (Hfor : forall lines st0, P st0 -> P (for_lines on_line lines st0)).
  { unfold for_lines. induction lines as [|l rest IH]; simpl; auto.
    intros st0 H0. apply IH. destruct (negb _); auto. }
  destruct (truthy_str _); auto.
Qed.

Variable S : Type.
Variable JSON_parse : string -> option json.
Variable onDelta : string -> json -> S -> S.

(** X1.  An envelope whose [role] is "user" is dropped wherever it
    arrives: on a complete line it changes nothing at all, and on the
    trailing line it changes neither the text, nor the metadata, nor what
    the callback has seen. *)
Theorem user_echo_contributes_nothing
  (line : string) (msg : json) (st : locals) :
  JSON_parse line = Some msg ->
  is_user msg = true ->
  on_line JSON_parse onDelta line st = st
  /\ assistantText (on_trailing JSON_parse onDelta line st) = assistantText st
  /\ lastMetadata (on_trailing JSON_parse onDelta line st) = lastMetadata st
  /\ sink (on_trailing JSON_parse onDelta line st) = sink st.
Proof.
  intros Hp Hu. unfold is_user in Hu. unfold on_line, on_trailing.
  rewrite Hp. destruct msg; try discriminate.
  unfold on_message, on_trailing_message. rewrite Hu.
  split; [reflexivity|].
  destruct (json_eqb_str _ cutoff_id); rewrite andb_false_r;
    repeat split; reflexivity.
Qed.

(** X2.  Blank lines, lines [JSON.parse] rejects and lines that decode to
    [null] do not stop the loop and leave no trace: the loop gives what it
    gives on the other lines alone. *)
Theorem undecodable_lines_are_skipped (lines : list string) (st : locals) :
  for_lines (on_line JSON_parse onDelta) lines st
  = for_lines (on_line JSON_parse onDelta)
      (filter (decodable JSON_parse) lines) st.
Proof.
  revert st. unfold for_lines.
  induction lines as [|l rest IH]; intros st; [reflexivity|].
  simpl. unfold decodable at 1, nonblank.
  destruct (truthy_str (trim l)) eqn:Hb; simpl; [|apply IH].
  unfold on_line at 2.
  destruct (JSON_parse l) as [msg|] eqn:Hp; [|apply IH].
  destruct msg; try apply IH;
    simpl; rewrite Hb; simpl; unfold on_line at 3; rewrite Hp; apply IH.
Qed.

End StreamInvariants.

Section ForwardedCalls.
Import CubeClient Spec.

Variable JSON_parse : string -> option json.

Local Abbreviation calls_of := (list (string * json)).

Lemma concat_snoc (l : list string) (x : string) :
  String.concat "" (l ++ [x]) = String.concat "" l ++ x.
Proof.
  induction l as [|y rest IH]; [reflexivity|].
  destruct rest as [|z rest'].
  - simpl. reflexivity.
  - change (String.concat "" ((y :: z :: rest') ++ [x]))
      with (y ++ "" ++ String.concat "" ((z :: rest') ++ [x])).
    rewrite IH. simpl. now rewrite append_assoc.
Qed.

Lemma accept_record (msg : json) (st : locals (S := calls_of)) :
  exists f extra,
    (extra = [] /\ f = "" \/ extra = [(f, msg)])
    /\ assistantText (accept record_call msg st) = assistantText st ++ f
    /\ sink (accept record_call msg st)
       = (sink st ++ ("", msg) :: extra)%list
    /\ lastMetadata (accept record_call msg st) <> None.
Proof.
  unfold accept, record_call.
  destruct (is_string (get "content" msg)) as [content|];
    [destruct (json_eqb_str (get "role" msg) "assistant")|];
    cbn [assistantText lastMetadata sink].
  - exists content, [(content, msg)]. rewrite <- app_assoc.
    repeat split; auto. discriminate.
  - exists "", []. rewrite append_empty_r. repeat split; auto. discriminate.
  - exists "", []. rewrite append_empty_r. repeat split; auto. discriminate.
Qed.

Lemma accept_consistent (msg : json) (st : locals) :
  is_user msg = false ->
  consistent st -> consistent (accept record_call msg st).
Proof.
  intros Hu (Ht & Hm & Hf).
  destruct (accept_record msg st) as (f & extra & Hex & Hat & Hs & Hmeta).
  unfold consistent. rewrite Hat, Hs. split; [|split].
  - rewrite Ht.
    destruct Hex as [[-> ->] | ->]; rewrite map_app; cbn [map fst].
    + now rewrite concat_snoc, !append_empty_r.
    + change [""; f] with ([""] ++ [f])%list.
      now rewrite app_assoc, !concat_snoc, append_empty_r.
  - split; [intros H; contradiction|].
    intros H. apply app_eq_nil in H. destruct H. discriminate.
  - apply Forall_app. split; auto.
    destruct Hex as [[-> ->] | ->]; repeat constructor; auto.
Qed.

Lemma on_line_consistent (line : string) (st : locals) :
  consistent st -> consistent (on_line JSON_parse record_call line st).
Proof.
  intros H. unfold on_line.
  destruct (JSON_parse line) as [msg|]; auto.
  assert (Hm : consistent (on_message record_call msg st)).
  { unfold on_message.
    destruct (json_eqb_str (get "role" msg) "user") eqn:Hu; auto.
    destruct (json_eqb_str (get "id" msg) cutoff_id); auto.
    destruct (negb (streamingStarted st)); auto.
    now apply accept_consistent. }
  destruct msg; auto.
Qed.

Lemma on_trailing_consistent (line : string) (st : locals) :
  consistent st -> consistent (on_trailing JSON_parse record_call line st).
Proof.
  intros H. unfold on_trailing.
  destruct (JSON_parse line) as [msg|]; auto.
  assert (Hm : consistent (on_trailing_message record_call msg st)).
  { unfold on_trailing_message.
    destruct (json_eqb_str (get "id" msg) cutoff_id);
      match goal with
      | |- context [?g && negb ?u] => destruct g; destruct u eqn:Hu
      end; cbn [andb negb]; auto;
      apply accept_consistent; auto. }
  destruct msg; auto.
Qed.

Lemma stream_consistent (chunks : list string) :
  consistent
    (read_stream (on_line JSON_parse record_call)
       (on_trailing JSON_parse record_call) chunks (start [])).
Proof.
  apply read_stream_invariant.
  - apply on_line_consistent.
  - apply on_trailing_consistent.
  - repeat split; auto.
Qed.

Lemma sendToCube_returned (res : Response) (reply : CubeReply)
  (calls : calls_of) :
  sendToCube JSON_parse record_call true res [] = Returned (reply, calls) ->
  exists chunks,
    let st := read_stream (on_line JSON_parse record_call)
                (on_trailing JSON_parse record_call) chunks (start []) in
    message reply = reply_text (assistantText st)
    /\ metadata reply = lastMetadata st
    /\ calls = sink st.
Proof.
  unfold sendToCube. simpl negb. cbv iota.
  destruct (body res) as [chunks|]; [|discriminate].
  destruct (ok res); [|discriminate].
  intros H. injection H as <- <-. exists chunks. now repeat split.
Qed.

(** X3.  The text of the reply is the chunks [sendToCube] has passed to
    [onDelta], in order, put together; when that is empty the reply is
    "No response". *)
Theorem reply_is_the_forwarded_text (res : Response) (reply : CubeReply)
  (calls : calls_of) :
  sendToCube JSON_parse record_call true res [] = Returned (reply, calls) ->
  message reply = reply_text (String.concat "" (map fst calls)).
Proof.
  intros H. apply sendToCube_returned in H.
  destruct H as (chunks & Hm & _ & ->). rewrite Hm.
  now destruct (stream_consistent chunks) as (-> & _).
Qed.

(** X4.  The metadata of the reply is [undefined] exactly when
    [sendToCube] has not called [onDelta] at all. *)
Theorem metadata_undefined_iff_nothing_forwarded (res : Response)
  (reply : CubeReply) (calls : calls_of) :
  sendToCube JSON_parse record_call true res [] = Returned (reply, calls) ->
  (metadata reply = None <-> calls = []).
Proof.
  intros H. apply sendToCube_returned in H.
  destruct H as (chunks & _ & -> & ->).
  now destruct (stream_consistent chunks) as (_ & H & _).
Qed.

(** X5.  [onDelta] is never handed a user echo. *)
Theorem user_echo_is_never_forwarded (res : Response) (reply : CubeReply)
  (calls : calls_of) :
  sendToCube JSON_parse record_call true res [] = Returned (reply, calls) ->
  Forall (fun c => is_user (snd c) = false) calls.
Proof.
  intros H. apply sendToCube_returned in H.
  destruct H as (chunks & _ & _ & ->).
  now destruct (stream_consistent chunks) as (_ & _ & H).
Qed.

End ForwardedCalls.

(** ** mergeMeta: the value of each key *)

Section MergeMetaLookup.
Import CubeClient Spec.

Lemma assoc_assign_last (k : string) (src : json)
  (out : list (string * json)) :
  assoc k (assign out src)
  = match last_value k
            (filter (fun kv => negb (fst kv =? "__proto__")) (own_props src))
    with
    | Some v => Some v
    | None => assoc k out
    end.
Proof.
  unfold last_value, assign. generalize (own_props src) as ps. intros ps.
  induction ps as [|[k' v'] qs IH] using rev_ind.
  - reflexivity.
  - rewrite fold_left_app, filter_app. cbn [fold_left filter fst snd].
    destruct (k' =? "__proto__"); cbn [negb].
    + now rewrite app_nil_r.
    + rewrite rev_app_distr. simpl.
      destruct (String.eqb_spec k' k) as [->|Hne].
      * apply assoc_obj_set_same.
      * rewrite assoc_obj_set_other by congruence. exact IH.
Qed.

Lemma metadata_step_lookup (k : string) (msg : json)
  (out : list (string * json)) :
  assoc k match get "metadata" msg with
          | Some m => if truthy (Some m) then assign out m else out
          | None => out
          end
  = match last_value k (merged_metadata msg) with
    | Some v => Some v
    | None => assoc k out
    end.
Proof.
  unfold merged_metadata.
  destruct (get "metadata" msg) as [m|]; [|reflexivity].
  destruct (truthy (Some m)); [|reflexivity].
  apply assoc_assign_last.
Qed.

Lemma set_if_truthy_lookup (c k : string) (msg : json)
  (out : list (string * json)) :
  assoc k (set_if_truthy c msg out)
  = if c =? k
    then match get c msg with
         | Some v => if truthy (Some v) then Some v else assoc k out
         | None => assoc k out
         end
    else assoc k out.
Proof.
  destruct (String.eqb_spec c k) as [->|Hne].
  - unfold set_if_truthy. destruct (get k msg) as [v|]; auto.
    destruct (truthy (Some v)); auto. apply assoc_obj_set_same.
  - apply set_if_truthy_other. congruence.
Qed.

Lemma mergeMeta_get (base : option json) (msg : json) (k : string) :
  get k (mergeMeta base msg)
  = match named_value k msg with
    | Some v => Some v
    | None =>
        match last_value k (merged_metadata msg) with
        | Some v => Some v
        | None => acc_get k base
        end
    end.
Proof.
  unfold mergeMeta, named_value, named_channels, acc_get. cbn [get existsb].
  rewrite !set_if_truthy_lookup, metadata_step_lookup.
  rewrite !(String.eqb_sym k).
  destruct (String.eqb_spec "sqlToolCallResult" k) as [<-|];
    [destruct (get "sqlToolCallResult" msg) as [v|];
     [destruct (truthy (Some v))|]; reflexivity|].
  destruct (String.eqb_spec "sqlToolCall" k) as [<-|];
    [destruct (get "sqlToolCall" msg) as [v|];
     [destruct (truthy (Some v))|]; reflexivity|].
  destruct (String.eqb_spec "toolCallResult" k) as [<-|];
    [destruct (get "toolCallResult" msg) as [v|];
     [destruct (truthy (Some v))|]; reflexivity|].
  destruct (String.eqb_spec "toolCall" k) as [<-|];
    [destruct (get "toolCall" msg) as [v|];
     [destruct (truthy (Some v))|]; reflexivity|].
  destruct (String.eqb_spec "thinking" k) as [<-|];
    [destruct (get "thinking" msg) as [v|];
     [destruct (truthy (Some v))|]; reflexivity|].
  reflexivity.
Qed.

(** X6.  The own property [mergeMeta] leaves under a key: the envelope's
    own field of that name when the key is one of the five named channels
    and the field is truthy; otherwise what the envelope's truthy
    [metadata] has under that key, unless the key is ["__proto__"], which
    [Object.assign] does not copy; otherwise what the accumulator had. *)
Theorem mergeMeta_value_of_key (base : option json) (msg : json) (k : string) :
  acc_get k (Some (mergeMeta base msg))
  = match named_value k msg with
    | Some v => Some v
    | None =>
        match last_value k (merged_metadata msg) with
        | Some v => Some v
        | None => acc_get k base
        end
    end.
Proof.
  change (acc_get k (Some (mergeMeta base msg)))
    with (get k (mergeMeta base msg)).
  apply mergeMeta_get.
Qed.

(** X7.  Merging an envelope a second time changes no value: upstream may
    repeat an envelope without any effect on the metadata. *)
Theorem mergeMeta_repeated_envelope (base : option json) (msg : json)
  (k : string) :
  get k (mergeMeta (Some (mergeMeta base msg)) msg)
  = get k (mergeMeta base msg).
Proof.
  rewrite (mergeMeta_get (Some (mergeMeta base msg))).
  rewrite (mergeMeta_get base).
  destruct (named_value k msg) eqn:En; auto.
  destruct (last_value k (merged_metadata msg)) eqn:E; auto.
  change (acc_get k (Some (mergeMeta base msg)))
    with (get k (mergeMeta base msg)).
  now rewrite mergeMeta_get, En, E.
Qed.

End MergeMetaLookup.

(** ** The token cache *)

Section TokenCache.
Import Js CubeClient.

Lemma select_upsert_same (e tok : string) (rows : list Tokens.TokenRow) :
  Tokens.select_token e (Tokens.upsert_token e tok rows) = Some tok.
Proof.
  induction rows as [|r rest IH]; simpl.
  - now rewrite String.eqb_refl.
  - destruct (Tokens.external_id r =? e) eqn:E; simpl.
    + now rewrite String.eqb_refl.
    + now rewrite E.
Qed.

Lemma select_filter_other (e e' : string) (rows : list Tokens.TokenRow) :
  Tokens.select_token e'
    (filter (fun r => negb (Tokens.external_id r =? e)) rows)
  = if e' =? e then None else Tokens.select_token e' rows.
Proof.
  induction rows as [|r rest IH]; simpl.
  - now destruct (e' =? e).
  - destruct (String.eqb_spec (Tokens.external_id r) e) as [Hr|Hr]; simpl.
    + rewrite IH. destruct (String.eqb_spec e' e) as [->|Hne]; auto.
      destruct (String.eqb_spec (Tokens.external_id r) e'); congruence.
    + rewrite IH.
      destruct (String.eqb_spec (Tokens.external_id r) e') as [He|He]; auto.
      destruct (String.eqb_spec e' e); congruence.
Qed.

Lemma nonempty_some (tok : string) :
  tok <> "" -> Tokens.nonempty (Some tok) = Some tok.
Proof.
  intros H. unfold Tokens.nonempty, truthy_str.
  apply String.eqb_neq in H. now rewrite H.
Qed.

(** X8.  A token that is not empty, once written for an external id, is
    read back for that id from the table alone, that is also after the
    process has restarted and lost [cachedToken]; an empty token is
    written but never read back. *)
Theorem token_survives_restart (e tok : string) (c : Tokens.Cache) :
  tok <> "" ->
  fst (Tokens.readCachedToken e
         {| Tokens.cachedToken := None;
            Tokens.tokens := Tokens.tokens (Tokens.writeCachedToken e tok c) |})
  = Some tok
  /\ fst (Tokens.readCachedToken e (Tokens.writeCachedToken e "" c)) = None.
Proof.
  intros H. unfold Tokens.readCachedToken, Tokens.writeCachedToken.
  cbn [Tokens.cachedToken Tokens.tokens Tokens.nonempty].
  rewrite !select_upsert_same. split.
  - now rewrite nonempty_some.
  - reflexivity.
Qed.

(** X9.  [cachedToken] is one variable for all users: after a token that
    is not empty has been written for one external id, reading the cache
    for any external id returns that token, whatever the table holds. *)
Theorem cached_token_ignores_external_id (e e' tok : string)
  (c : Tokens.Cache) :
  tok <> "" ->
  Tokens.readCachedToken e' (Tokens.writeCachedToken e tok c)
  = (Some tok, Tokens.writeCachedToken e tok c).
Proof.
  intros H. unfold Tokens.readCachedToken.
  cbn [Tokens.cachedToken Tokens.writeCachedToken].
  now rewrite nonempty_some.
Qed.

(** X10.  After [clearCachedToken] for an external id nothing is read for
    that id, and for another id what its row of the table holds. *)
Theorem cleared_token_is_gone (e e' : string) (c : Tokens.Cache) :
  fst (Tokens.readCachedToken e (Tokens.clearCachedToken e c)) = None
  /\ (e' <> e ->
      fst (Tokens.readCachedToken e' (Tokens.clearCachedToken e c))
      = Tokens.nonempty (Tokens.select_token e' (Tokens.tokens c))).
Proof.
  unfold Tokens.readCachedToken, Tokens.clearCachedToken.
  cbn [Tokens.cachedToken Tokens.tokens Tokens.nonempty].
  rewrite !select_filter_other, String.eqb_refl. split; [reflexivity|].
  intros Hne. apply String.eqb_neq in Hne. rewrite Hne.
  now destruct (Tokens.nonempty _).
Qed.

Lemma read_hit_caches (e tok : string) (c c' : Tokens.Cache) :
  Tokens.readCachedToken e c = (Some tok, c') ->
  Tokens.nonempty (Tokens.cachedToken c') = Some tok.
Proof.
  unfold Tokens.readCachedToken.
  destruct (Tokens.nonempty (Tokens.cachedToken c)) as [t|] eqn:E1.
  - intros H. injection H as <- <-. exact E1.
  - destruct (Tokens.nonempty (Tokens.select_token e (Tokens.tokens c)))
      as [t|] eqn:E2; [|discriminate].
    intros H. injection H as <- <-. cbn [Tokens.cachedToken].
    unfold Tokens.nonempty in *.
    destruct (Tokens.select_token e (Tokens.tokens c)) as [t'|];
      [|discriminate].
    destruct (truthy_str t') eqn:Et; [|discriminate].
    injection E2 as ->. now rewrite Et.
Qed.

Lemma read_miss_keeps (e : string) (c c' : Tokens.Cache) :
  Tokens.readCachedToken e c = (None, c') -> c' = c.
Proof.
  unfold Tokens.readCachedToken.
  destruct (Tokens.nonempty (Tokens.cachedToken c)); [discriminate|].
  destruct (Tokens.nonempty (Tokens.select_token e (Tokens.tokens c)));
    [discriminate|].
  now intros H; injection H as <-.
Qed.

(** X11.  Once [getToken] has returned a token that is not empty, every
    later [getToken] without [forceRefresh] returns that token, for any
    external id, without asking the network and without changing the
    cache. *)
Theorem getToken_is_served_from_cache
  (net net' : Tokens.Network) (e e' tok : string) (force : bool)
  (c c1 : Tokens.Cache) :
  Tokens.getToken net e force c = (Returned tok, c1) ->
  tok <> "" ->
  Tokens.getToken net' e' false c1 = (Returned tok, c1).
Proof.
  intros Hget Hne.
  assert (Hc : Tokens.nonempty (Tokens.cachedToken c1) = Some tok).
  { unfold Tokens.getToken in Hget.
    assert (Hfresh : forall c0,
               match Tokens.exchangeToken net e with
               | Returned tok0 =>
                   (Returned tok0, Tokens.writeCachedToken e tok0 c0)
               | Thrown err => (Thrown err, c0)
               end = (Returned tok, c1) ->
               Tokens.nonempty (Tokens.cachedToken c1) = Some tok).
    { intros c0 H. destruct (Tokens.exchangeToken net e); [|discriminate].
      injection H as <- <-. cbn [Tokens.cachedToken Tokens.writeCachedToken].
      now apply nonempty_some. }
    destruct force; [now apply (Hfresh c)|].
    destruct (Tokens.readCachedToken e c) as [[cached|] c'] eqn:Er.
    - injection Hget as <- <-. now apply (read_hit_caches e cached c c').
    - now apply (Hfresh c'). }
  unfold Tokens.getToken, Tokens.readCachedToken. now rewrite Hc.
Qed.

(** X12.  A [getToken] that throws leaves the cache as it was. *)
Theorem getToken_failure_keeps_cache
  (net : Tokens.Network) (e err : string) (force : bool)
  (c c1 : Tokens.Cache) :
  Tokens.getToken net e force c = (Thrown err, c1) -> c1 = c.
Proof.
  unfold Tokens.getToken.
  assert (Hfresh : forall c0,
             match Tokens.exchangeToken net e with
             | Returned tok0 =>
                 (Returned tok0, Tokens.writeCachedToken e tok0 c0)
             | Thrown err0 => (Thrown err0, c0)
             end = (Thrown err, c1) -> c1 = c0).
  { intros c0 H. destruct (Tokens.exchangeToken net e); [discriminate|].
    now injection H as _ <-. }
  destruct force; [apply Hfresh|].
  destruct (Tokens.readCachedToken e c) as [[cached|] c'] eqn:Er;
    [discriminate|].
  intros H. apply Hfresh in H. subst c1. now apply (read_miss_keeps e).
Qed.

End TokenCache.

(** ** The handler's stream *)

Section HandlerStream.
Import CubeClient Spec.

Variable JSON_parse : string -> option json.

Lemma onDelta_stream_ok (chunk : string) (raw : json) (st : Server.Stream) :
  stream_ok st -> stream_ok (Server.onDelta chunk raw st).
Proof.
  intros (Ha & Hw). unfold Server.onDelta.
  set (delta := if startsWith chunk (Server.assistantAccum st)
                then slice chunk (String.length (Server.assistantAccum st))
                else chunk).
  assert (H1 : stream_ok
                 (if truthy_str delta
                  then {| Server.assistantAccum :=
                            Server.assistantAccum st ++ delta;
                          Server.written :=
                            (Server.written st ++ [Server.WDelta delta])%list |}
                  else st)).
  { destruct (truthy_str delta) eqn:Ed; [|now split].
    split; cbn [Server.assistantAccum Server.written].
    - rewrite delta_contents_app. simpl delta_contents.
      now rewrite concat_snoc, Ha.
    - rewrite forallb_app, Hw. cbn [forallb streamed andb]. now rewrite Ed. }
  destruct (truthy (Some raw) && Server.has_side_channel raw) eqn:Er;
    [|exact H1].
  destruct H1 as (Ha1 & Hw1).
  split; cbn [Server.assistantAccum Server.written].
  - rewrite delta_contents_app. simpl delta_contents.
    now rewrite app_nil_r.
  - rewrite forallb_app, Hw1. cbn [forallb streamed andb]. now rewrite Er.
Qed.

Lemma accept_stream_ok (msg : json) (st : locals) :
  stream_ok (sink st) -> stream_ok (sink (accept Server.onDelta msg st)).
Proof.
  intros H. unfold accept.
  destruct (is_string (get "content" msg)) as [content|];
    [destruct (json_eqb_str (get "role" msg) "assistant")|];
    cbn [sink]; repeat apply onDelta_stream_ok; exact H.
Qed.

Lemma stream_stays_ok (chunks : list string) :
  stream_ok
    (sink (read_stream (on_line JSON_parse Server.onDelta)
             (on_trailing JSON_parse Server.onDelta) chunks
             (start no_writes))).
Proof.
  apply (read_stream_invariant _ _ _ (fun st => stream_ok (sink st))).
  - intros line st H. unfold on_line.
    destruct (JSON_parse line) as [msg|]; auto.
    assert (Hm : stream_ok (sink (on_message Server.onDelta msg st))).
    { unfold on_message.
      destruct (json_eqb_str (get "role" msg) "user"); auto.
      destruct (json_eqb_str (get "id" msg) cutoff_id); auto.
      destruct (negb (streamingStarted st)); auto.
      now apply accept_stream_ok. }
    destruct msg; auto.
  - intros line st H. unfold on_trailing.
    destruct (JSON_parse line) as [msg|]; auto.
    assert (Hm : stream_ok (sink (on_trailing_message Server.onDelta msg st))).
    { unfold on_trailing_message.
      destruct (json_eqb_str (get "id" msg) cutoff_id);
        match goal with
        | |- context [if ?c then _ else _] => destruct c
        end; auto; apply accept_stream_ok; auto. }
    destruct msg; auto.
  - split; reflexivity.
Qed.

(** X13.  Whatever upstream sends, when [sendToCube] returns to the
    handler, the text the handler has accumulated is the deltas it has
    written, put together in order, and it has written nothing but deltas
    that are not empty and events whose envelope has a side channel. *)
Theorem handler_stream_is_consistent (configured : bool) (res : Response)
  (reply : CubeReply) (stream : Server.Stream) :
  sendToCube JSON_parse Server.onDelta configured res no_writes
  = Returned (reply, stream) ->
  Server.assistantAccum stream
  = String.concat "" (delta_contents (Server.written stream))
  /\ forallb streamed (Server.written stream) = true.
Proof.
  unfold sendToCube.
  destruct (negb configured); [discriminate|].
  destruct (body res) as [chunks|]; [|discriminate].
  destruct (ok res); [|discriminate].
  intros H. injection H as _ <-. apply stream_stays_ok.
Qed.

(** The delta [onDelta] makes of an empty chunk is empty, and the one it
    makes of a fresh chunk is the chunk. *)
Lemma delta_of_empty (accum : string) :
  (if startsWith "" accum then slice "" (String.length accum) else "") = "".
Proof.
  destruct (startsWith "" accum); auto.
  unfold slice. simpl. now destruct (String.length _).
Qed.

Lemma delta_of_fresh (f accum : string) :
  negb (truthy_str accum) || negb (startsWith f accum) = true ->
  (if startsWith f accum then slice f (String.length accum) else f) = f.
Proof.
  intros H. destruct (startsWith f accum) eqn:Ep; auto.
  rewrite orb_false_r in H. apply negb_true_iff in H.
  unfold truthy_str in H. apply negb_false_iff in H.
  apply String.eqb_eq in H. rewrite H. unfold slice. simpl.
  rewrite Nat.sub_0_r. apply substring_all.
Qed.

(** X14.  An accepted assistant envelope with string content and a side
    channel is written as an event twice: by the call with the empty
    chunk and again by the call with the content.  Between the two comes
    the delta, when the content gives one: none for an empty content, the
    content itself when it is not empty and does not begin with the text
    forwarded so far, and never an empty one. *)
Theorem event_is_written_twice (msg : json) (f : string) (st : locals) :
  streamingStarted st = true ->
  carries msg f ->
  Server.has_side_channel msg = true ->
  exists deltas,
    Server.written (sink (on_message Server.onDelta msg st))
    = (Server.written (sink st)
       ++ [Server.WEvent msg] ++ deltas ++ [Server.WEvent msg])%list
    /\ (deltas = [] \/ exists d, d <> "" /\ deltas = [Server.WDelta d])
    /\ (f = "" -> deltas = [])
    /\ (fresh_fragments (Server.assistantAccum (sink st)) [f] = true ->
        deltas = [Server.WDelta f]).
Proof.
  intros Hg Hc Hside.
  destruct (on_message_carries msg f st Hg Hc) as [_ ->].
  assert (Ht : truthy (Some msg) = true).
  { destruct Hc as (Hr & _). destruct msg; try discriminate. reflexivity. }
  assert (E0 : Server.onDelta "" msg (sink st)
               = {| Server.assistantAccum := Server.assistantAccum (sink st);
                    Server.written :=
                      (Server.written (sink st) ++ [Server.WEvent msg])%list |}).
  { unfold Server.onDelta. rewrite Ht, Hside. simpl andb. cbv iota.
    rewrite delta_of_empty. reflexivity. }
  rewrite E0. unfold Server.onDelta.
  cbn [Server.assistantAccum Server.written].
  rewrite Ht, Hside. cbn [andb].
  set (accum := Server.assistantAccum (sink st)).
  destruct (truthy_str (if startsWith f accum
                        then slice f (String.length accum) else f)) eqn:Ed;
    cbn [Server.written].
  - eexists [Server.WDelta _]. split; [now rewrite <- !app_assoc|].
    split; [|split].
    + right. eexists. split; [|reflexivity].
      unfold truthy_str in Ed. apply negb_true_iff in Ed.
      now apply String.eqb_neq.
    + intros ->. now rewrite delta_of_empty in Ed.
    + intros Hfresh. simpl in Hfresh. rewrite andb_true_r in Hfresh.
      apply andb_prop in Hfresh. destruct Hfresh as [_ Hstart].
      now rewrite delta_of_fresh.
  - exists []. split; [now rewrite <- !app_assoc|].
    split; [now left|]. split; [reflexivity|].
    intros Hfresh. simpl in Hfresh. rewrite andb_true_r in Hfresh.
    apply andb_prop in Hfresh. destruct Hfresh as [Hf Hstart].
    rewrite delta_of_fresh in Ed by assumption. congruence.
Qed.

End HandlerStream.

(** ** The repository *)

Section RepoListing.
Import Spec.

Local Abbreviation row_le :=
  (fun a b : Repo.MessageRow =>
     String.leb (Repo.m_timestamp a) (Repo.m_timestamp b) = true).

Lemma insert_sorted (r : Repo.MessageRow) (rows : list Repo.MessageRow) :
  Sorted row_le rows -> Sorted row_le (Repo.insert_by_timestamp r rows).
Proof.
  induction rows as [|x rest IH]; simpl; intros H.
  - repeat constructor.
  - destruct (String.leb (Repo.m_timestamp r) (Repo.m_timestamp x)) eqn:E.
    + constructor; [exact H | constructor; exact E].
    + inversion H as [|? ? Hs Hh]; subst.
      constructor; [now apply IH|].
      assert (Hxr : String.leb (Repo.m_timestamp x) (Repo.m_timestamp r) = true).
      { destruct (String.leb_total (Repo.m_timestamp r) (Repo.m_timestamp x));
          congruence. }
      destruct rest as [|y rest']; simpl.
      * constructor. exact Hxr.
      * destruct (String.leb (Repo.m_timestamp r) (Repo.m_timestamp y));
          constructor; auto.
        now inversion Hh.
Qed.

Lemma insert_permutation (r : Repo.MessageRow) (rows : list Repo.MessageRow) :
  Permutation (Repo.insert_by_timestamp r rows) (r :: rows).
Proof.
  induction rows as [|x rest IH]; simpl; [reflexivity|].
  destruct (String.leb _ _); [reflexivity|].
  rewrite IH. apply perm_swap.
Qed.

Lemma order_sorted (rows : list Repo.MessageRow) :
  Sorted row_le (Repo.order_by_timestamp rows).
Proof.
  unfold Repo.order_by_timestamp.
  induction rows; simpl; [constructor | now apply insert_sorted].
Qed.

Lemma order_permutation (rows : list Repo.MessageRow) :
  Permutation (Repo.order_by_timestamp rows) rows.
Proof.
  unfold Repo.order_by_timestamp.
  induction rows as [|x rest IH]; simpl; [reflexivity|].
  rewrite insert_permutation. now constructor.
Qed.

Lemma sorted_listed (rows : list Repo.MessageRow) :
  Sorted row_le rows -> Sorted by_timestamp (map listed rows).
Proof.
  induction 1 as [|x rest Hs IH Hh]; simpl; constructor; auto.
  destruct Hh; simpl; constructor; assumption.
Qed.

Lemma listMessages_some (cid uid : string) (db : Repo.Db)
  (rows : list Repo.MessagePayload) :
  Repo.listMessages cid uid db = Some rows ->
  rows = map listed
           (Repo.order_by_timestamp
              (filter (fun r => Repo.m_conversation_id r =? cid)
                 (Repo.messages db))).
Proof.
  unfold Repo.listMessages. destruct (existsb _ _); [|discriminate].
  now intros H; injection H as <-.
Qed.

(** X15.  What [listMessages] returns for a conversation of the user is
    in the order of the timestamps and is, up to that order, exactly the
    stored messages of that conversation, each once. *)
Theorem listing_is_ordered_and_complete (cid uid : string) (db : Repo.Db)
  (rows : list Repo.MessagePayload) :
  Repo.listMessages cid uid db = Some rows ->
  Sorted by_timestamp rows
  /\ Permutation rows
       (map listed
          (filter (fun r => Repo.m_conversation_id r =? cid)
             (Repo.messages db))).
Proof.
  intros H. apply listMessages_some in H. subst rows. split.
  - apply sorted_listed, order_sorted.
  - apply Permutation_map, order_permutation.
Qed.

(** X16.  [addMessage] for a conversation that exists stores the message:
    it adds it, as it is stored, to the listing of its conversation and
    leaves the conversations and the listing of every other conversation
    as they were.  For a conversation that does not exist it throws, on
    the foreign key of the table, and stores nothing. *)
Theorem addMessage_touches_one_conversation
  (cid : string) (msg : Repo.MessagePayload) (db : Repo.Db) :
  (Repo.has_conversation cid db = true ->
   exists db',
     Repo.addMessage cid msg db = CubeClient.Returned db'
     /\ Repo.conversations db' = Repo.conversations db
     /\ (forall uid rows,
           Repo.listMessages cid uid db = Some rows ->
           exists rows',
             Repo.listMessages cid uid db' = Some rows'
             /\ Permutation rows' (listed (stored cid msg) :: rows))
     /\ (forall cid' uid,
           cid' <> cid ->
           Repo.listMessages cid' uid db' = Repo.listMessages cid' uid db))
  /\ (Repo.has_conversation cid db = false ->
      exists e, Repo.addMessage cid msg db = CubeClient.Thrown e).
Proof.
  split; intros Hk.
  - rewrite addMessage_known by assumption.
    eexists. split; [reflexivity|]. split; [reflexivity|]. split.
    + intros uid rows H.
      pose proof (listMessages_some _ _ _ _ H) as ->.
      unfold Repo.listMessages in *. cbn [Repo.conversations Repo.messages].
      destruct (existsb _ (Repo.conversations db)); [|discriminate].
      eexists. split; [reflexivity|].
      rewrite filter_app. cbn [filter stored Repo.m_conversation_id].
      rewrite String.eqb_refl.
      fold (stored cid msg).
      change (listed (stored cid msg) :: map listed ?l)
        with (map listed (stored cid msg :: l)).
      apply Permutation_map.
      eapply Permutation_trans; [apply order_permutation|].
      eapply Permutation_trans;
        [apply Permutation_sym, Permutation_cons_append|].
      constructor. apply Permutation_sym, order_permutation.
    + intros cid' uid Hne. unfold Repo.listMessages.
      cbn [Repo.conversations Repo.messages].
      rewrite filter_app. cbn [filter stored Repo.m_conversation_id].
      apply String.eqb_neq in Hne. rewrite String.eqb_sym, Hne.
      now rewrite app_nil_r.
  - rewrite addMessage_unknown by assumption. now eexists.
Qed.

(** X17.  After [createConversation] the user it was created for can list
    the conversation, and for every other pair of conversation and user
    [listMessages] answers as before. *)
Theorem createConversation_opens_for_its_user
  (id uid : string) (title : option string) (db : Repo.Db) :
  Repo.listMessages id uid (snd (Repo.createConversation id uid title db))
  <> None
  /\ (forall cid' uid',
        cid' <> id \/ uid' <> uid ->
        Repo.listMessages cid' uid'
          (snd (Repo.createConversation id uid title db))
        = Repo.listMessages cid' uid' db).
Proof.
  split; [apply listMessages_created|].
  intros cid' uid' Hne. unfold Repo.listMessages.
  cbn [Repo.createConversation snd Repo.conversations Repo.messages].
  rewrite existsb_app. cbn [existsb Repo.c_id Repo.c_user_id].
  assert (E : (id =? cid') && (uid =? uid') = false).
  { destruct (String.eqb_spec id cid'); destruct (String.eqb_spec uid uid');
      auto. destruct Hne; congruence. }
  now rewrite E, !orb_false_r.
Qed.

End RepoListing.

(** ** A whole turn *)

Section WholeTurn.
Import CubeClient Spec.

Variable JSON_parse : string -> option json.

Lemma sendToCube_succeeds (w : Server.World) :
  Server.configured w = true ->
  upstream_failed (Server.upstream w) = false ->
  exists reply stream,
    sendToCube JSON_parse Server.onDelta (Server.configured w)
      (Server.upstream w) no_writes
    = Returned (reply, stream)
    /\ message reply <> ""
    /\ forallb streamed (Server.written stream) = true.
Proof.
  intros Hconf Hup. unfold upstream_failed in Hup.
  apply orb_false_elim in Hup. destruct Hup as [Hok Hbody].
  apply negb_false_iff in Hok.
  destruct (body (Server.upstream w)) as [chunks|] eqn:Eb; [|discriminate].
  assert (Hs : sendToCube JSON_parse Server.onDelta (Server.configured w)
                 (Server.upstream w) no_writes
               = Returned
                   ({| message :=
                         reply_text
                           (assistantText
                              (read_stream (on_line JSON_parse Server.onDelta)
                                 (on_trailing JSON_parse Server.onDelta)
                                 chunks (start no_writes)));
                       metadata :=
                         lastMetadata
                           (read_stream (on_line JSON_parse Server.onDelta)
                              (on_trailing JSON_parse Server.onDelta)
                              chunks (start no_writes)) |},
                    sink (read_stream (on_line JSON_parse Server.onDelta)
                            (on_trailing JSON_parse Server.onDelta)
                            chunks (start no_writes)))).
  { unfold sendToCube. now rewrite Hconf, Eb, Hok. }
  eexists. eexists. split; [exact Hs|]. split.
  - cbn [message]. unfold reply_text.
    destruct (truthy_str _) eqn:Et; [|discriminate].
    unfold truthy_str in Et. apply negb_true_iff in Et.
    now apply String.eqb_neq.
  - apply stream_stays_ok.
Qed.

(** X18.  When the request has content and names no conversation or one
    that exists, and upstream answers with a success and a body that is
    read to its end, the handler completes the turn: it sends the status
    200, writes deltas and events and then, last and once, a [done] for
    the conversation of the turn, ends the response, and stores two
    messages, the user's and then the assistant's, whose content is never
    empty. *)
Theorem turn_completes (w : Server.World) (req : Server.ChatRequest)
  (db : Repo.Db) :
  Server.content req <> "" ->
  Server.configured w = true ->
  upstream_failed (Server.upstream w) = false ->
  turn_known req db = true ->
  exists db' ws msgs a,
    Server.chat JSON_parse w req db
    = (db',
       {| Server.head := Some 200;
          Server.sent :=
            (ws ++ [Server.WDone (turn_conversation w req) msgs])%list;
          Server.closed := Server.Ended |},
       Returned tt)
    /\ forallb streamed ws = true
    /\ Repo.conversations db'
       = (Repo.conversations db ++ opened_conversation w req)%list
    /\ Repo.messages db' = (Repo.messages db ++ [user_row w req; a])%list
    /\ Repo.m_conversation_id a = turn_conversation w req
    /\ Repo.m_role a = "assistant"
    /\ Repo.m_content a <> ""
    /\ Repo.m_timestamp a = Server.now_end w.
Proof.
  intros Hc Hconf Hup Hk.
  destruct (sendToCube_succeeds w Hconf Hup)
    as (reply & stream & Hs & Hm & Hw).
  rewrite chat_known by assumption. rewrite Hs.
  exists (after_turn w req reply db), (Server.written stream).
  eexists. exists (assistant_row w req reply).
  split; [reflexivity|]. split; [exact Hw|]. split; [reflexivity|].
  split; [|now repeat split].
  unfold after_turn, after_user_message. cbn [Repo.messages].
  now rewrite <- app_assoc.
Qed.

Lemma chat_database (w : Server.World) (req : Server.ChatRequest)
  (db : Repo.Db) :
  Server.content req <> "" ->
  turn_known req db = true ->
  exists extra,
    Repo.conversations (fst (fst (Server.chat JSON_parse w req db)))
    = (Repo.conversations db ++ opened_conversation w req)%list
    /\ Repo.messages (fst (fst (Server.chat JSON_parse w req db)))
       = (Repo.messages db ++ user_row w req :: extra)%list.
Proof.
  intros Hc Hk. rewrite chat_known by assumption.
  destruct (sendToCube _ _ _ _ _) as [[reply stream]|e]; cbn [fst].
  - exists [assistant_row w req reply]. split; [reflexivity|].
    unfold after_turn, after_user_message. cbn [Repo.messages].
    now rewrite <- app_assoc.
  - exists []. now split.
Qed.

Lemma nameless_turn_known (req : Server.ChatRequest) (db : Repo.Db) :
  Server.conversationId req = None -> turn_known req db = true.
Proof. unfold turn_known. now intros ->. Qed.

(** X19.  A turn of a user with a non-empty id that names no conversation
    opens one that the same user can read back at once through
    [GET /api/conversations/:id/messages], with the user's message in it,
    whether upstream answered or failed. *)
Theorem opened_conversation_can_be_read_back
  (w : Server.World) (req : Server.ChatRequest) (db : Repo.Db) (u : string) :
  Server.content req <> "" ->
  Server.userId req = Some u ->
  u <> "" ->
  Server.conversationId req = None ->
  exists rows,
    Server.get_messages (Some u) (Server.uuid w)
      (fst (fst (Server.chat JSON_parse w req db)))
    = inl rows
    /\ In (listed (user_row w req)) rows.
Proof.
  intros Hc Hu Hne Hconv.
  destruct (chat_database w req db Hc (nameless_turn_known req db Hconv))
    as (extra & Hcs & Hms).
  unfold Server.get_messages.
  assert (Htu : truthy_str u = true).
  { unfold truthy_str. apply negb_true_iff. now apply String.eqb_neq. }
  rewrite Htu. unfold Repo.listMessages. rewrite Hcs, Hms.
  unfold opened_conversation, turn_user. rewrite Hconv, Hu.
  rewrite existsb_app. cbn [existsb Repo.c_id Repo.c_user_id].
  rewrite !String.eqb_refl. cbn [andb orb]. rewrite orb_true_r.
  eexists. split; [reflexivity|].
  apply in_map_iff. exists (user_row w req). split; [reflexivity|].
  apply in_order_by_timestamp, filter_In. split.
  - apply in_or_app. right. now left.
  - unfold user_row, turn_conversation. rewrite Hconv.
    cbn [Repo.m_conversation_id]. apply String.eqb_refl.
Qed.

(** X20.  The two handlers disagree on an empty [userId]: the chat
    handler opens the conversation for the user "" (its default applies
    to a missing id only), the messages handler looks it up for
    "anonymous" (an empty id counts as missing), so that the conversation
    just opened is not found. *)
Theorem empty_user_id_cannot_read_back
  (w : Server.World) (req : Server.ChatRequest) (db : Repo.Db) :
  Server.content req <> "" ->
  Server.userId req = Some "" ->
  Server.conversationId req = None ->
  Repo.listMessages (Server.uuid w) "anonymous" db = None ->
  Server.get_messages (Some "") (Server.uuid w)
    (fst (fst (Server.chat JSON_parse w req db)))
  = inr (Server.WError 404 "Not found").
Proof.
  intros Hc Hu Hconv Hanon.
  destruct (chat_database w req db Hc (nameless_turn_known req db Hconv))
    as (extra & Hcs & Hms).
  unfold Server.get_messages. cbn [truthy_str String.eqb negb].
  unfold Repo.listMessages in *. rewrite Hcs.
  unfold opened_conversation, turn_user. rewrite Hconv, Hu.
  rewrite existsb_app. cbn [existsb Repo.c_id Repo.c_user_id].
  destruct (existsb _ (Repo.conversations db)); [discriminate|].
  cbn [String.eqb andb orb]. rewrite andb_false_r. reflexivity.
Qed.

End WholeTurn.

(** ** The client reducers *)

Section ClientReducers.
Import Spec.

Variable JSON_stringify : json -> string.

Lemma last_cons_default {A : Type} (rest : list A) (y d : A) :
  last (y :: rest) d = last rest y.
Proof.
  revert y d. induction rest as [|z r IH]; intros y d; [reflexivity|].
  change (last (y :: z :: r) d) with (last (z :: r) d).
  now rewrite (IH z d), (IH z y).
Qed.

Lemma last_of_some {A : Type} (xs : list A) (x : A) :
  App.last_of xs = Some x -> xs = (removelast xs ++ [x])%list.
Proof.
  destruct xs as [|y rest]; [discriminate|].
  unfold App.last_of. intros H. injection H as <-.
  rewrite <- (last_cons_default rest y y).
  apply app_removelast_last. discriminate.
Qed.

Lemma pushSeg_appends (segs : list App.Segment) (seg : App.Segment) :
  exists suffix, App.pushSeg JSON_stringify segs seg = (segs ++ suffix)%list.
Proof.
  unfold App.pushSeg. destruct (App.last_of segs) as [p|].
  - destruct (_ && _); [exists []; now rewrite app_nil_r | now exists [seg]].
  - now exists [seg].
Qed.

Lemma push_parts_appends (parts : list string)
  (acc : list string * list App.Segment) :
  exists suffix,
    snd (App.push_parts JSON_stringify parts acc) = (snd acc ++ suffix)%list.
Proof.
  unfold App.push_parts. revert acc.
  induction parts as [|p rest IH]; intros acc; simpl.
  - exists []. now rewrite app_nil_r.
  - destruct (truthy_str (trim p)); [|apply IH].
    destruct (IH ((fst acc ++ [p])%list,
                  App.pushSeg JSON_stringify (snd acc) (App.thinking p)))
      as (s1 & H1).
    destruct (pushSeg_appends (snd acc) (App.thinking p)) as (s0 & H0).
    exists (s0 ++ s1)%list. rewrite H1. cbn [snd].
    now rewrite H0, app_assoc.
Qed.

Lemma fold_thinking_appends (raw : json) (steps : list string)
  (buffer : string) (segs : list App.Segment) (meta : list (string * json)) :
  exists suffix,
    snd (fst (App.fold_thinking JSON_stringify raw (steps, buffer, segs, meta)))
    = (segs ++ suffix)%list.
Proof.
  unfold App.fold_thinking.
  destruct (get "thinking" raw) as [t|];
    [|exists []; simpl; now rewrite app_nil_r].
  destruct (truthy (Some t));
    [|exists []; simpl; now rewrite app_nil_r].
  destruct (pop _) as [parts buffer'].
  destruct (push_parts_appends parts (steps, segs)) as (s1 & H1).
  destruct (App.push_parts JSON_stringify parts (steps, segs))
    as [steps1 segs1].
  cbn [snd] in H1. subst segs1.
  destruct (get "isInProcess" raw) as [[|[|]| | | |]|];
    try (exists s1; reflexivity).
  destruct (truthy_str (trim buffer')); [|exists s1; reflexivity].
  destruct (pushSeg_appends (segs ++ s1)%list (App.thinking buffer'))
    as (s2 & H2).
  exists (s1 ++ s2)%list. cbn [fst snd]. now rewrite H2, app_assoc.
Qed.

(** What an event does to the last message when it does anything: the
    text fields stay, the segments grow at the end. *)
Lemma on_event_shape (raw : json) (prev : list App.ChatMessage) :
  App.on_event JSON_stringify raw prev = prev
  \/ exists l m suffix,
       App.last_of prev = Some l
       /\ App.on_event JSON_stringify raw prev = App.set_last prev m
       /\ App.role l = "assistant"
       /\ App.role m = App.role l
       /\ App.content m = App.content l
       /\ App.timestamp m = App.timestamp l
       /\ App.assistantChunks m = App.assistantChunks l
       /\ App.or_nil (App.segments m)
          = (App.or_nil (App.segments l) ++ suffix)%list.
Proof.
  unfold App.on_event.
  destruct (App.last_of prev) as [l|]; auto.
  destruct (App.role l =? "assistant") eqn:Hr; auto.
  destruct (App.repeats_last _ _ raw); auto.
  destruct (fold_thinking_appends raw (App.or_nil (App.thinkingSteps l))
              (App.or_empty (App.thinkingBuffer l))
              (App.or_nil (App.segments l))
              (spread_or_empty (App.metadata l))) as (s1 & H1).
  destruct (App.fold_thinking JSON_stringify raw _)
    as [[[steps buffer] segs] meta].
  cbn [fst snd] in H1. subst segs.
  right. exists l. eexists.
  assert (Hseg : exists s2,
             match get "toolCall" raw with
             | Some c =>
                 if truthy (get "toolCall" raw)
                 then App.pushSeg JSON_stringify
                        (App.or_nil (App.segments l) ++ s1)
                        (App.toolCall
                           (JObj (("call", c)
                                  :: match get_opt "result" (get "toolCall" raw)
                                     with
                                     | Some r => [("result", r)]
                                     | None => []
                                     end)))
                 else (App.or_nil (App.segments l) ++ s1)%list
             | None => (App.or_nil (App.segments l) ++ s1)%list
             end = (App.or_nil (App.segments l) ++ s2)%list).
  { destruct (get "toolCall" raw) as [c|]; [|now exists s1].
    destruct (truthy (Some c)); [|now exists s1].
    destruct (pushSeg_appends (App.or_nil (App.segments l) ++ s1)%list
                (App.toolCall
                   (JObj (("call", c)
                          :: match get_opt "result" (Some c) with
                             | Some r => [("result", r)]
                             | None => []
                             end)))) as (s2 & H2).
    exists (s1 ++ s2)%list. now rewrite H2, app_assoc. }
  destruct Hseg as (s2 & Hseg). exists s2.
  split; [reflexivity|]. split; [reflexivity|].
  cbn [App.role App.content App.timestamp App.assistantChunks App.segments
       App.or_nil].
  apply String.eqb_eq in Hr. repeat split; auto.
Qed.

Lemma on_delta_shape (f : string) (prev : list App.ChatMessage)
  (l : App.ChatMessage) :
  App.last_of prev = Some l ->
  App.role l = "assistant" ->
  exists m,
    App.on_delta f prev = App.set_last prev m
    /\ App.role m = App.role l
    /\ App.timestamp m = App.timestamp l
    /\ App.assistantChunks m
       = Some (App.or_nil (App.assistantChunks l) ++ [f])%list
    /\ App.content m
       = String.concat "" (App.or_nil (App.assistantChunks l) ++ [f])
    /\ App.or_nil (App.segments m)
       = (App.or_nil (App.segments l) ++ [App.text f])%list.
Proof.
  intros Hl Hr. unfold App.on_delta. rewrite Hl, Hr.
  simpl String.eqb. cbv iota.
  eexists. split; [reflexivity|]. now repeat split.
Qed.

Lemma on_evt_wire_delta (f : string) (prev : list App.ChatMessage) :
  App.on_evt JSON_stringify (Server.wire_json (Server.WDelta f)) prev
  = App.on_delta f prev.
Proof. reflexivity. Qed.

Lemma on_evt_wire_event (raw : json) (prev : list App.ChatMessage) :
  App.on_evt JSON_stringify (Server.wire_json (Server.WEvent raw)) prev
  = if truthy (Some raw) then App.on_event JSON_stringify raw prev else prev.
Proof. reflexivity. Qed.

Lemma on_evt_wire_other (w : Server.Wire) (prev : list App.ChatMessage) :
  match w with
  | Server.WDone _ _ | Server.WError _ _ => True
  | _ => False
  end ->
  App.on_evt JSON_stringify (Server.wire_json w) prev = prev.
Proof. destruct w; intros H; try contradiction; reflexivity. Qed.

(** What any envelope does to the last message when it does anything. *)
Lemma on_evt_shape (evt : json) (prev : list App.ChatMessage) :
  App.on_evt JSON_stringify evt prev = prev
  \/ exists l m suffix,
       App.last_of prev = Some l
       /\ App.on_evt JSON_stringify evt prev = App.set_last prev m
       /\ App.role l = "assistant"
       /\ App.role m = App.role l
       /\ App.timestamp m = App.timestamp l
       /\ App.or_nil (App.segments m)
          = (App.or_nil (App.segments l) ++ suffix)%list.
Proof.
  unfold App.on_evt. destruct evt; auto.
  destruct (json_eqb_str (get "type" (JObj fields)) "delta").
  - destruct (is_string (get "content" (JObj fields))) as [f|]; auto.
    destruct (App.last_of prev) as [l|] eqn:Hl;
      [|left; unfold App.on_delta; now rewrite Hl].
    destruct (App.role l =? "assistant") eqn:Hr;
      [|left; unfold App.on_delta; now rewrite Hl, Hr].
    apply String.eqb_eq in Hr.
    destruct (on_delta_shape f prev l Hl Hr)
      as (m & H & Hrole & Hts & _ & _ & Hseg).
    right. exists l, m, [App.text f]. now repeat split.
  - destruct (json_eqb_str (get "type" (JObj fields)) "event"); auto.
    destruct (get "raw" (JObj fields)) as [raw|]; auto.
    destruct (truthy (Some raw)); auto.
    destruct (on_event_shape raw prev)
      as [H | (l & m & suffix & Hl & H & Hr & Hrole & _ & Hts & _ & Hseg)];
      auto.
    right. exists l, m, suffix. now repeat split.
Qed.

Local Abbreviation deliver :=
  (fun evts prev =>
     fold_left (fun st evt => App.on_evt JSON_stringify evt st) evts prev).

(** X21.  An envelope of the downstream stream changes at most the last
    message of the list, and that only when it is an assistant message:
    the number of messages, every message before the last, and every
    message's role and timestamp stay as they are. *)
Theorem only_the_last_message_changes
  (evt : json) (prev : list App.ChatMessage) :
  List.length (App.on_evt JSON_stringify evt prev) = List.length prev
  /\ removelast (App.on_evt JSON_stringify evt prev) = removelast prev
  /\ map App.role (App.on_evt JSON_stringify evt prev) = map App.role prev
  /\ map App.timestamp (App.on_evt JSON_stringify evt prev)
     = map App.timestamp prev
  /\ (forall l, App.last_of prev = Some l ->
                App.role l <> "assistant" ->
                App.on_evt JSON_stringify evt prev = prev).
Proof.
  destruct (on_evt_shape evt prev)
    as [H | (l & m & suffix & Hl & H & Hr & Hrole & Hts & _)]; rewrite H.
  - repeat split; auto.
  - pose proof (last_of_some prev l Hl) as Hprev.
    unfold App.set_last. repeat split.
    + rewrite Hprev at 2. now rewrite !length_app.
    + apply removelast_last.
    + rewrite Hprev at 2. rewrite !map_app. simpl. now rewrite Hrole.
    + rewrite Hprev at 2. rewrite !map_app. simpl. now rewrite Hts.
    + intros l' Hl' Hne. congruence.
Qed.

(** X22.  The segments of the message being streamed only grow at the
    end, whatever envelopes arrive: after any sequence of envelopes the
    segments it had are a prefix of the segments it has. *)
Theorem segments_only_grow (evts : list json) (prev : list App.ChatMessage)
  (l : App.ChatMessage) :
  App.last_of prev = Some l ->
  exists l' suffix,
    App.last_of (deliver evts prev) = Some l'
    /\ App.or_nil (App.segments l')
       = (App.or_nil (App.segments l) ++ suffix)%list.
Proof.
  revert prev l. induction evts as [|evt rest IH]; intros prev l Hl.
  - exists l, []. split; [exact Hl | now rewrite app_nil_r].
  - simpl.
    destruct (on_evt_shape evt prev)
      as [H | (l0 & m & s0 & Hl0 & H & _ & _ & _ & Hseg)]; rewrite H.
    + now apply IH.
    + assert (l0 = l) by congruence. subst l0.
      destruct (IH (App.set_last prev m) m (last_of_set_last prev m))
        as (l' & s1 & Hl' & Hs1).
      exists l', (s0 ++ s1)%list. split; [exact Hl'|].
      now rewrite Hs1, Hseg, app_assoc.
Qed.

Lemma client_fold_content (ws : list Server.Wire)
  (prev : list App.ChatMessage) (l : App.ChatMessage) :
  App.last_of prev = Some l ->
  App.role l = "assistant" ->
  App.content l = String.concat "" (App.or_nil (App.assistantChunks l)) ->
  exists m,
    client_fold JSON_stringify ws prev = (removelast prev ++ [m])%list
    /\ App.or_nil (App.assistantChunks m)
       = (App.or_nil (App.assistantChunks l) ++ delta_contents ws)%list
    /\ App.content m = String.concat "" (App.or_nil (App.assistantChunks m)).
Proof.
  unfold client_fold.
  revert prev l. induction ws as [|w rest IH]; intros prev l Hl Hr Hc.
  - exists l. simpl. rewrite app_nil_r. split; [|now split].
    now apply last_of_some.
  - simpl fold_left.
    assert (Hstep : exists m1,
               App.on_evt JSON_stringify (Server.wire_json w) prev
               = App.set_last prev m1
               /\ App.role m1 = "assistant"
               /\ App.or_nil (App.assistantChunks m1)
                  = (App.or_nil (App.assistantChunks l)
                     ++ delta_contents [w])%list
               /\ App.content m1
                  = String.concat "" (App.or_nil (App.assistantChunks m1))).
    { assert (Hsame : App.set_last prev l = prev)
        by (symmetry; now apply last_of_some).
      destruct w as [f|raw|cid msgs|st e].
      - rewrite on_evt_wire_delta.
        destruct (on_delta_shape f prev l Hl Hr)
          as (m & H & Hrole & _ & Hch & Hcont & _).
        exists m. rewrite Hch. cbn [App.or_nil delta_contents flat_map app].
        repeat split; auto. congruence.
      - rewrite on_evt_wire_event.
        cbn [delta_contents flat_map]. rewrite app_nil_r.
        destruct (truthy (Some raw));
          [|exists l; rewrite Hsame; now repeat split].
        destruct (on_event_shape raw prev)
          as [H | (l0 & m & s & Hl0 & H & _ & Hrole & Hcont & _ & Hch & _)].
        + exists l. rewrite H, Hsame. now repeat split.
        + assert (l0 = l) by congruence. subst l0.
          exists m. rewrite Hch, Hcont. repeat split; auto. congruence.
      - rewrite on_evt_wire_other by exact I.
        exists l. cbn [delta_contents flat_map]. rewrite app_nil_r, Hsame.
        now repeat split.
      - rewrite on_evt_wire_other by exact I.
        exists l. cbn [delta_contents flat_map]. rewrite app_nil_r, Hsame.
        now repeat split. }
    destruct Hstep as (m1 & -> & Hr1 & Hch1 & Hc1).
    destruct (IH (App.set_last prev m1) m1 (last_of_set_last prev m1) Hr1 Hc1)
      as (m & Hfold & Hch & Hcont).
    exists m. unfold App.set_last in Hfold. rewrite removelast_last in Hfold.
    split; [exact Hfold|]. split; [|exact Hcont].
    rewrite Hch, Hch1, <- app_assoc. f_equal.
    change (w :: rest) with ([w] ++ rest)%list.
    now rewrite delta_contents_app.
Qed.

End ClientReducers.

(** ** From the server to the client *)

Section ServerToClient.
Import CubeClient Spec.

Variable JSON_parse : string -> option json.
Variable JSON_stringify : json -> string.

(** X23.  Whatever upstream sends, when the client has taken in what the
    handler wrote while [sendToCube] ran, the content of the assistant
    placeholder is the text the handler has accumulated, and its chunks
    are the deltas written, in order. *)
Theorem client_content_is_the_streamed_text
  (configured : bool) (res : Response) (reply : CubeReply)
  (stream : Server.Stream) (msgs : list App.ChatMessage) (now : string) :
  sendToCube JSON_parse Server.onDelta configured res no_writes
  = Returned (reply, stream) ->
  exists m,
    client_fold JSON_stringify (Server.written stream)
      (msgs ++ [placeholder now])
    = (msgs ++ [m])%list
    /\ App.content m = Server.assistantAccum stream
    /\ App.or_nil (App.assistantChunks m)
       = delta_contents (Server.written stream).
Proof.
  intros Hs.
  assert (Hok : stream_ok stream).
  { unfold sendToCube in Hs.
    destruct (negb configured); [discriminate|].
    destruct (body res) as [chunks|]; [|discriminate].
    destruct (ok res); [|discriminate].
    injection Hs as _ <-. apply stream_stays_ok. }
  destruct (client_fold_content JSON_stringify (Server.written stream)
              (msgs ++ [placeholder now]) (placeholder now))
    as (m & Hfold & Hch & Hcont); try reflexivity.
  { apply last_of_snoc. }
  exists m. rewrite removelast_last in Hfold. split; [exact Hfold|].
  cbn [placeholder App.assistantChunks App.or_nil app] in Hch.
  split; [|exact Hch].
  rewrite Hcont, Hch. symmetry. apply Hok.
Qed.

Lemma split_nl_line (line rest : string) :
  no_nl line = true ->
  split_nl (line ++ String nl rest) = line :: split_nl rest.
Proof.
  induction line as [|c line IH]; simpl; intros H.
  - reflexivity.
  - apply andb_prop in H. destruct H as [Hc Hl].
    apply negb_true_iff in Hc. rewrite Hc, IH by assumption. reflexivity.
Qed.

Lemma split_nl_single (s : string) :
  no_nl s = true -> split_nl s = [s].
Proof.
  induction s as [|c s IH]; simpl; intros H; [reflexivity|].
  apply andb_prop in H. destruct H as [Hc Hl].
  apply negb_true_iff in Hc. rewrite Hc, IH by assumption. reflexivity.
Qed.

Lemma split_nl_pieces (s : string) : forallb no_nl (split_nl s) = true.
Proof.
  induction s as [|c s IH]; [reflexivity|]. simpl.
  destruct (Ascii.eqb c nl) eqn:Ec; [exact IH|].
  destruct (split_nl s) as [|p ps]; simpl in *.
  - now rewrite Ec.
  - now rewrite Ec.
Qed.

Lemma no_nl_append (a b : string) :
  no_nl a = true -> no_nl b = true -> no_nl (a ++ b) = true.
Proof.
  induction a as [|c a IH]; simpl; intros Ha Hb; [exact Hb|].
  apply andb_prop in Ha. destruct Ha as [Hc Ha].
  now rewrite Hc, IH.
Qed.

Lemma split_body_text (ws : list Server.Wire) :
  Forall (fun w => no_nl (JSON_stringify (Server.wire_json w)) = true) ws ->
  split_nl (Server.body_text JSON_stringify ws)
  = (map (fun w => JSON_stringify (Server.wire_json w)) ws ++ [""])%list.
Proof.
  induction 1 as [|w rest Hw _ IH]; [reflexivity|].
  simpl. rewrite split_nl_line by assumption. now rewrite IH.
Qed.

(** X24.  The transport does not matter: if every envelope the handler
    wrote goes through [JSON.stringify] and [JSON.parse] unharmed, then
    however the network cuts the body into chunks, the read loop of the
    client hands to its reducer exactly the envelopes written, in order:
    none lost, none twice. *)
Theorem client_reads_what_the_server_wrote
  (ws : list Server.Wire) (chunks : list string)
  (prev : list App.ChatMessage) :
  Forall (fun w => transports JSON_parse JSON_stringify (Server.wire_json w))
    ws ->
  String.concat "" chunks = Server.body_text JSON_stringify ws ->
  App.read_response JSON_parse JSON_stringify chunks prev
  = client_fold JSON_stringify ws prev.
Proof.
  intros Hall Htext. unfold App.read_response.
  pose proof (read_loop_text _ (App.on_line JSON_parse JSON_stringify)
                chunks "" prev) as Hloop.
  simpl in Hloop. rewrite Hloop. cbn [snd]. rewrite Htext.
  rewrite split_body_text
    by (eapply Forall_impl; [|exact Hall]; now intros w (H & _)).
  rewrite removelast_last. unfold client_fold, for_lines.
  clear Hloop Htext. revert prev.
  induction Hall as [|w rest (Hn & Hb & Hp) _ IH]; intros prev;
    [reflexivity|].
  simpl. unfold nonblank in Hb. rewrite Hb. simpl negb. cbv iota.
  unfold App.on_line at 2. rewrite Hp. apply IH.
Qed.

(** X25.  The client looks at complete lines only: what comes after the
    last newline of the response is never handed to [JSON.parse], so that
    appending to the response a piece without a newline changes nothing. *)
Theorem client_ignores_unterminated_line
  (chunks : list string) (tail : string) (prev : list App.ChatMessage) :
  no_nl tail = true ->
  App.read_response JSON_parse JSON_stringify (chunks ++ [tail]) prev
  = App.read_response JSON_parse JSON_stringify chunks prev.
Proof.
  intros Ht. unfold App.read_response.
  pose proof (read_loop_text _ (App.on_line JSON_parse JSON_stringify)
                (chunks ++ [tail]) "" prev) as H1.
  pose proof (read_loop_text _ (App.on_line JSON_parse JSON_stringify)
                chunks "" prev) as H2.
  simpl in H1, H2. rewrite H1, H2. cbn [snd]. f_equal.
  rewrite concat_snoc, split_nl_app.
  assert (Hlast : no_nl (last (split_nl (String.concat "" chunks)) "" ++ tail)
                  = true).
  { pose proof (split_nl_pieces (String.concat "" chunks)) as Hp.
    pose proof (split_nl_nonempty (String.concat "" chunks)) as Hne.
    rewrite (app_removelast_last "" Hne), forallb_app in Hp.
    apply andb_prop in Hp. destruct Hp as [_ Hp]. simpl in Hp.
    rewrite andb_true_r in Hp. now apply no_nl_append. }
  rewrite (split_nl_single _ Hlast). apply removelast_last.
Qed.

End ServerToClient.

(** ** Reasoning steps *)

Section ThinkingSteps.
Import Spec.

Variable JSON_stringify : json -> string.

Lemma split_runs_pieces (in_run : bool) (s : string) :
  forallb no_nl (split_nl_runs in_run s) = true.
Proof.
  revert in_run. induction s as [|c s IH]; intros in_run; [reflexivity|].
  simpl. destruct (Ascii.eqb c nl) eqn:Ec.
  - destruct in_run; [apply IH | simpl; apply IH].
  - specialize (IH false).
    destruct (split_nl_runs false s) as [|p ps]; simpl in *; now rewrite Ec.
Qed.

Lemma forallb_pop (P : string -> bool) (xs : list string) :
  P "" = true ->
  forallb P xs = true ->
  forallb P (fst (pop xs)) = true /\ P (snd (pop xs)) = true.
Proof.
  intros H0. unfold pop. cbn [fst snd].
  induction xs as [|x rest IH]; intros H; [now split|].
  simpl in H. apply andb_prop in H. destruct H as [Hx Hr].
  destruct rest as [|y rest']; [now split|].
  destruct (IH Hr) as [H1 H2].
  change (removelast (x :: y :: rest')) with (x :: removelast (y :: rest')).
  change (last (x :: y :: rest') "") with (last (y :: rest') "").
  split; [cbn [forallb]; now rewrite Hx, H1 | exact H2].
Qed.

Lemma push_parts_steps (parts : list string)
  (acc : list string * list App.Segment) :
  forallb no_nl parts = true ->
  exists added,
    fst (App.push_parts JSON_stringify parts acc) = (fst acc ++ added)%list
    /\ forallb (fun s => nonblank s && no_nl s) added = true.
Proof.
  unfold App.push_parts. revert acc.
  induction parts as [|p rest IH]; intros acc H; simpl.
  - exists []. now rewrite app_nil_r.
  - simpl in H. apply andb_prop in H. destruct H as [Hp Hr].
    destruct (truthy_str (trim p)) eqn:Hb; [|now apply IH].
    destruct (IH ((fst acc ++ [p])%list,
                  App.pushSeg JSON_stringify (snd acc) (App.thinking p)) Hr)
      as (added & Hf & Ha).
    exists (p :: added). rewrite Hf. cbn [fst]. rewrite <- app_assoc.
    split; [reflexivity|]. simpl. unfold nonblank at 1. now rewrite Hb, Hp.
Qed.

(** X26.  An event with reasoning text adds to the steps of the message
    only single lines that are not blank, and leaves a pending buffer
    with no newline in it. *)
Theorem thinking_steps_are_lines (raw : json) (steps : list string)
  (buffer : string) (segs : list App.Segment) (meta : list (string * json)) :
  truthy (get "thinking" raw) = true ->
  exists added,
    fst (fst (fst (App.fold_thinking JSON_stringify raw
                     (steps, buffer, segs, meta))))
    = (steps ++ added)%list
    /\ forallb (fun s => nonblank s && no_nl s) added = true
    /\ no_nl (snd (fst (fst (App.fold_thinking JSON_stringify raw
                               (steps, buffer, segs, meta)))))
       = true.
Proof.
  intros Ht. unfold App.fold_thinking.
  destruct (get "thinking" raw) as [t|]; [|discriminate]. rewrite Ht.
  destruct (forallb_pop no_nl (split_nl_runs false (buffer ++ to_String t))
              eq_refl (split_runs_pieces false _)) as [Hparts Hbuf].
  destruct (pop _) as [parts buffer']. cbn [fst snd] in Hparts, Hbuf.
  destruct (push_parts_steps parts (steps, segs) Hparts) as (added & Hf & Ha).
  destruct (App.push_parts JSON_stringify parts (steps, segs))
    as [steps1 segs1].
  cbn [fst] in Hf. subst steps1.
  destruct (get "isInProcess" raw) as [[|[|]| | | |]|];
    try (exists added; cbn [fst snd]; now repeat split).
  destruct (truthy_str (trim buffer')) eqn:Hb;
    [|exists added; cbn [fst snd]; now repeat split].
  exists (added ++ [buffer'])%list. cbn [fst snd].
  split; [now rewrite app_assoc|]. split; [|reflexivity].
  rewrite forallb_app, Ha. simpl. unfold nonblank. now rewrite Hb, Hbuf.
Qed.

End ThinkingSteps.

(** ** The further properties at concrete inputs *)

Section FurtherExamples.
Import CubeClient Spec.

Lemma user_echo_contributes_nothing_witness :
  on_line JsonText.parse record_call (line_of (user_env "hi"))
    (set_streaming true (start []))
  = set_streaming true (start [])
  /\ sink (on_trailing JsonText.parse record_call (line_of user_cutoff)
             (start []))
     = [].
Proof.
  destruct (user_echo_contributes_nothing (list (string * json))
              JsonText.parse record_call (line_of (user_env "hi"))
              (user_env "hi") (set_streaming true (start []))
              eq_refl eq_refl) as (H1 & _).
  destruct (user_echo_contributes_nothing (list (string * json))
              JsonText.parse record_call (line_of user_cutoff)
              user_cutoff (start []) eq_refl eq_refl) as (_ & _ & _ & H2).
  split; [exact H1 | exact H2].
Defined.

Lemma reply_is_the_forwarded_text_witness :
  "Sales are up."
  = reply_text (String.concat "" [""; "Sales "; ""; "are up."]).
Proof.
  exact (reply_is_the_forwarded_text JsonText.parse mixed_response
           {| message := "Sales are up.";
              metadata := Some (JObj [("thinking", JStr "t")]) |}
           [("", reasoned_env "Sales " "t");
            ("Sales ", reasoned_env "Sales " "t");
            ("", assistant_env "are up.");
            ("are up.", assistant_env "are up.")]
           eq_refl).
Defined.

Lemma metadata_undefined_iff_nothing_forwarded_witness :
  (@None json = None <-> @nil (string * json) = [])
  /\ sendToCube JsonText.parse record_call true
       (ok_response [ln (line_of (assistant_env "old"))]) []
     = Returned ({| message := "No response"; metadata := None |}, []).
Proof.
  split; [|reflexivity].
  exact (metadata_undefined_iff_nothing_forwarded JsonText.parse
           (ok_response [ln (line_of (assistant_env "old"))])
           {| message := "No response"; metadata := None |} [] eq_refl).
Defined.

Lemma user_echo_is_never_forwarded_witness :
  Forall (fun c => is_user (snd c) = false)
    [("", reasoned_env "Sales " "t"); ("Sales ", reasoned_env "Sales " "t");
     ("", assistant_env "are up."); ("are up.", assistant_env "are up.")].
Proof.
  exact (user_echo_is_never_forwarded JsonText.parse mixed_response
           {| message := "Sales are up.";
              metadata := Some (JObj [("thinking", JStr "t")]) |}
           [("", reasoned_env "Sales " "t");
            ("Sales ", reasoned_env "Sales " "t");
            ("", assistant_env "are up.");
            ("are up.", assistant_env "are up.")]
           eq_refl).
Defined.

Lemma mergeMeta_value_of_key_witness :
  acc_get "__proto__"
    (Some (mergeMeta (Some (JObj [("query", JStr "p")]))
             (JObj [("metadata",
                     JObj [("__proto__", JObj [("query", JStr "r")]);
                           ("query", JStr "q")]);
                    ("toolCall", JStr "c")])))
  = None
  /\ acc_get "query"
       (Some (mergeMeta (Some (JObj [("query", JStr "p")]))
                (JObj [("metadata",
                        JObj [("__proto__", JObj [("query", JStr "r")]);
                              ("query", JStr "q")]);
                       ("toolCall", JStr "c")])))
     = Some (JStr "q")
  /\ acc_get "toolCall"
       (Some (mergeMeta (Some (JObj [("query", JStr "p")]))
                (JObj [("metadata",
                        JObj [("__proto__", JObj [("query", JStr "r")]);
                              ("query", JStr "q")]);
                       ("toolCall", JStr "c")])))
     = Some (JStr "c").
Proof.
  split; [|split].
  - exact (mergeMeta_value_of_key (Some (JObj [("query", JStr "p")]))
             (JObj [("metadata",
                     JObj [("__proto__", JObj [("query", JStr "r")]);
                           ("query", JStr "q")]);
                    ("toolCall", JStr "c")])
             "__proto__").
  - exact (mergeMeta_value_of_key (Some (JObj [("query", JStr "p")]))
             (JObj [("metadata",
                     JObj [("__proto__", JObj [("query", JStr "r")]);
                           ("query", JStr "q")]);
                    ("toolCall", JStr "c")])
             "query").
  - exact (mergeMeta_value_of_key (Some (JObj [("query", JStr "p")]))
             (JObj [("metadata",
                     JObj [("__proto__", JObj [("query", JStr "r")]);
                           ("query", JStr "q")]);
                    ("toolCall", JStr "c")])
             "toolCall").
Defined.

Lemma token_survives_restart_witness :
  fst (Tokens.readCachedToken "u-1"
         {| Tokens.cachedToken := None;
            Tokens.tokens :=
              Tokens.tokens (Tokens.writeCachedToken "u-1" "tok" empty_cache) |})
  = Some "tok"
  /\ fst (Tokens.readCachedToken "u-1"
            (Tokens.writeCachedToken "u-1" "" empty_cache))
     = None.
Proof.
  apply (token_survives_restart "u-1" "tok" empty_cache). discriminate.
Defined.

Lemma cached_token_ignores_external_id_witness :
  Tokens.readCachedToken "u-2" (Tokens.writeCachedToken "u-1" "tok" empty_cache)
  = (Some "tok", Tokens.writeCachedToken "u-1" "tok" empty_cache).
Proof.
  apply (cached_token_ignores_external_id "u-1" "u-2" "tok" empty_cache).
  discriminate.
Defined.

Lemma cleared_token_is_gone_witness :
  fst (Tokens.readCachedToken "u-2"
         (Tokens.clearCachedToken "u-1"
            (Tokens.writeCachedToken "u-2" "tok2"
               (Tokens.writeCachedToken "u-1" "tok1" empty_cache))))
  = Some "tok2".
Proof.
  destruct (cleared_token_is_gone "u-1" "u-2"
              (Tokens.writeCachedToken "u-2" "tok2"
                 (Tokens.writeCachedToken "u-1" "tok1" empty_cache)))
    as [_ H].
  rewrite H; [reflexivity | discriminate].
Defined.

Lemma getToken_is_served_from_cache_witness :
  Tokens.getToken bad_network "u-2" false
    (Tokens.writeCachedToken "u-1" "t-s-u-1" empty_cache)
  = (Returned "t-s-u-1", Tokens.writeCachedToken "u-1" "t-s-u-1" empty_cache).
Proof.
  apply (getToken_is_served_from_cache good_network bad_network
           "u-1" "u-2" "t-s-u-1" false empty_cache).
  - reflexivity.
  - discriminate.
Defined.

Lemma getToken_failure_keeps_cache_witness :
  snd (Tokens.getToken bad_network "u-1" true
         (Tokens.writeCachedToken "u-1" "tok" empty_cache))
  = Tokens.writeCachedToken "u-1" "tok" empty_cache.
Proof.
  apply (getToken_failure_keeps_cache bad_network "u-1" "Session gen HTTP 503"
           true (Tokens.writeCachedToken "u-1" "tok" empty_cache)).
  reflexivity.
Defined.

Lemma handler_stream_is_consistent_witness :
  "Sales are up." = String.concat "" ["Sales "; "are up."]
  /\ forallb streamed
       [Server.WEvent (reasoned_env "Sales " "t"); Server.WDelta "Sales ";
        Server.WEvent (reasoned_env "Sales " "t"); Server.WDelta "are up."]
     = true.
Proof.
  exact (handler_stream_is_consistent JsonText.parse true mixed_response
           {| message := "Sales are up.";
              metadata := Some (JObj [("thinking", JStr "t")]) |}
           {| Server.assistantAccum := "Sales are up.";
              Server.written :=
                [Server.WEvent (reasoned_env "Sales " "t");
                 Server.WDelta "Sales ";
                 Server.WEvent (reasoned_env "Sales " "t");
                 Server.WDelta "are up."] |}
           eq_refl).
Defined.

Lemma event_is_written_twice_witness :
  Server.written
    (sink (on_message Server.onDelta (reasoned_env "Sales " "t") open_stream))
  = [Server.WEvent (reasoned_env "Sales " "t"); Server.WDelta "Sales ";
     Server.WEvent (reasoned_env "Sales " "t")]
  /\ Server.written
       (sink (on_message Server.onDelta (reasoned_env "" "t") open_stream))
     = [Server.WEvent (reasoned_env "" "t");
        Server.WEvent (reasoned_env "" "t")].
Proof.
  split.
  - destruct (event_is_written_twice (reasoned_env "Sales " "t") "Sales "
                open_stream eq_refl
                (conj eq_refl (conj eq_refl eq_refl)) eq_refl)
      as (deltas & Hw & _ & _ & Hf).
    rewrite Hw, (Hf eq_refl). reflexivity.
  - destruct (event_is_written_twice (reasoned_env "" "t") ""
                open_stream eq_refl
                (conj eq_refl (conj eq_refl eq_refl)) eq_refl)
      as (deltas & Hw & _ & He & _).
    rewrite Hw, (He eq_refl). reflexivity.
Defined.

Lemma listing_is_ordered_and_complete_witness :
  Sorted by_timestamp
    [{| Repo.role := "user"; Repo.content := "sooner";
        Repo.timestamp := "2024-01-01"; Repo.metadata := Some JNull |};
     {| Repo.role := "assistant"; Repo.content := "later";
        Repo.timestamp := "2024-01-02"; Repo.metadata := Some (JObj []) |}].
Proof.
  apply (listing_is_ordered_and_complete "c-0" "u-1" small_db). reflexivity.
Defined.

Lemma addMessage_touches_one_conversation_witness :
  (exists db',
     Repo.addMessage "c-0" note small_db = Returned db'
     /\ (exists rows',
           Repo.listMessages "c-0" "u-1" db' = Some rows'
           /\ List.length rows' = 3))
  /\ (exists e, Repo.addMessage "c-9" note small_db = Thrown e).
Proof.
  destruct (addMessage_touches_one_conversation "c-0" note small_db)
    as [H1 _].
  destruct (addMessage_touches_one_conversation "c-9" note small_db)
    as [_ H2].
  split.
  - destruct (H1 eq_refl) as (db' & Hadd & _ & Hl & _).
    exists db'. split; [exact Hadd|].
    destruct (Hl "u-1" _ eq_refl) as (rows' & Hrows & Hp).
    exists rows'. split; [exact Hrows|].
    now rewrite (Permutation_length Hp).
  - exact (H2 eq_refl).
Defined.

Lemma createConversation_opens_for_its_user_witness :
  Repo.listMessages "c-1" "u-1"
    (snd (Repo.createConversation "c-1" "u-1" None small_db))
  <> None
  /\ Repo.listMessages "c-1" "u-2"
       (snd (Repo.createConversation "c-1" "u-1" None small_db))
     = None.
Proof.
  destruct (createConversation_opens_for_its_user "c-1" "u-1" None small_db)
    as [H1 H2].
  split; [exact H1|].
  rewrite H2; [reflexivity | right; discriminate].
Defined.

Lemma turn_completes_witness :
  exists db' ws msgs a,
    Server.chat JsonText.parse scenario_world first_request empty_db
    = (db',
       {| Server.head := Some 200;
          Server.sent := (ws ++ [Server.WDone "c-1" msgs])%list;
          Server.closed := Server.Ended |},
       Returned tt)
    /\ forallb streamed ws = true
    /\ Repo.conversations db'
       = opened_conversation scenario_world first_request
    /\ Repo.messages db' = [user_row scenario_world first_request; a]
    /\ Repo.m_conversation_id a = "c-1"
    /\ Repo.m_role a = "assistant"
    /\ Repo.m_content a <> ""
    /\ Repo.m_timestamp a = "2024-01-01T00:00:01.000Z".
Proof.
  apply (turn_completes JsonText.parse scenario_world first_request empty_db).
  - discriminate.
  - reflexivity.
  - reflexivity.
  - reflexivity.
Defined.

Lemma opened_conversation_can_be_read_back_witness :
  exists rows,
    Server.get_messages (Some "u-1") "c-1"
      (fst (fst (Server.chat JsonText.parse failing_world first_request
                   empty_db)))
    = inl rows
    /\ In (listed (user_row failing_world first_request)) rows.
Proof.
  apply (opened_conversation_can_be_read_back JsonText.parse failing_world
           first_request empty_db "u-1").
  - discriminate.
  - reflexivity.
  - discriminate.
  - reflexivity.
Defined.

Lemma empty_user_id_cannot_read_back_witness :
  Server.get_messages (Some "") "c-1"
    (fst (fst (Server.chat JsonText.parse scenario_world nameless_request
                 empty_db)))
  = inr (Server.WError 404 "Not found").
Proof.
  apply (empty_user_id_cannot_read_back JsonText.parse scenario_world
           nameless_request empty_db).
  - discriminate.
  - reflexivity.
  - reflexivity.
  - reflexivity.
Defined.

Lemma only_the_last_message_changes_witness :
  App.on_evt JsonText.stringify (Server.wire_json (Server.WDelta "Sales "))
    [placeholder "t0";
     {| App.role := "user"; App.content := "hi"; App.timestamp := "t1";
        App.assistantChunks := None; App.thinkingSteps := None;
        App.thinkingBuffer := None; App.toolCalls := None;
        App.toolResults := None; App.sqlToolCalls := None;
        App.sqlToolResults := None; App.segments := None;
        App.metadata := None |}]
  = [placeholder "t0";
     {| App.role := "user"; App.content := "hi"; App.timestamp := "t1";
        App.assistantChunks := None; App.thinkingSteps := None;
        App.thinkingBuffer := None; App.toolCalls := None;
        App.toolResults := None; App.sqlToolCalls := None;
        App.sqlToolResults := None; App.segments := None;
        App.metadata := None |}].
Proof.
  destruct (only_the_last_message_changes JsonText.stringify
              (Server.wire_json (Server.WDelta "Sales "))
              [placeholder "t0";
               {| App.role := "user"; App.content := "hi";
                  App.timestamp := "t1";
                  App.assistantChunks := None; App.thinkingSteps := None;
                  App.thinkingBuffer := None; App.toolCalls := None;
                  App.toolResults := None; App.sqlToolCalls := None;
                  App.sqlToolResults := None; App.segments := None;
                  App.metadata := None |}])
    as (_ & _ & _ & _ & H).
  apply (H _ eq_refl). discriminate.
Defined.

Lemma segments_only_grow_witness :
  exists l' suffix,
    App.last_of
      (fold_left (fun st evt => App.on_evt JsonText.stringify evt st)
         [Server.wire_json (Server.WEvent (toolCall_env (JStr "q")));
          Server.wire_json (Server.WDelta "are up.")]
         [started "t0" "Sales "])
    = Some l'
    /\ App.or_nil (App.segments l') = ([App.text "Sales "] ++ suffix)%list
    /\ suffix = [App.toolCall (JObj [("call", JStr "q")]);
                 App.text "are up."].
Proof.
  destruct (segments_only_grow JsonText.stringify
              [Server.wire_json (Server.WEvent (toolCall_env (JStr "q")));
               Server.wire_json (Server.WDelta "are up.")]
              [started "t0" "Sales "] (started "t0" "Sales ") eq_refl)
    as (l' & suffix & Hl & Hs).
  exists l', suffix. split; [exact Hl|]. split; [exact Hs|].
  injection Hl as <-. cbn in Hs. now injection Hs as <-.
Defined.

Lemma client_content_is_the_streamed_text_witness :
  exists m,
    client_fold JsonText.stringify
      [Server.WEvent (reasoned_env "Sales " "t"); Server.WDelta "Sales ";
       Server.WEvent (reasoned_env "Sales " "t"); Server.WDelta "are up."]
      [placeholder "t0"]
    = [m]
    /\ App.content m = "Sales are up."
    /\ App.or_nil (App.assistantChunks m) = ["Sales "; "are up."].
Proof.
  exact (client_content_is_the_streamed_text JsonText.parse
           JsonText.stringify true mixed_response
           {| message := "Sales are up.";
              metadata := Some (JObj [("thinking", JStr "t")]) |}
           {| Server.assistantAccum := "Sales are up.";
              Server.written :=
                [Server.WEvent (reasoned_env "Sales " "t");
                 Server.WDelta "Sales ";
                 Server.WEvent (reasoned_env "Sales " "t");
                 Server.WDelta "are up."] |}
           [] "t0" eq_refl).
Defined.

Lemma client_reads_what_the_server_wrote_witness :
  App.read_response JsonText.parse JsonText.stringify
    [substring 0 10
       (Server.body_text JsonText.stringify
          [Server.WDelta "Sales "; Server.WEvent (toolCall_env (JStr "q"));
           Server.WDone "c-1" []]);
     substring 10 200
       (Server.body_text JsonText.stringify
          [Server.WDelta "Sales "; Server.WEvent (toolCall_env (JStr "q"));
           Server.WDone "c-1" []])]
    [placeholder "t0"]
  = client_fold JsonText.stringify
      [Server.WDelta "Sales "; Server.WEvent (toolCall_env (JStr "q"));
       Server.WDone "c-1" []]
      [placeholder "t0"].
Proof.
  apply client_reads_what_the_server_wrote.
  - repeat constructor.
  - reflexivity.
Defined.

Lemma client_ignores_unterminated_line_witness :
  App.read_response JsonText.parse JsonText.stringify
    ([ln (line_of (Server.wire_json (Server.WDelta "Sales "))) ]
     ++ [line_of (Server.wire_json (Server.WDelta "are up."))])
    [placeholder "t0"]
  = App.read_response JsonText.parse JsonText.stringify
      [ln (line_of (Server.wire_json (Server.WDelta "Sales ")))]
      [placeholder "t0"].
Proof.
  apply client_ignores_unterminated_line. reflexivity.
Defined.

Lemma thinking_steps_are_lines_witness :
  exists added,
    fst (fst (fst (App.fold_thinking JsonText.stringify
                     (JObj [("thinking", JStr (ln "b" ++ ln "" ++ "c"))])
                     (["x"], "a", [], []))))
    = (["x"] ++ added)%list
    /\ forallb (fun s => nonblank s && no_nl s) added = true
    /\ no_nl (snd (fst (fst (App.fold_thinking JsonText.stringify
                               (JObj [("thinking",
                                       JStr (ln "b" ++ ln "" ++ "c"))])
                               (["x"], "a", [], [])))))
       = true.
Proof.
  apply thinking_steps_are_lines. reflexivity.
Defined.

End FurtherExamples.
